(** * empleados-api: a shallow embedding of the route handlers

    The repository is an Express application over PostgreSQL.  Its sources
    hold several generations of the same server: the in-memory demo
    ([src/server.js], first document), the SQL server with inline handlers
    ([src/unnamed/part_000] and the second document of [src/server.js], which
    adds the code generator and the input-normalising middleware), the
    [empleados] SQL server, and the extracted controller
    ([src/modules/candidatos/candidatos.controller.js]).

    Each handler is embedded as a function from the request and the database
    to a response and the database afterwards.  Statements run in a small
    state-and-exception monad that carries the client's session (live data
    and the snapshot an open transaction rolls back to). *)

From Stdlib Require Import List String Ascii ZArith Lia Bool.
From Stdlib Require Import Sorted Permutation DecimalString DecimalNat FinFun.
Import ListNotations.

Open Scope string_scope.
Open Scope Z_scope.

(** ** JavaScript values as the handlers use them *)

Module Js.

(** A field of [req.query], [req.body] or [req.params] that holds text is
    [Some s]; a field the request does not carry ([undefined]) is [None]. *)
Definition field := option string.

(** Truthiness of such a field: [undefined] and the empty string are
    falsy, every other string is truthy. *)
Definition truthy (v : field) : bool :=
  match v with
  | Some s => negb (s =? "")%string
  | None => false
  end.

(** [x || null] *)
Definition or_null (v : field) : option string :=
  if truthy v then v else None.

(** A destructuring default, [{ x = d } = obj]: it replaces [undefined]
    only. *)
Definition default_to (d : string) (v : field) : string :=
  match v with
  | Some s => s
  | None => d
  end.

(** Numbers, as far as the handlers produce them: an integer or [NaN]. *)
Inductive number :=
| NaN
| Int (z : Z).

Definition is_digit (c : ascii) : bool :=
  ((48 <=? Z.of_nat (nat_of_ascii c)) && (Z.of_nat (nat_of_ascii c) <=? 57))%Z.

Definition is_space (c : ascii) : bool :=
  let n := nat_of_ascii c in
  ((9 <=? n) && (n <=? 13))%nat || (n =? 32)%nat.

Fixpoint all_digits (s : string) : bool :=
  match s with
  | EmptyString => true
  | String c s' => is_digit c && all_digits s'
  end.

Fixpoint digits_value (acc : Z) (s : string) : Z :=
  match s with
  | EmptyString => acc
  | String c s' => digits_value (10 * acc + (Z.of_nat (nat_of_ascii c) - 48)) s'
  end.

Fixpoint trim_start (s : string) : string :=
  match s with
  | String c s' => if is_space c then trim_start s' else s
  | EmptyString => EmptyString
  end.

Fixpoint trim_end (s : string) : string :=
  match s with
  | EmptyString => EmptyString
  | String c s' =>
      match trim_end s' with
      | EmptyString => if is_space c then EmptyString else String c EmptyString
      | t => String c t
      end
  end.

(** [String.prototype.trim], on the ASCII white space characters. *)
Definition trim (s : string) : string := trim_end (trim_start s).

(** [Number(s)] on a string: white space is trimmed, the empty string is
    [0], an optionally signed run of decimal digits is its value.  Every
    other string is taken to [NaN] (fractions, exponents, hexadecimal
    literals and [Infinity] are outside the modelled fragment). *)
Definition Number (s : string) : number :=
  match trim s with
  | EmptyString => Int 0
  | String "-" d =>
      if all_digits d && negb (d =? "")%string then Int (- digits_value 0 d) else NaN
  | String "+" d =>
      if all_digits d && negb (d =? "")%string then Int (digits_value 0 d) else NaN
  | d => if all_digits d then Int (digits_value 0 d) else NaN
  end.

(** A number inside a template literal, [`${n}`], for a natural number. *)
Definition nat_to_string (n : nat) : string :=
  NilEmpty.string_of_uint (Nat.to_uint n).

(** [Array.prototype.join] *)
Fixpoint join (sep : string) (l : list string) : string :=
  match l with
  | [] => ""
  | [x] => x
  | x :: rest => x ++ sep ++ join sep rest
  end.

(** ASCII case mapping, the part of [toUpperCase] and [toLowerCase] that
    acts on the bytes of a UTF-8 string below 128. *)
Definition upper_char (c : ascii) : ascii :=
  let n := nat_of_ascii c in
  if ((97 <=? n) && (n <=? 122))%nat then ascii_of_nat (n - 32) else c.

Definition lower_char (c : ascii) : ascii :=
  let n := nat_of_ascii c in
  if ((65 <=? n) && (n <=? 90))%nat then ascii_of_nat (n + 32) else c.

Fixpoint map_string (f : ascii -> ascii) (s : string) : string :=
  match s with
  | EmptyString => EmptyString
  | String c s' => String (f c) (map_string f s')
  end.

Definition toUpperCase : string -> string := map_string upper_char.
Definition toLowerCase : string -> string := map_string lower_char.

(** [s.slice(0, n)] *)
Definition slice0 (n : nat) (s : string) : string := substring 0 n s.

End Js.

(** ** HTTP responses *)

Module Http.

(** The JSON bodies the handlers send. *)
Inductive Json (Row : Type) :=
| JError (error : string)      (* { error: "..." } *)
| JText (text : string)        (* res.send("...") *)
| JOk                          (* { ok: true } *)
| JOkId (id : Z)               (* { ok: true, id } *)
| JRows (rows : list Row)      (* an array of rows *)
| JRow (row : option Row).     (* one row, or null *)

Arguments JError {Row} error.
Arguments JText {Row} text.
Arguments JOk {Row}.
Arguments JOkId {Row} id.
Arguments JRows {Row} rows.
Arguments JRow {Row} row.

Record Response (Row : Type) := mkResponse { status : Z; body : Json Row }.

Arguments mkResponse {Row} status body.
Arguments status {Row} r.
Arguments body {Row} r.

(** [res.json(x)] answers with status 200; [res.status(n).json(x)] with [n]. *)
Definition json {Row} (b : Json Row) : Response Row := mkResponse 200 b.
Definition status_json {Row} (n : Z) (b : Json Row) : Response Row := mkResponse n b.

End Http.

(** ** The storage layer: statements, exceptions and transactions *)

Module Pg.

(** What a rejected promise carries, as far as the handlers look at it:
    [e.code], PostgreSQL's SQLSTATE when the driver raised it. *)
Record Exn := mkExn { exn_code : option string }.

Definition unique_violation : Exn := mkExn (Some "23505").
Definition invalid_text_representation : Exn := mkExn (Some "22P02").
Definition numeric_value_out_of_range : Exn := mkExn (Some "22003").

(** The environment's failures: the statement that stands at position [k]
    in a handler's text is rejected with [e] when the environment says
    [Some e] (a lost connection, a time-out, a constraint outside the
    model). *)
Definition Faults := nat -> option Exn.
Definition no_faults : Faults := fun _ => None.

(** What a ROLLBACK restores.  Tables go back to the snapshot; sequences
    keep the values they handed out. *)
Class Database (Db : Type) := { restore_tables : Db -> Db -> Db }.

(** One client: the data it sees, and the snapshot taken by BEGIN while a
    transaction is open. *)
Record Session (Db : Type) := mkSession { live : Db; txn : option Db }.

Arguments mkSession {Db} live txn.
Arguments live {Db} s.
Arguments txn {Db} s.

Definition M (Db A : Type) : Type := Session Db -> (Exn + A) * Session Db.

Definition ret {Db A} (a : A) : M Db A := fun s => (inr a, s).

Definition bind {Db A B} (m : M Db A) (k : A -> M Db B) : M Db B :=
  fun s =>
    match m s with
    | (inr a, s') => k a s'
    | (inl e, s') => (inl e, s')
    end.

Definition throw {Db A} (e : Exn) : M Db A := fun s => (inl e, s).

(** A statement that reads: it fails with the environment's fault, or
    answers from the live data. *)
Definition query {Db A} (fault : option Exn) (q : Db -> Exn + A) : M Db A :=
  fun s =>
    match fault with
    | Some e => (inl e, s)
    | None => (q (live s), s)
    end.

(** A statement that writes: besides its answer (or the exception it
    raises) it leaves the live data as the statement left it. *)
Definition exec {Db A} (fault : option Exn) (q : Db -> (Exn + A) * Db) : M Db A :=
  fun s =>
    match fault with
    | Some e => (inl e, s)
    | None => let (r, db') := q (live s) in (r, mkSession db' (txn s))
    end.

(** A call that does not touch the database (an upload). *)
Definition lift {Db A} (r : Exn + A) : M Db A := fun s => (r, s).

Definition BEGIN {Db} (fault : option Exn) : M Db unit :=
  fun s =>
    match fault with
    | Some e => (inl e, s)
    | None => (inr tt, mkSession (live s) (Some (live s)))
    end.

Definition COMMIT {Db} (fault : option Exn) : M Db unit :=
  fun s =>
    match fault with
    | Some e => (inl e, s)
    | None => (inr tt, mkSession (live s) None)
    end.

Definition ROLLBACK {Db} `{Database Db} (s : Session Db) : Session Db :=
  match txn s with
  | Some snapshot => mkSession (restore_tables snapshot (live s)) None
  | None => s
  end.

(** The data other clients see once the client is released: work of a
    transaction that was never committed is not part of it. *)
Definition committed {Db} `{Database Db} (s : Session Db) : Db :=
  live (ROLLBACK s).

(** [try { body } catch (e) { on_error(e) }] around a handler whose
    [catch] does not touch the database. *)
Definition try_catch {Db R} `{Database Db}
    (body : M Db R) (on_error : Exn -> R) (db : Db) : R * Db :=
  match body (mkSession db None) with
  | (inr r, s) => (r, committed s)
  | (inl e, s) => (on_error e, committed s)
  end.

(** [try { body } catch (e) { await client.query("ROLLBACK"); on_error(e) }],
    for a handler that holds its client: [pool.connect()] has handed one
    over, and the ROLLBACK of the [catch] is carried out. *)
Definition try_catch_rollback {Db R} `{Database Db}
    (body : M Db R) (on_error : Exn -> R) (db : Db) : R * Db :=
  match body (mkSession db None) with
  | (inr r, s) => (r, committed s)
  | (inl e, s) => (on_error e, live (ROLLBACK s))
  end.

End Pg.

Declare Scope pg_scope.
Delimit Scope pg_scope with pg.
Notation "x <- m ;; k" := (Pg.bind m (fun x => k))
  (at level 100, m at next level, right associativity) : pg_scope.
Notation "m ;;; k" := (Pg.bind m (fun _ => k))
  (at level 100, right associativity) : pg_scope.

(** ** Calendar dates

    A [date] column is a day number (days since 1970-01-01), which is what
    [DATE x - INTERVAL '1 day'] and [ORDER BY] work on.  [EXTRACT] reads the
    civil year and month back from it. *)

Module Date.

Definition date := Z.

Definition of_civil (y m d : Z) : date :=
  let y' := if m <=? 2 then y - 1 else y in
  let era := y' / 400 in
  let yoe := y' - era * 400 in
  let mp := if 2 <? m then m - 3 else m + 9 in
  let doy := (153 * mp + 2) / 5 + d - 1 in
  let doe := yoe * 365 + yoe / 4 - yoe / 100 + doy in
  era * 146097 + doe - 719468.

Definition civil (n : date) : Z * Z * Z :=
  let z := n + 719468 in
  let era := z / 146097 in
  let doe := z - era * 146097 in
  let yoe := (doe - doe / 1460 + doe / 36524 - doe / 146096) / 365 in
  let doy := doe - (365 * yoe + yoe / 4 - yoe / 100) in
  let mp := (5 * doy + 2) / 153 in
  let d := doy - (153 * mp + 2) / 5 + 1 in
  let m := if mp <? 10 then mp + 3 else mp - 9 in
  let y := yoe + era * 400 + (if m <=? 2 then 1 else 0) in
  (y, m, d).

Definition extract_year (n : date) : Z := fst (fst (civil n)).
Definition extract_month (n : date) : Z := snd (fst (civil n)).

(** [(DATE d - INTERVAL '1 day')::date] *)
Definition minus_one_day (n : date) : date := n - 1.

End Date.

(** ** Query results: ORDER BY *)

Module Sql.

Section OrderBy.
Context {A : Type}.
(** [before x y]: the ORDER BY clause lets [x] stand before [y]. *)
Variable before : A -> A -> bool.

Fixpoint insert (x : A) (l : list A) : list A :=
  match l with
  | [] => [x]
  | y :: l' => if before x y then x :: l else y :: insert x l'
  end.

Definition order_by (l : list A) : list A := fold_right insert [] l.
End OrderBy.

(** [ORDER BY key DESC] *)
Definition desc {A} (key : A -> Z) (x y : A) : bool := key y <=? key x.

(** [LIMIT 1] *)
Definition limit_1 {A} (l : list A) : list A := firstn 1 l.

(** *** WHERE clauses assembled at run time

    A list handler pushes, for every active filter, one fragment of SQL
    text with its placeholders, and the values for them.  A fragment is
    kept here with its text, as the template literal builds it, and with
    what PostgreSQL makes of it ([cond]). *)

(** A bound value, as the driver sends it. *)
Inductive Param :=
| PNum (n : Js.number)
| PText (s : string).

Inductive Cond :=
| YearIs (i : nat)                    (* EXTRACT(YEAR FROM fecha) = $i *)
| MonthIs (i : nat)                   (* EXTRACT(MONTH FROM fecha) = $i *)
| EstadoIsLower (i : nat)             (* LOWER(estado) = LOWER($i) *)
| EstadoIs (i : nat)                  (* estado = $i *)
| GrupoDigitsBetween (i j : nat)      (* (grupo ~ '^[0-9]+$' AND CAST(grupo AS INT) BETWEEN $i AND $j) *)
| GrupoCastBetween (i j : nat).       (* CAST(grupo AS INT) BETWEEN $i AND $j *)

Record Pred := mkPred { sql : string; cond : Cond }.

(** [where.length ? `WHERE ${where.join(" AND ")}` : ""] *)
Definition whereSQL (where_ : list Pred) : string :=
  match where_ with
  | [] => ""
  | _ => "WHERE " ++ Js.join " AND " (map sql where_)
  end.

(** The columns the filters read. *)
Class Columns (Row : Type) := {
  col_fecha : Row -> Date.date;
  col_estado : Row -> option string;
  col_grupo : Row -> option string
}.

Definition int4_min : Z := -2147483648.
Definition int4_max : Z := 2147483647.

Definition int4 (z : Z) : Pg.Exn + Z :=
  if (int4_min <=? z) && (z <=? int4_max) then inr z
  else inl Pg.numeric_value_out_of_range.

(** [CAST(text AS INT)]: white space around an optionally signed run of
    digits; anything else raises "invalid input syntax for type integer". *)
Definition cast_as_int (s : string) : Pg.Exn + Z :=
  match Js.trim s with
  | EmptyString => inl Pg.invalid_text_representation
  | String "-" d =>
      if Js.all_digits d && negb (d =? "")%string
      then int4 (- Js.digits_value 0 d) else inl Pg.invalid_text_representation
  | String "+" d =>
      if Js.all_digits d && negb (d =? "")%string
      then int4 (Js.digits_value 0 d) else inl Pg.invalid_text_representation
  | d =>
      if Js.all_digits d
      then int4 (Js.digits_value 0 d) else inl Pg.invalid_text_representation
  end.

(** [text ~ '^[0-9]+$'] *)
Definition matches_digits (s : string) : bool :=
  Js.all_digits s && negb (s =? "")%string.

(** The text the driver sends for a value. *)
Definition param_text (p : Param) : string :=
  match p with
  | PText s => s
  | PNum Js.NaN => "NaN"
  | PNum (Js.Int z) => NilEmpty.string_of_int (Z.to_int z)
  end.

(** Placeholders once the statement is bound: a placeholder compared with
    [EXTRACT(...)] is numeric (where [NaN] is a value), one compared with
    a text column is text, a bound of [BETWEEN] over an integer is an
    integer (where [NaN] is no value). *)
Inductive Bound :=
| BYear (n : Js.number)
| BMonth (n : Js.number)
| BEstadoLower (s : string)
| BEstado (s : string)
| BDigitsBetween (lo hi : Z)
| BCastBetween (lo hi : Z).

(** [$i] *)
Definition placeholder (params : list Param) (i : nat) : Pg.Exn + Param :=
  match nth_error params (i - 1) with
  | Some p => inr p
  | None => inl (Pg.mkExn (Some "08P01"))
  end.

Definition as_numeric (p : Param) : Pg.Exn + Js.number :=
  match p with
  | PNum n => inr n
  | PText s =>
      match cast_as_int s with
      | inr z => inr (Js.Int z)
      | inl e => inl e
      end
  end.

Definition as_integer (p : Param) : Pg.Exn + Z :=
  match p with
  | PNum (Js.Int z) => int4 z
  | PNum Js.NaN => inl Pg.invalid_text_representation
  | PText s => cast_as_int s
  end.

Definition and_then {A B} (r : Pg.Exn + A) (k : A -> Pg.Exn + B) : Pg.Exn + B :=
  match r with
  | inr a => k a
  | inl e => inl e
  end.

Definition bind_cond (params : list Param) (c : Cond) : Pg.Exn + Bound :=
  match c with
  | YearIs i =>
      and_then (and_then (placeholder params i) as_numeric) (fun n => inr (BYear n))
  | MonthIs i =>
      and_then (and_then (placeholder params i) as_numeric) (fun n => inr (BMonth n))
  | EstadoIsLower i =>
      and_then (placeholder params i) (fun p => inr (BEstadoLower (param_text p)))
  | EstadoIs i =>
      and_then (placeholder params i) (fun p => inr (BEstado (param_text p)))
  | GrupoDigitsBetween i j =>
      and_then (and_then (placeholder params i) as_integer) (fun lo =>
      and_then (and_then (placeholder params j) as_integer) (fun hi =>
      inr (BDigitsBetween lo hi)))
  | GrupoCastBetween i j =>
      and_then (and_then (placeholder params i) as_integer) (fun lo =>
      and_then (and_then (placeholder params j) as_integer) (fun hi =>
      inr (BCastBetween lo hi)))
  end.

Fixpoint bind_all (params : list Param) (cs : list Cond) : Pg.Exn + list Bound :=
  match cs with
  | [] => inr []
  | c :: rest =>
      and_then (bind_cond params c) (fun b =>
      and_then (bind_all params rest) (fun bs => inr (b :: bs)))
  end.

Section Where.
Context {Row : Type} `{Columns Row}.

(** One fragment on one row.  [x AND y] is taken left to right: [y] is
    evaluated only where [x] is true.  A comparison with NULL is not
    true. *)
Definition holds (b : Bound) (r : Row) : Pg.Exn + bool :=
  match b with
  | BYear Js.NaN => inr false
  | BYear (Js.Int z) => inr (Date.extract_year (col_fecha r) =? z)
  | BMonth Js.NaN => inr false
  | BMonth (Js.Int z) => inr (Date.extract_month (col_fecha r) =? z)
  | BEstadoLower s =>
      match col_estado r with
      | Some e => inr ((Js.toLowerCase e =? Js.toLowerCase s)%string)
      | None => inr false
      end
  | BEstado s =>
      match col_estado r with
      | Some e => inr ((e =? s)%string)
      | None => inr false
      end
  | BDigitsBetween lo hi =>
      match col_grupo r with
      | Some g =>
          if matches_digits g
          then and_then (cast_as_int g) (fun v => inr ((lo <=? v) && (v <=? hi)))
          else inr false
      | None => inr false
      end
  | BCastBetween lo hi =>
      match col_grupo r with
      | Some g => and_then (cast_as_int g) (fun v => inr ((lo <=? v) && (v <=? hi)))
      | None => inr false
      end
  end.

(** The fragments joined by [AND]. *)
Fixpoint holds_all (bs : list Bound) (r : Row) : Pg.Exn + bool :=
  match bs with
  | [] => inr true
  | b :: rest =>
      and_then (holds b r) (fun v => if v then holds_all rest r else inr false)
  end.

(** The scan: the rows the clause keeps, or the first exception. *)
Fixpoint scan (bs : list Bound) (rows : list Row) : Pg.Exn + list Row :=
  match rows with
  | [] => inr []
  | r :: rest =>
      and_then (holds_all bs r) (fun keep =>
      and_then (scan bs rest) (fun kept =>
      inr (if keep then r :: kept else kept)))
  end.

(** [SELECT ... FROM rows ${whereSQL}] with [params] bound. *)
Definition select_where (where_ : list Pred) (params : list Param)
    (rows : list Row) : Pg.Exn + list Row :=
  and_then (bind_all params (map cond where_)) (fun bs => scan bs rows).
End Where.

End Sql.

(** ** The employer's tax regime history
    [src/unnamed/part_000], lines 271-393 (and the same handlers in the
    second document of [src/server.js]) *)

Module EmployerTax.
Import Js Http Pg Date Sql.
Local Open Scope pg_scope.

Record Employer := mkEmployer { emp_id : Z; ruc : string; emp_name : string }.
Record Regime := mkRegime { reg_id : Z; code : string; name : string }.
Record Period := mkPeriod {
  id : Z;
  employer_id : Z;
  regime_id : Z;
  valid_from : date;
  valid_to : option date
}.

Record Db := mkDb {
  employers : list Employer;
  regimes_tax : list Regime;
  employer_tax_history : list Period;
  employer_tax_history_id_seq : Z
}.

#[global] Instance Db_Database : Database Db :=
  {| restore_tables snapshot current :=
       mkDb (employers snapshot) (regimes_tax snapshot)
            (employer_tax_history snapshot)
            (employer_tax_history_id_seq current) |}.

(** The row the tax endpoints answer with:
    [eth.id, eth.valid_from, eth.valid_to, rt.code, rt.name]. *)
Record TaxRow := mkTaxRow {
  t_id : Z;
  t_valid_from : date;
  t_valid_to : option date;
  t_code : string;
  t_name : string
}.

(** [{ regime_code, valid_from } = req.body || {}]; a [valid_from] that is
    present and not empty is a date. *)
Record Body := mkBody { regime_code : field; body_valid_from : option date }.

(** One request as the handler meets it: the body, the environment's
    faults for its eight statements, and the day it runs on. *)
Record Call := mkCall { faults : Faults; today : date; req_body : Body }.

(** [SELECT id FROM employers ORDER BY id ASC LIMIT 1] *)
Definition first_employer (db : Db) : list Employer :=
  limit_1 (order_by (fun x y => emp_id x <=? emp_id y) (employers db)).

(** [r.rows[0]?.id || null] *)
Definition getEmployerIdOrNull (fault : option Exn) : M Db (option Z) :=
  r <- query fault (fun db => inr (first_employer db)) ;;
  ret (match r with
       | e :: _ => if emp_id e =? 0 then None else Some (emp_id e)
       | [] => None
       end).

(** [SELECT id FROM regimes_tax WHERE code = $1] *)
Definition regimes_by_code (c : string) (db : Db) : list Regime :=
  filter (fun rt => (code rt =? c)%string) (regimes_tax db).

Definition is_null {A} (v : option A) : bool :=
  match v with None => true | Some _ => false end.

(** [SELECT id, valid_from FROM employer_tax_history
     WHERE employer_id = $1 AND valid_to IS NULL
     ORDER BY valid_from DESC LIMIT 1] *)
Definition open_period (empId : Z) (db : Db) : list Period :=
  limit_1 (order_by (desc valid_from)
    (filter (fun p => (employer_id p =? empId) && is_null (valid_to p))
            (employer_tax_history db))).

(** [UPDATE employer_tax_history
     SET valid_to = (DATE $2 - INTERVAL '1 day')::date
     WHERE id = $1 AND valid_to IS NULL], read as the day before the
    date bound to [$2]. *)
Definition close_period (prevId : Z) (vf : date) (db : Db) : Db :=
  mkDb (employers db) (regimes_tax db)
    (map (fun p =>
            if (id p =? prevId) && is_null (valid_to p)
            then mkPeriod (id p) (employer_id p) (regime_id p) (valid_from p)
                          (Some (minus_one_day vf))
            else p)
         (employer_tax_history db))
    (employer_tax_history_id_seq db).

(** [INSERT INTO employer_tax_history (employer_id, regime_id, valid_from, valid_to)
     VALUES ($1,$2,$3,NULL) RETURNING id] *)
Definition insert_period (empId regimeId : Z) (vf : date) (db : Db) : (Exn + Z) * Db :=
  let new_id := employer_tax_history_id_seq db in
  (inr new_id,
   mkDb (employers db) (regimes_tax db)
        (employer_tax_history db ++ [mkPeriod new_id empId regimeId vf None])
        (new_id + 1)).

(** [FROM employer_tax_history eth JOIN regimes_tax rt ON rt.id = eth.regime_id] *)
Definition join_regime (db : Db) (p : Period) : list TaxRow :=
  map (fun rt => mkTaxRow (id p) (valid_from p) (valid_to p) (code rt) (name rt))
      (filter (fun rt => reg_id rt =? regime_id p) (regimes_tax db)).

(** [... WHERE eth.id = $1] *)
Definition period_by_id (i : Z) (db : Db) : list TaxRow :=
  flat_map (join_regime db)
    (filter (fun p => id p =? i) (employer_tax_history db)).


(** The body of the [try] of [app.post("/api/employer/tax", ...)]. *)
Definition post_employer_tax_try (c : Call) : M Db (Response TaxRow) :=
  empId <- getEmployerIdOrNull (faults c 0%nat) ;;
  match empId with
  | None => ret (status_json 400 (JError "Primero registra la Empresa"))
  | Some empId =>
      match or_null (regime_code (req_body c)) with
      | None => ret (status_json 400 (JError "regime_code es obligatorio"))
      | Some regime_code =>
          r <- query (faults c 1%nat) (fun db => inr (regimes_by_code regime_code db)) ;;
          match r with
          | [] => ret (status_json 400 (JError "regime_code inválido"))
          | rt :: _ =>
              let regimeId := reg_id rt in
              let vf := match body_valid_from (req_body c) with
                        | Some d => d
                        | None => today c
                        end in
              BEGIN (faults c 2%nat) ;;;
              prev <- query (faults c 3%nat) (fun db => inr (open_period empId db)) ;;
              match prev with
              | p :: _ =>
                  exec (faults c 4%nat) (fun db => (inr tt, close_period (id p) vf db))
              | [] => ret tt
              end ;;;
              ins <- exec (faults c 5%nat) (insert_period empId regimeId vf) ;;
              COMMIT (faults c 6%nat) ;;;
              cur <- query (faults c 7%nat) (fun db => inr (period_by_id ins db)) ;;
              ret (json (JRow (hd_error cur)))
          end
      end
  end.

(** [app.post("/api/employer/tax", ...)] *)
Definition post_employer_tax (c : Call) (db : Db) : Response TaxRow * Db :=
  try_catch_rollback (post_employer_tax_try c)
    (fun _ => status_json 500 (JError "Error estableciendo régimen tributario"))
    db.




End EmployerTax.

(** ** The candidatos controller
    [src/modules/candidatos/candidatos.controller.js], first document *)

Module Candidatos.
Import Js Http Pg Date Sql.
Local Open Scope pg_scope.

(** A row of [candidatos].  Text columns are SQL values: [None] is NULL. *)
Record Candidato := mkCandidato {
  id : Z;
  dni : option string;
  apellido_paterno : option string;
  apellido_materno : option string;
  nombres : option string;
  sede : option string;
  turno_horario : option string;
  grupo : option string;
  estado : option string;
  fecha : date
}.

(** A row of [candidato_documentos]. *)
Record Documento := mkDocumento { candidato_id : Z; tipo : string; url : string }.

Record Db := mkDb {
  candidatos : list Candidato;
  candidato_documentos : list Documento;
  candidatos_id_seq : Z
}.

#[global] Instance Db_Database : Database Db :=
  {| restore_tables snapshot current :=
       mkDb (candidatos snapshot) (candidato_documentos snapshot)
            (candidatos_id_seq current) |}.

#[global] Instance Candidato_Columns : Columns Candidato :=
  {| col_fecha := fecha; col_estado := estado; col_grupo := grupo |}.

(** *** list *)

(** [req.query] *)
Record Query := mkQuery {
  ano : field;
  mes : field;
  q_estado : field;
  grupoInicio : field;
  grupoFin : field
}.

(** [where], [params] and [i] while the filters are read. *)
Record Builder := mkBuilder { where_ : list Pred; params : list Param; i : nat }.

(** [where.push(`...$${i++}`); params.push(v)] *)
Definition push1 (text : nat -> string) (c : nat -> Cond) (v : Param) (b : Builder) : Builder :=
  mkBuilder (where_ b ++ [mkPred (text (i b)) (c (i b))])
            (params b ++ [v])
            (S (i b)).

(** [where.push(`...$${i++}...$${i++}`); params.push(v, w)] *)
Definition push2 (text : nat -> nat -> string) (c : nat -> nat -> Cond) (v w : Param)
    (b : Builder) : Builder :=
  mkBuilder (where_ b ++ [mkPred (text (i b) (S (i b))) (c (i b) (S (i b)))])
            (params b ++ [v; w])
            (S (S (i b))).

Definition dollar (n : nat) : string := "$" ++ nat_to_string n.

(** Lines 5-23 of [list]. *)
Definition list_filters (q : Query) : Builder :=
  let ano := default_to "TODOS" (ano q) in
  let mes := default_to "TODOS" (mes q) in
  let estado := q_estado q in
  let b := mkBuilder [] [] 1 in
  let b := if negb (ano =? "TODOS")%string
           then push1 (fun i => "EXTRACT(YEAR  FROM v.fecha) = " ++ dollar i) YearIs
                      (PNum (Number ano)) b
           else b in
  let b := if negb (mes =? "TODOS")%string
           then push1 (fun i => "EXTRACT(MONTH FROM v.fecha) = " ++ dollar i) MonthIs
                      (PNum (Number mes)) b
           else b in
  let b := if truthy estado
           then push1 (fun i => "LOWER(v.estado) = LOWER(" ++ dollar i ++ ")") EstadoIsLower
                      (PText (default_to "" estado)) b
           else b in
  let b := if truthy (grupoInicio q) && truthy (grupoFin q)
           then push2 (fun i j => "(v.grupo ~ '^[0-9]+$' AND CAST(v.grupo AS INT) BETWEEN "
                                  ++ dollar i ++ " AND " ++ dollar j ++ ")")
                      GrupoDigitsBetween
                      (PNum (Number (default_to "" (grupoInicio q))))
                      (PNum (Number (default_to "" (grupoFin q)))) b
           else b in
  b.

(** A row of the answer: the columns of the view and [doc_count]. *)
Record ListRow := mkListRow { row : Candidato; doc_count : Z }.

(** [ORDER BY v.fecha DESC, v.id DESC] *)
Definition fecha_desc_id_desc (x y : Candidato) : bool :=
  (fecha y <? fecha x) || ((fecha y =? fecha x) && (id y <=? id x)).

(** [LEFT JOIN LATERAL (SELECT COUNT( * ) ... WHERE d.candidato_id = v.id) dc ON TRUE] *)
Definition with_doc_count (db : Db) (c : Candidato) : ListRow :=
  mkListRow c
    (Z.of_nat (List.length (filter (fun d => candidato_id d =? id c) (candidato_documentos db)))).

(** Modelled from the spec: the view [vw_api_candidatos] is not in the
    sources; it is read as the rows of [candidatos] (its document URL
    columns are left out). *)
Definition vw_api_candidatos (db : Db) : list Candidato := candidatos db.

(** *** create *)

(** A file as multer hands it over. *)
Record File := mkFile { buffer : string; originalname : string }.

(** [req.body] of a multipart request. *)
Record Body := mkBody {
  b_dni : field;
  b_apellido_paterno : field;
  b_apellido_materno : field;
  b_nombres : field;
  b_sede : field;
  b_turno_horario : field;
  b_grupo : field;
  b_estado : field
}.

(** The request: the body and [req.files], the files by field name. *)
Record Request := mkRequest { body : Body; files : list (string * list File) }.

(** What the handler depends on besides the request and the database:
    the faults of its four statements (BEGIN, the parent insert, the
    document insert, COMMIT), the uploader (buffer, folder, file name to a
    URL or an exception), and the column defaults of [candidatos]. *)
Record Env := mkEnv {
  faults : Faults;
  uploadToCloudinary : string -> string -> string -> Exn + string;
  default_estado : option string;
  default_fecha : date
}.

(** [req.files?.[tipo] || []] *)
Fixpoint files_of (fs : list (string * list File)) (tipo : string) : list File :=
  match fs with
  | [] => []
  | (k, v) :: rest => if (k =? tipo)%string then v else files_of rest tipo
  end.

(** Modelled from the spec: the schema of [candidatos] is not in the
    sources.  "Unique constraint on national ID": a row of [candidatos]
    holds this [dni] already, and an insert of it raises 23505. *)
Definition dni_in_use (d : string) (db : Db) : bool :=
  existsb (fun c => match dni c with
                    | Some x => (x =? d)%string
                    | None => false
                    end) (candidatos db).

(** [INSERT INTO candidatos (dni, apellido_paterno, apellido_materno,
     nombres, sede, turno_horario, grupo) VALUES (...) RETURNING id, dni].
    The identifier comes from the sequence, whose value is consumed
    whether the row is kept or not; estado and fecha take the defaults
    of their columns. *)
Definition insert_candidato (env : Env)
    (dni ap am nom : string) (sede turno grupo : option string) (db : Db)
    : (Exn + (Z * string)) * Db :=
  let new_id := candidatos_id_seq db in
  if dni_in_use dni db
  then (inl unique_violation,
        mkDb (candidatos db) (candidato_documentos db) (new_id + 1))
  else (inr (new_id, dni),
        mkDb (candidatos db ++
                [mkCandidato new_id (Some dni) (Some ap) (Some am) (Some nom)
                             sede turno grupo (default_estado env) (default_fecha env)])
             (candidato_documentos db)
             (new_id + 1)).

(** [INSERT INTO candidato_documentos (candidato_id, tipo, url) VALUES ...] *)
Definition insert_documentos (candidatoId : Z) (inserts : list (string * string)) (db : Db)
    : (Exn + unit) * Db :=
  (inr tt,
   mkDb (candidatos db)
        (candidato_documentos db ++
           map (fun x => mkDocumento candidatoId (fst x) (snd x)) inserts)
        (candidatos_id_seq db)).

Definition tipos : list string :=
  ["dni"; "certificados"; "antecedentes"; "medicos"; "capacitacion"; "cv"].

(** [for (const f of files) { ...; inserts.push({ tipo, url }) }]: the
    uploads of one type, in order; the first that fails throws. *)
Fixpoint upload_files (env : Env) (candDni tipo : string) (fs : list File)
    : Exn + list (string * string) :=
  match fs with
  | [] => inr []
  | f :: rest =>
      let folder := "candidatos/" ++ candDni ++ "/" ++ tipo in
      and_then (uploadToCloudinary env (buffer f) folder (originalname f)) (fun url =>
      and_then (upload_files env candDni tipo rest) (fun more =>
      inr ((tipo, url) :: more)))
  end.

(** [for (const tipo of tipos) { ... }] *)
Fixpoint upload_tipos (env : Env) (candDni : string) (fs : list (string * list File))
    (ts : list string) : Exn + list (string * string) :=
  match ts with
  | [] => inr []
  | tipo :: rest =>
      and_then (upload_files env candDni tipo (files_of fs tipo)) (fun these =>
      and_then (upload_tipos env candDni fs rest) (fun more =>
      inr (these ++ more)%list))
  end.

(** The body of the [try] of [create]. *)
Definition create_try (env : Env) (req : Request) : M Db (Response unit) :=
  let b := body req in
  match or_null (b_dni b), or_null (b_apellido_paterno b),
        or_null (b_apellido_materno b), or_null (b_nombres b) with
  | Some dni, Some apellido_paterno, Some apellido_materno, Some nombres =>
      BEGIN (faults env 0%nat) ;;;
      ins <- exec (faults env 1%nat)
               (insert_candidato env dni apellido_paterno apellido_materno nombres
                  (b_sede b) (b_turno_horario b) (b_grupo b)) ;;
      let candidatoId := fst ins in
      let candDni := snd ins in
      inserts <- lift (upload_tipos env candDni (files req) tipos) ;;
      match inserts with
      | [] => ret tt
      | _ => exec (faults env 2%nat) (insert_documentos candidatoId inserts)
      end ;;;
      COMMIT (faults env 3%nat) ;;;
      ret (json (JOkId candidatoId))
  | _, _, _, _ => ret (status_json 400 (JError "Faltan campos obligatorios"))
  end.

(** The [catch] of [create], after the ROLLBACK. *)
Definition create_catch (e : Exn) : Response unit :=
  match exn_code e with
  | Some c =>
      if (c =? "23505")%string
      then status_json 409 (JError "DNI ya registrado")
      else status_json 500 (JError "Error creando candidato")
  | None => status_json 500 (JError "Error creando candidato")
  end.

(** [create] *)
Definition create (env : Env) (req : Request) (db : Db) : Response unit * Db :=
  try_catch_rollback (create_try env req) create_catch db.

(** *** update *)

(** [COALESCE($k, column)] *)
Definition COALESCE (v old : option string) : option string :=
  match v with
  | Some _ => v
  | None => old
  end.

(** [UPDATE candidatos SET ... = COALESCE($k, ...) WHERE id=$8]; the answer
    is [rowCount]. *)
Definition update_candidato (b : Body) (id8 : Z) (db : Db) : (Exn + nat) * Db :=
  (inr (List.length (filter (fun c => id c =? id8) (candidatos db))),
   mkDb (map (fun c =>
                if id c =? id8
                then mkCandidato (id c) (dni c)
                       (COALESCE (or_null (b_apellido_paterno b)) (apellido_paterno c))
                       (COALESCE (or_null (b_apellido_materno b)) (apellido_materno c))
                       (COALESCE (or_null (b_nombres b)) (nombres c))
                       (COALESCE (or_null (b_sede b)) (sede c))
                       (COALESCE (or_null (b_turno_horario b)) (turno_horario c))
                       (COALESCE (or_null (b_grupo b)) (grupo c))
                       (COALESCE (or_null (b_estado b)) (estado c))
                       (fecha c)
                else c)
             (candidatos db))
        (candidato_documentos db)
        (candidatos_id_seq db)).

(** [update]; [id_] is [Number(req.params.id)] for a numeric path segment. *)
Definition update (fault : option Exn) (id_ : Z) (b : Body) (db : Db) : Response unit * Db :=
  try_catch
    (rowCount <- exec fault (update_candidato b id_) ;;
     match rowCount with
     | O => ret (status_json 404 (JError "No encontrado"))
     | S _ => ret (json JOk)
     end)
    (fun _ => status_json 500 (JError "Error actualizando candidato"))
    db.

(** *** updateEstado *)

(** A field of a JSON body. *)
Inductive value :=
| VUndefined
| VNull
| VBoolean (b : bool)
| VNumber (z : Z)
| VString (s : string).

(** [list.includes(v)] for a list of strings *)
Definition includes (l : list string) (v : value) : bool :=
  match v with
  | VString s => existsb (fun x => (x =? s)%string) l
  | _ => false
  end.

(** The value the driver binds for a field of the body. *)
Definition bound_text (v : value) : option string :=
  match v with
  | VString s => Some s
  | VNumber z => Some (NilEmpty.string_of_int (Z.to_int z))
  | VBoolean true => Some "true"
  | VBoolean false => Some "false"
  | VNull | VUndefined => None
  end.

(** [UPDATE candidatos SET estado=$1 WHERE id=$2] *)
Definition set_estado (e : option string) (id2 : Z) (db : Db) : (Exn + nat) * Db :=
  (inr (List.length (filter (fun c => id c =? id2) (candidatos db))),
   mkDb (map (fun c =>
                if id c =? id2
                then mkCandidato (id c) (dni c) (apellido_paterno c) (apellido_materno c)
                       (nombres c) (sede c) (turno_horario c) (grupo c) e (fecha c)
                else c)
             (candidatos db))
        (candidato_documentos db)
        (candidatos_id_seq db)).

Section UpdateEstado.
(** The enumeration the handler checks against. *)
Variable estados : list string.

Definition updateEstado_with (fault : option Exn) (id_ : Z) (estado : value) (db : Db)
    : Response unit * Db :=
  try_catch
    (if negb (includes estados estado)
     then ret (status_json 400 (JError "Estado inválido"))
     else
       rowCount <- exec fault (set_estado (bound_text estado) id_) ;;
       match rowCount with
       | O => ret (status_json 404 (JError "No encontrado"))
       | S _ => ret (json JOk)
       end)
    (fun _ => status_json 500 (JError "Error cambiando estado"))
    db.
End UpdateEstado.

(** [updateEstado] of the controller *)
Definition updateEstado := updateEstado_with ["En Revision"; "Cancelado"; "Aprobado"].

(** [app.put("/api/candidatos/:id/estado", ...)] of [src/unnamed/part_000],
    lines 256-270: the same handler over the upper-case enumeration. *)
Definition put_candidatos_id_estado :=
  updateEstado_with ["EN_REVISION"; "CANCELADO"; "APROBADO"].

(** The statement [list] sends. *)
Definition list_sql (b : Builder) (db : Db) : Exn + list ListRow :=
  and_then (select_where (where_ b) (params b) (vw_api_candidatos db)) (fun rows =>
  inr (map (with_doc_count db) (order_by fecha_desc_id_desc rows))).

(** [list] *)
Definition list (fault : option Exn) (q : Query) (db : Db) : Response ListRow * Db :=
  try_catch
    (rows <- query fault (list_sql (list_filters q)) ;;
     ret (json (JRows rows)))
    (fun _ => status_json 500 (JError "Error consultando candidatos"))
    db.

End Candidatos.

(** ** The inline handlers of the SQL server
    [src/unnamed/part_000] (the same text stands in the second document of
    [src/server.js] and in the third document of the controller file) *)

Module Inline.
Import Js Http Pg Date Sql.
Local Open Scope pg_scope.

(** Lines 79-97 of [app.get("/api/candidatos", ...)]. *)
Definition get_candidatos_filters (q : Candidatos.Query) : Candidatos.Builder :=
  let ano := default_to "TODOS" (Candidatos.ano q) in
  let mes := default_to "TODOS" (Candidatos.mes q) in
  let estado := Candidatos.q_estado q in
  let b := Candidatos.mkBuilder [] [] 1 in
  let b := if negb (ano =? "TODOS")%string
           then Candidatos.push1
                  (fun i => "EXTRACT(YEAR  FROM fecha) = " ++ Candidatos.dollar i) YearIs
                  (PNum (Number ano)) b
           else b in
  let b := if negb (mes =? "TODOS")%string
           then Candidatos.push1
                  (fun i => "EXTRACT(MONTH FROM fecha) = " ++ Candidatos.dollar i) MonthIs
                  (PNum (Number mes)) b
           else b in
  let b := if truthy estado
           then Candidatos.push1
                  (fun i => "estado = " ++ Candidatos.dollar i) EstadoIs
                  (PText (default_to "" estado)) b
           else b in
  let b := if truthy (Candidatos.grupoInicio q) && truthy (Candidatos.grupoFin q)
           then Candidatos.push2
                  (fun i j => "(grupo ~ '^[0-9]+$' AND CAST(grupo AS INT) BETWEEN "
                              ++ Candidatos.dollar i ++ " AND " ++ Candidatos.dollar j ++ ")")
                  GrupoDigitsBetween
                  (PNum (Number (default_to "" (Candidatos.grupoInicio q))))
                  (PNum (Number (default_to "" (Candidatos.grupoFin q)))) b
           else b in
  b.

(** [SELECT ... FROM vw_api_candidatos ${whereSQL} ORDER BY fecha DESC, id DESC] *)
Definition get_candidatos_sql (b : Candidatos.Builder) (db : Candidatos.Db)
    : Exn + list Candidatos.Candidato :=
  and_then (select_where (Candidatos.where_ b) (Candidatos.params b)
              (Candidatos.vw_api_candidatos db))
    (fun rows => inr (order_by Candidatos.fecha_desc_id_desc rows)).

(** [app.get("/api/candidatos", ...)] *)
Definition get_candidatos (fault : option Exn) (q : Candidatos.Query) (db : Candidatos.Db)
    : Response Candidatos.Candidato * Candidatos.Db :=
  try_catch
    (rows <- query fault (get_candidatos_sql (get_candidatos_filters q)) ;;
     ret (json (JRows rows)))
    (fun _ => status_json 500 (JError "Error consultando candidatos"))
    db.

End Inline.

(** ** The server with the code generator and the normalising middleware
    [src/server.js], second document *)

Module Server.
Import Js Http Pg Date Sql.
Local Open Scope pg_scope.

(** [/[\u0300-\u036f]/]: in UTF-8 the combining diacritical marks are the
    two-byte sequences CC 80 .. CD AF. *)
Definition is_combining_mark (a b : ascii) : bool :=
  let x := nat_of_ascii a in
  let y := nat_of_ascii b in
  (((x =? 204) && (128 <=? y) && (y <=? 191)) ||
   ((x =? 205) && (128 <=? y) && (y <=? 175)))%nat.

(** [.replace(/[\u0300-\u036f]/g, "")] *)
Fixpoint remove_combining_marks (s : string) : string :=
  match s with
  | EmptyString => EmptyString
  | String a s' =>
      match s' with
      | String b rest =>
          if is_combining_mark a b then remove_combining_marks rest
          else String a (remove_combining_marks s')
      | EmptyString => s
      end
  end.

(** [/[A-Z0-9]/] *)
Definition is_AZ09 (c : ascii) : bool :=
  let n := nat_of_ascii c in
  (((65 <=? n) && (n <=? 90)) || ((48 <=? n) && (n <=? 57)))%nat.

(** [.replace(/[^A-Z0-9]+/g, "-")]; [in_run] says that the character
    before belongs to a run that has been replaced already. *)
Fixpoint replace_runs (in_run : bool) (s : string) : string :=
  match s with
  | EmptyString => EmptyString
  | String c s' =>
      if is_AZ09 c then String c (replace_runs false s')
      else if in_run then replace_runs true s'
      else String "-" (replace_runs true s')
  end.

Definition is_hyphen (c : ascii) : bool := (nat_of_ascii c =? 45)%nat.

Fixpoint strip_leading_hyphens (s : string) : string :=
  match s with
  | String c s' => if is_hyphen c then strip_leading_hyphens s' else s
  | EmptyString => EmptyString
  end.

Fixpoint strip_trailing_hyphens (s : string) : string :=
  match s with
  | EmptyString => EmptyString
  | String c s' =>
      match strip_trailing_hyphens s' with
      | EmptyString => if is_hyphen c then EmptyString else String c EmptyString
      | t => String c t
      end
  end.

(** [.replace(/^-+|-+$/g, "")] *)
Definition trim_hyphens (s : string) : string :=
  strip_trailing_hyphens (strip_leading_hyphens s).

(** *** Sites and projects *)

Record Site := mkSite { site_id : Z; site_code : string; site_name : string }.
Record Project := mkProject {
  project_id : Z; project_code : string; project_name : string; project_site_id : Z
}.

Record Db := mkDb {
  sites : list Site;
  sites_id_seq : Z;
  projects : list Project;
  projects_id_seq : Z
}.

#[global] Instance Db_Database : Database Db :=
  {| restore_tables snapshot current :=
       mkDb (sites snapshot) (sites_id_seq current)
            (projects snapshot) (projects_id_seq current) |}.

(** The [code] column of [${table}]. *)
Definition codes_of (table : string) (db : Db) : Exn + list string :=
  if (table =? "sites")%string then inr (map site_code (sites db))
  else if (table =? "projects")%string then inr (map project_code (projects db))
  else inl (mkExn (Some "42P01")).

(** [SELECT 1 FROM ${table} WHERE code=$1 LIMIT 1] *)
Definition select_code (table code : string) (db : Db) : Exn + list Z :=
  and_then (codes_of table db) (fun codes =>
  inr (limit_1 (map (fun _ => 1) (filter (fun c => (c =? code)%string) codes)))).

(** The loop of [generateUniqueCode], entered with [n] and [code]; the
    [k]-th probe is statement [k].  [fuel] bounds the number of probes:
    [None] says that the loop is still running when it is used up. *)
Fixpoint generateUniqueCode_loop (fuel : nat) (probe_faults : Faults)
    (table baseCode : string) (n : nat) (code : string) : M Db (option string) :=
  match fuel with
  | O => ret None
  | S fuel' =>
      rows <- query (probe_faults n) (select_code table code) ;;
      match rows with
      | [] => ret (Some code)
      | _ :: _ =>
          generateUniqueCode_loop fuel' probe_faults table baseCode (S n)
            (baseCode ++ "-" ++ nat_to_string (S n))
      end
  end.

(** [generateUniqueCode(table, baseCode)] *)
Definition generateUniqueCode (fuel : nat) (probe_faults : Faults)
    (table baseCode : string) : M Db (option string) :=
  generateUniqueCode_loop fuel probe_faults table baseCode 1
    (if (baseCode =? "")%string then "ITEM" else baseCode).

(** Modelled from the spec: the schema of [sites] is not in the sources.
    "The storage layer's uniqueness constraint on code": a site holds
    this code already, and an insert of it raises 23505. *)
Definition code_in_use (code : string) (db : Db) : bool :=
  existsb (fun s => (site_code s =? code)%string) (sites db).

(** [INSERT INTO sites (code, name) VALUES ($1,$2) RETURNING id, code, name] *)
Definition insert_site (code name : string) (db : Db) : (Exn + Site) * Db :=
  let new_id := sites_id_seq db in
  if code_in_use code db
  then (inl unique_violation,
        mkDb (sites db) (new_id + 1) (projects db) (projects_id_seq db))
  else (inr (mkSite new_id code name),
        mkDb (sites db ++ [mkSite new_id code name]) (new_id + 1)
             (projects db) (projects_id_seq db)).

Section Unicode.
(** [String.prototype.normalize(form)]: the decompositions of the
    runtime's Unicode tables, on UTF-8 text. *)
Variable normalize : string -> string -> string.

(** [slugify]; [toUpperCase] is the ASCII mapping (the special casings
    of the letters without a decomposition excepted, every other letter
    is replaced by the next step whatever its case). *)
Definition slugify (str : field) : string :=
  slice0 32
    (trim_hyphens
       (replace_runs false
          (toUpperCase
             (remove_combining_marks
                (normalize "NFKD" (default_to "" (or_null str))))))).

Definition stripDiacritics (s : string) : string :=
  remove_combining_marks (normalize "NFD" s).

(** [normalizeQueryValue] *)
Definition normalizeQueryValue (str : string) : string :=
  toLowerCase (stripDiacritics (trim str)).

(** The middleware on [req.query]: every string is replaced by its
    normal form. *)
Definition normalize_query (q : Candidatos.Query) : Candidatos.Query :=
  Candidatos.mkQuery
    (option_map normalizeQueryValue (Candidatos.ano q))
    (option_map normalizeQueryValue (Candidatos.mes q))
    (option_map normalizeQueryValue (Candidatos.q_estado q))
    (option_map normalizeQueryValue (Candidatos.grupoInicio q))
    (option_map normalizeQueryValue (Candidatos.grupoFin q)).

(** [GET /api/candidatos] as this server answers it: the middleware,
    then the handler. *)
Definition get_candidatos (fault : option Exn) (q : Candidatos.Query)
    (db : Candidatos.Db) : Response Candidatos.Candidato * Candidatos.Db :=
  Inline.get_candidatos fault (normalize_query q) db.

(** [app.post("/api/sites", ...)], as the handler receives [req.body.name].
    [None] says that the probing loop has used up [fuel]. *)
Definition post_sites (fuel : nat) (probe_faults : Faults) (insert_fault : option Exn)
    (name : field) (db : Db) : option (Response Site) * Db :=
  try_catch
    (match or_null name with
     | None => ret (Some (status_json 400 (JText "name es obligatorio")))
     | Some name =>
         let base := slugify (Some name) in
         code <- generateUniqueCode fuel probe_faults "sites"
                   (if (base =? "")%string then "SITE" else base) ;;
         match code with
         | None => ret None
         | Some code =>
             r <- exec insert_fault (insert_site code (trim name)) ;;
             ret (Some (json (JRow (Some r))))
         end
     end)
    (fun _ => Some (status_json 500 (JText "error")))
    db.
End Unicode.

(** An instance of [normalize] for examples: the decompositions of the
    accented vowels and of n with tilde (lower and upper case); other text
    is left as it is, as the real function leaves ASCII text. *)
Definition byte (n : nat) : string := String (ascii_of_nat n) EmptyString.

Definition decompose_latin1 (b : ascii) : option string :=
  let n := nat_of_ascii b in
  let acute (base : string) := Some (base ++ byte 204 ++ byte 129) in
  let tilde (base : string) := Some (base ++ byte 204 ++ byte 131) in
  if (n =? 161)%nat then acute "a" else if (n =? 169)%nat then acute "e"
  else if (n =? 173)%nat then acute "i" else if (n =? 179)%nat then acute "o"
  else if (n =? 186)%nat then acute "u" else if (n =? 177)%nat then tilde "n"
  else if (n =? 129)%nat then acute "A" else if (n =? 137)%nat then acute "E"
  else if (n =? 141)%nat then acute "I" else if (n =? 147)%nat then acute "O"
  else if (n =? 154)%nat then acute "U" else if (n =? 145)%nat then tilde "N"
  else None.

Fixpoint normalize_latin1_bytes (s : string) : string :=
  match s with
  | EmptyString => EmptyString
  | String a s' =>
      match s' with
      | String b rest =>
          if (nat_of_ascii a =? 195)%nat
          then match decompose_latin1 b with
               | Some d => d ++ normalize_latin1_bytes rest
               | None => String a (normalize_latin1_bytes s')
               end
          else String a (normalize_latin1_bytes s')
      | EmptyString => s
      end
  end.

Definition normalize_latin1 (form : string) (s : string) : string :=
  normalize_latin1_bytes s.

End Server.

(** ** The in-memory demo server
    [src/server.js], first document *)

Module Demo.
Import Js Http.

Record Empleado := mkEmpleado {
  id : Z;
  nombre : string;
  sede : string;
  grupo : string;
  fecha : string;
  dni : option string;
  certificados : option string;
  antecedentes : option string;
  medicos : option string;
  capacitacion : option string
}.

(** [let empleados = [...]], the data the server starts with. *)
Definition empleados : list Empleado :=
  [ mkEmpleado 1 "JUAN PEREZ LOPEZ" "Lima / Mañana" "51" "2024-08-01"
      (Some "https://example.com/uploads/1/dni.pdf") None
      (Some "https://example.com/uploads/1/antecedentes.pdf") None
      (Some "https://example.com/uploads/1/capacitacion.pdf");
    mkEmpleado 2 "MARIA GARCIA FLORES" "Arequipa / Tarde" "51" "2024-08-05"
      (Some "https://example.com/uploads/2/dni.pdf")
      (Some "https://example.com/uploads/2/certificados.pdf") None None None;
    mkEmpleado 3 "CARLOS RAMOS DIAZ" "Cusco / Noche" "52" "2024-09-12"
      None None None (Some "https://example.com/uploads/3/medicos.pdf") None ].

(** [req.query] *)
Record Query := mkQuery {
  q_ano : field;
  q_mes : field;
  q_grupo : field;
  q_grupoInicio : field;
  q_grupoFin : field
}.

(** [x === y] on numbers: [NaN] equals nothing. *)
Definition number_eq (x y : number) : bool :=
  match x, y with
  | Int a, Int b => a =? b
  | _, _ => false
  end.

(** [g >= ini && g <= fin] *)
Definition number_between (g ini fin : number) : bool :=
  match g, ini, fin with
  | Int g, Int ini, Int fin => (ini <=? g) && (g <=? fin)
  | _, _, _ => false
  end.

(** [app.get("/api/empleados", ...)] *)
Definition get_empleados (empleados : list Empleado) (q : Query) : Response Empleado :=
  let result := empleados in
  let result :=
    match or_null (q_ano q), or_null (q_mes q) with
    | Some ano, Some mes =>
        filter (fun e =>
                  let y := substring 0 4 (fecha e) in
                  let m := substring 5 2 (fecha e) in
                  let matchAno := (ano =? "TODOS")%string || (y =? ano)%string in
                  let matchMes := (mes =? "TODOS")%string
                                  || number_eq (Number m) (Number mes) in
                  matchAno && matchMes)
               result
    | _, _ => result
    end in
  let result :=
    if truthy (q_grupo q) && (default_to "" (q_grupo q) =? "TODOS")%string
    then result
    else
      match or_null (q_grupoInicio q), or_null (q_grupoFin q) with
      | Some grupoInicio, Some grupoFin =>
          let ini := Number grupoInicio in
          let fin := Number grupoFin in
          filter (fun e => number_between (Number (grupo e)) ini fin) result
      | _, _ => result
      end in
  json (JRows result).

(** Date descending, id descending among equal dates, on ISO date text. *)
Definition may_precede (x y : Empleado) : bool :=
  String.ltb (fecha y) (fecha x) || ((fecha y =? fecha x)%string && (id y <=? id x)).

Fixpoint sorted_by (before : Empleado -> Empleado -> bool) (l : list Empleado) : bool :=
  match l with
  | x :: (y :: _) as rest => before x y && sorted_by before rest
  | _ => true
  end.

End Demo.

(** ** The empleados SQL server
    [src/modules/candidatos/candidatos.controller.js], fourth document *)

Module Empleados.
Import Js Http Pg Date Sql.
Local Open Scope pg_scope.

Record Empleado := mkEmpleado {
  id : Z;
  nombre : option string;
  sede : option string;
  grupo : option string;
  fecha : date
}.

Record Documento := mkDocumento { empleado_id : Z; tipo : string; url : string }.

Record Db := mkDb {
  empleados : list Empleado;
  documentos : list Documento;
  empleados_id_seq : Z
}.

#[global] Instance Db_Database : Database Db :=
  {| restore_tables snapshot current :=
       mkDb (empleados snapshot) (documentos snapshot) (empleados_id_seq current) |}.

(** [empleados] has no [estado] column; no filter of this server reads one. *)
#[global] Instance Empleado_Columns : Columns Empleado :=
  {| col_fecha := fecha; col_estado := fun _ => None; col_grupo := grupo |}.

(** [req.query] *)
Record Query := mkQuery {
  q_ano : field;
  q_mes : field;
  q_grupo : field;
  q_grupoInicio : field;
  q_grupoFin : field
}.

(** Lines 871-895 of [app.get("/api/empleados", ...)]. *)
Definition get_empleados_filters (q : Query) : Candidatos.Builder :=
  let b := Candidatos.mkBuilder [] [] 1 in
  let b :=
    match or_null (q_ano q), or_null (q_mes q) with
    | Some ano, Some mes =>
        let b := if negb (ano =? "TODOS")%string
                 then Candidatos.push1
                        (fun i => "EXTRACT(YEAR FROM fecha) = " ++ Candidatos.dollar i)
                        YearIs (PNum (Number ano)) b
                 else b in
        let b := if negb (mes =? "TODOS")%string
                 then Candidatos.push1
                        (fun i => "EXTRACT(MONTH FROM fecha) = " ++ Candidatos.dollar i)
                        MonthIs (PNum (Number mes)) b
                 else b in
        b
    | _, _ => b
    end in
  let b :=
    if truthy (q_grupo q) && (default_to "" (q_grupo q) =? "TODOS")%string
    then b
    else
      match or_null (q_grupoInicio q), or_null (q_grupoFin q) with
      | Some grupoInicio, Some grupoFin =>
          Candidatos.push2
            (fun i j => "CAST(grupo AS INT) BETWEEN " ++ Candidatos.dollar i
                        ++ " AND " ++ Candidatos.dollar j)
            GrupoCastBetween
            (PNum (Number grupoInicio)) (PNum (Number grupoFin)) b
      | _, _ => b
      end in
  b.

(** [ORDER BY fecha DESC, id DESC] *)
Definition fecha_desc_id_desc (x y : Empleado) : bool :=
  (fecha y <? fecha x) || ((fecha y =? fecha x) && (id y <=? id x)).

(** [SELECT id, nombre, sede, grupo, fecha FROM empleados ${whereSQL}
     ORDER BY fecha DESC, id DESC] *)
Definition select_empleados (b : Candidatos.Builder) (db : Db) : Exn + list Empleado :=
  and_then (select_where (Candidatos.where_ b) (Candidatos.params b) (empleados db))
    (fun rows => inr (order_by fecha_desc_id_desc rows)).

(** [SELECT empleado_id, tipo, url FROM documentos
     WHERE empleado_id = ANY($1::int[])] *)
Definition select_documentos (ids : list Z) (db : Db) : Exn + list Documento :=
  inr (filter (fun d => existsb (fun i => i =? empleado_id d) ids) (documentos db)).

(** [docsMap]: the URL kept for an employee and a type. *)
Definition DocsMap := list ((Z * string) * string).

Fixpoint lookup (m : DocsMap) (e : Z) (t : string) : option string :=
  match m with
  | [] => None
  | ((e', t'), u) :: rest =>
      if (e' =? e) && (t' =? t)%string then Some u else lookup rest e t
  end.

Definition assign (m : DocsMap) (e : Z) (t u : string) : DocsMap := ((e, t), u) :: m.

(** The loop over [docsRes.rows]. *)
Definition index_documentos (docs : list Documento) : DocsMap :=
  fold_left
    (fun m d =>
       if (tipo d =? "certificados")%string || (tipo d =? "capacitacion")%string
       then if truthy (lookup m (empleado_id d) (tipo d)) then m
            else assign m (empleado_id d) (tipo d) (url d)
       else assign m (empleado_id d) (tipo d) (url d))
    docs [].

(** A row of the answer. *)
Record Row := mkRow {
  r_id : Z;
  r_nombre : option string;
  r_sede : option string;
  r_grupo : option string;
  r_fecha : date;
  r_dni : option string;
  r_certificados : option string;
  r_antecedentes : option string;
  r_medicos : option string;
  r_capacitacion : option string
}.

Definition merge (docsMap : DocsMap) (e : Empleado) : Row :=
  mkRow (id e) (nombre e) (sede e) (grupo e) (fecha e)
    (or_null (lookup docsMap (id e) "dni"))
    (or_null (lookup docsMap (id e) "certificados"))
    (or_null (lookup docsMap (id e) "antecedentes"))
    (or_null (lookup docsMap (id e) "medicos"))
    (or_null (lookup docsMap (id e) "capacitacion")).

(** [app.get("/api/empleados", ...)] *)
Definition get_empleados (f : Faults) (q : Query) (db : Db) : Response Row * Db :=
  try_catch
    (empleados <- query (f 0%nat) (select_empleados (get_empleados_filters q)) ;;
     match empleados with
     | [] => ret (json (JRows []))
     | _ :: _ =>
         let ids := map id empleados in
         docs <- query (f 1%nat) (select_documentos ids) ;;
         let docsMap := index_documentos docs in
         ret (json (JRows (map (merge docsMap) empleados)))
     end)
    (fun _ => status_json 500 (JError "Error consultando empleados"))
    db.

End Empleados.

(** ** The in-memory demo server: detail, create and update
    [src/server.js], first document, lines 85-134 *)

Module DemoStore.
Import Js Http Demo.

(** [empleados.find(e => e.id === id)]; [id_] is [Number(req.params.id)]. *)
Definition find_by_id (id_ : number) (empleados : list Empleado) : option Empleado :=
  find (fun e => number_eq (Int (id e)) id_) empleados.

(** [app.get("/api/empleados/:id", ...)] *)
Definition get_empleado (id_ : number) (empleados : list Empleado) : Response Empleado :=
  match find_by_id id_ empleados with
  | None => status_json 404 (JError "No encontrado")
  | Some emp => json (JRow (Some emp))
  end.

(** [{ nombre, sede, grupo } = req.body], the text fields of the form. *)
Record Body := mkBody { b_nombre : field; b_sede : field; b_grupo : field }.

(** [(empleados.at(-1)?.id || 0) + 1] *)
Definition next_id (empleados : list Empleado) : Z :=
  last (map id empleados) 0 + 1.

(** [app.post("/api/empleados", ...)]; [today] is
    [new Date().toISOString().slice(0, 10)]. *)
Definition post_empleados (today : string) (b : Body) (empleados : list Empleado)
    : Response Empleado * list Empleado :=
  match or_null (b_nombre b), or_null (b_sede b), or_null (b_grupo b) with
  | Some nombre, Some sede, Some grupo =>
      let nuevo :=
        mkEmpleado (next_id empleados) nombre sede grupo today
          None None None None None in
      (json (JOkId (id nuevo)), (empleados ++ [nuevo])%list)
  | _, _, _ => (status_json 400 (JError "Faltan campos"), empleados)
  end.

(** [if (nombre) empleados[idx].nombre = nombre; ...] *)
Definition assign (b : Body) (e : Empleado) : Empleado :=
  mkEmpleado (id e)
    (match or_null (b_nombre b) with Some nombre => nombre | None => nombre e end)
    (match or_null (b_sede b) with Some sede => sede | None => sede e end)
    (match or_null (b_grupo b) with Some grupo => grupo | None => grupo e end)
    (fecha e) (dni e) (certificados e) (antecedentes e) (medicos e)
    (capacitacion e).

(** [idx = empleados.findIndex(e => e.id === id)] and the assignments to
    [empleados[idx]]: [None] is [idx === -1]. *)
Fixpoint assign_at_first (id_ : number) (b : Body) (empleados : list Empleado)
    : option (list Empleado) :=
  match empleados with
  | [] => None
  | e :: rest =>
      if number_eq (Int (id e)) id_ then Some (assign b e :: rest)
      else option_map (cons e) (assign_at_first id_ b rest)
  end.

(** [app.put("/api/empleados/:id", ...)] *)
Definition put_empleados (id_ : number) (b : Body) (empleados : list Empleado)
    : Response Empleado * list Empleado :=
  match assign_at_first id_ b empleados with
  | None => (status_json 404 (JError "No encontrado"), empleados)
  | Some empleados' => (json JOk, empleados')
  end.

End DemoStore.

(** ** The detail of a candidate
    [src/modules/candidatos/candidatos.controller.js], first document,
    lines 66-107 *)

Module CandidatoDetail.
Import Js Http Pg Date Sql.
Local Open Scope pg_scope.

(** A row of [SELECT tipo, url, created_at FROM candidato_documentos]. *)
Record DocRow := mkDocRow { d_tipo : string; d_url : string; d_created_at : Z }.

(** The answer, [{ ...cab.rows[0], documentos: docs.rows }]. *)
Record Detail := mkDetail {
  cab : Candidatos.Candidato;
  documentos : list DocRow
}.

Section CreatedAt.
(** The column [created_at] of [candidato_documentos]: the sources
    select and order by it and never write it; it is taken as a
    function of the row. *)
Variable created_at : Candidatos.Documento -> Z.

(** [SELECT ... FROM vw_api_candidatos v WHERE v.id=$1] *)
Definition cab_by_id (id_ : Z) (db : Candidatos.Db) : list Candidatos.Candidato :=
  filter (fun c => Candidatos.id c =? id_) (Candidatos.vw_api_candidatos db).

(** [SELECT tipo, url, created_at FROM candidato_documentos
     WHERE candidato_id=$1 ORDER BY created_at DESC] *)
Definition docs_by_candidato (id_ : Z) (db : Candidatos.Db) : list DocRow :=
  map (fun d => mkDocRow (Candidatos.tipo d) (Candidatos.url d) (created_at d))
    (order_by (desc created_at)
       (filter (fun d => Candidatos.candidato_id d =? id_)
               (Candidatos.candidato_documentos db))).

(** [getById]; [id_] is [Number(req.params.id)] for a numeric path
    segment. *)
Definition getById (f : Faults) (id_ : Z) (db : Candidatos.Db)
    : Response Detail * Candidatos.Db :=
  try_catch
    (cab <- query (f 0%nat) (fun db => inr (cab_by_id id_ db)) ;;
     match cab with
     | [] => ret (status_json 404 (JError "No encontrado"))
     | c :: _ =>
         docs <- query (f 1%nat) (fun db => inr (docs_by_candidato id_ db)) ;;
         ret (json (JRow (Some (mkDetail c docs))))
     end)
    (fun _ => status_json 500 (JError "Error consultando candidato"))
    db.
End CreatedAt.

End CandidatoDetail.

(** ** The tax regime catalogue and the regime in force
    [src/unnamed/part_000], lines 277-309 *)

Module EmployerTaxReads.
Import Js Http Pg Date Sql EmployerTax.
Local Open Scope pg_scope.

(** [SELECT id, code, name FROM regimes_tax ORDER BY id ASC] *)
Definition regimes_by_id (db : Db) : list Regime :=
  order_by (fun x y => reg_id x <=? reg_id y) (regimes_tax db).

(** [app.get("/api/regimes/tax", ...)] *)
Definition get_regimes_tax (fault : option Exn) (db : Db) : Response Regime * Db :=
  try_catch
    (rows <- query fault (fun db => inr (regimes_by_id db)) ;;
     ret (json (JRows rows)))
    (fun _ => status_json 500 (JText "error"))
    db.



End EmployerTaxReads.

(** ** The uploader and the statement that stores the documents
    [src/unnamed/part_000], lines 47-59 and 199-206 (the controller's
    [create] builds the same statement, lines 148-155) *)

Module Uploader.
Import Js Http Pg Date Sql.

Definition is_dot (c : ascii) : bool := (nat_of_ascii c =? 46)%nat.

Fixpoint has_dot (s : string) : bool :=
  match s with
  | EmptyString => false
  | String c s' => is_dot c || has_dot s'
  end.

(** [.replace(/\.[^.]+$/, "")]: the match starts at a dot that is
    followed by at least one character and by no other dot. *)
Fixpoint strip_extension (s : string) : string :=
  match s with
  | EmptyString => EmptyString
  | String c s' =>
      if is_dot c && negb (s' =? "")%string && negb (has_dot s')
      then EmptyString
      else String c (strip_extension s')
  end.

(** [filename?.replace(/\.[^.]+$/, "")?.slice(0, 120)].  The length is
    counted in bytes here, in UTF-16 units by [slice]: the two agree on
    ASCII names, and on every name of at most 120 bytes, which [slice]
    leaves whole. *)
Definition public_id (filename : string) : string :=
  slice0 120 (strip_extension filename).

(** The options handed to [cloudinary.uploader.upload_stream]. *)
Record Options := mkOptions {
  folder : string;
  resource_type : string;
  opt_public_id : string
}.

Section Cloudinary.
(** The storage service: the options and the content give
    [result.secure_url], or the error the callback receives. *)
Variable upload_stream : Options -> string -> Exn + string.

(** [uploadToCloudinary(fileBuffer, folder, filename)] *)
Definition uploadToCloudinary (fileBuffer folder filename : string) : Exn + string :=
  upload_stream (mkOptions folder "auto" (public_id filename)) fileBuffer.
End Cloudinary.

(** One tuple of the VALUES list, [`($1, $${i*2+2}, $${i*2+3})`]: its
    text and the placeholders it names. *)
Record Tuple := mkTuple {
  tuple_sql : string;
  of_candidato_id : nat;
  of_tipo : nat;
  of_url : nat
}.

Definition tuple_at (i : nat) : Tuple :=
  mkTuple ("($1, $" ++ nat_to_string (i * 2 + 2) ++ ", $"
             ++ nat_to_string (i * 2 + 3) ++ ")")
          1 (i * 2 + 2) (i * 2 + 3).

(** [inserts.map((_, i) => `($1, $${i*2+2}, $${i*2+3})`)] *)
Definition tuples (inserts : list (string * string)) : list Tuple :=
  map tuple_at (seq 0 (List.length inserts)).

(** [values], the tuples joined by [", "]. *)
Definition values (inserts : list (string * string)) : string :=
  join ", " (map tuple_sql (tuples inserts)).

(** [[candidatoId, ...inserts.flatMap(x => [x.tipo, x.url])]] *)
Definition params (candidatoId : Z) (inserts : list (string * string)) : list Param :=
  PNum (Int candidatoId)
    :: flat_map (fun x => [PText (fst x); PText (snd x)]) inserts.

(** The values a tuple stands for once [params] is bound. *)
Definition bound_tuple (ps : list Param) (t : Tuple) : Exn + (Param * Param * Param) :=
  and_then (placeholder ps (of_candidato_id t)) (fun c =>
  and_then (placeholder ps (of_tipo t)) (fun tp =>
  and_then (placeholder ps (of_url t)) (fun u =>
  inr (c, tp, u)))).

Fixpoint bound_tuples (ps : list Param) (ts : list Tuple)
    : Exn + list (Param * Param * Param) :=
  match ts with
  | [] => inr []
  | t :: rest =>
      and_then (bound_tuple ps t) (fun r =>
      and_then (bound_tuples ps rest) (fun rs => inr (r :: rs)))
  end.

End Uploader.

(** ** The body side of the normalising middleware
    [src/server.js], second document, lines 188-211 *)

Module BodyMiddleware.
Import Js Http Pg.

(** [[\p{L}\p{N}]] and [\w], on ASCII text: the letters and digits, and
    with the underscore the word characters.  The middleware hands
    over text that has lost its diacritics; on text with other letters
    outside ASCII the functions below are not the source's. *)
Definition is_alnum (c : ascii) : bool :=
  let n := nat_of_ascii c in
  (((97 <=? n) && (n <=? 122)) || ((65 <=? n) && (n <=? 90))
   || ((48 <=? n) && (n <=? 57)))%nat.

Definition is_word (c : ascii) : bool :=
  is_alnum c || (nat_of_ascii c =? 95)%nat.

(** [.replace(/\b[\p{L}\p{N}]+/gu, w => w.charAt(0).toUpperCase() + w.slice(1))]:
    a match starts at a letter or digit that no word character
    precedes, and runs over the letters and digits that follow;
    [after_word] says that the character before is a word character. *)
Fixpoint capitalize (after_word : bool) (s : string) : string :=
  match s with
  | EmptyString => EmptyString
  | String c s' =>
      String (if is_alnum c && negb after_word then upper_char c else c)
             (capitalize (is_word c) s')
  end.

(** [toTitleCase] *)
Definition toTitleCase (s : string) : string :=
  capitalize false (toLowerCase s).

Section Unicode.
Variable normalize : string -> string -> string.

(** [normalizeBodyValue] *)
Definition normalizeBodyValue (str : string) : string :=
  toTitleCase (Server.stripDiacritics normalize (trim str)).

(** The middleware on a field of [req.body]: a string is replaced by
    its normal form, any other value is left as it is. *)
Definition normalize_body_field (v : Candidatos.value) : Candidatos.value :=
  match v with
  | Candidatos.VString s => Candidatos.VString (normalizeBodyValue s)
  | _ => v
  end.

(** [PUT /api/candidatos/:id/estado] as this server answers it: the
    JSON body is parsed, the middleware runs, then the handler. *)
Definition put_candidatos_id_estado (fault : option Exn) (id_ : Z)
    (estado : Candidatos.value) (db : Candidatos.Db)
    : Response unit * Candidatos.Db :=
  Candidatos.put_candidatos_id_estado fault id_ (normalize_body_field estado) db.
End Unicode.

End BodyMiddleware.

(** ** Sites whose code is sent by the client
    [src/unnamed/part_000], lines 424-476 *)

Module Sites.
Import Js Http Pg Date Sql.
Local Open Scope pg_scope.

(** Truthiness of a field of a JSON body. *)
Definition truthy_value (v : Candidatos.value) : bool :=
  match v with
  | Candidatos.VString s => negb (s =? "")%string
  | Candidatos.VNumber z => negb (z =? 0)
  | Candidatos.VBoolean b => b
  | Candidatos.VNull | Candidatos.VUndefined => false
  end.

(** [String(v)] *)
Definition to_string (v : Candidatos.value) : string :=
  match v with
  | Candidatos.VString s => s
  | Candidatos.VNumber z => NilEmpty.string_of_int (Z.to_int z)
  | Candidatos.VBoolean true => "true"
  | Candidatos.VBoolean false => "false"
  | Candidatos.VNull => "null"
  | Candidatos.VUndefined => "undefined"
  end.

Definition foreign_key_violation : Exn := mkExn (Some "23503").

(** [SELECT id, code, name FROM sites ORDER BY id ASC] *)
Definition sites_by_id (db : Server.Db) : list Server.Site :=
  order_by (fun x y => Server.site_id x <=? Server.site_id y) (Server.sites db).

(** [app.get("/api/sites", ...)] *)
Definition get_sites (fault : option Exn) (db : Server.Db)
    : Response Server.Site * Server.Db :=
  try_catch
    (rows <- query fault (fun db => inr (sites_by_id db)) ;;
     ret (json (JRows rows)))
    (fun _ => status_json 500 (JText "error"))
    db.

(** [app.post("/api/sites", ...)] *)
Definition post_sites (fault : option Exn) (code name : Candidatos.value)
    (db : Server.Db) : Response Server.Site * Server.Db :=
  try_catch
    (if negb (truthy_value code) || negb (truthy_value name)
     then ret (status_json 400 (JText "code y name son obligatorios"))
     else
       r <- exec fault
              (Server.insert_site (trim (to_string code)) (trim (to_string name))) ;;
       ret (json (JRow (Some r))))
    (fun _ => status_json 500 (JText "error"))
    db.

(** [COALESCE($k, column)] on a column that is not null. *)
Definition COALESCE (v : option string) (old : string) : string :=
  match v with
  | Some s => s
  | None => old
  end.

(** Modelled from the spec: the schema of [sites] is not in the sources.
    "The storage layer's uniqueness constraint on code": the update
    gives a site with this id a code that a site with another id
    holds, and raises 23505. *)
Definition code_clash (code : option string) (id3 : Z) (db : Server.Db) : bool :=
  match code with
  | Some c =>
      existsb (fun s => Server.site_id s =? id3) (Server.sites db)
      && existsb (fun s => negb (Server.site_id s =? id3)
                           && (Server.site_code s =? c)%string)
                 (Server.sites db)
  | None => false
  end.

(** [UPDATE sites SET code = COALESCE($1, code), name = COALESCE($2, name)
     WHERE id=$3]; the answer is [rowCount]. *)
Definition update_site (code name : option string) (id3 : Z) (db : Server.Db)
    : (Exn + nat) * Server.Db :=
  if code_clash code id3 db then (inl unique_violation, db)
  else
    (inr (List.length (filter (fun s => Server.site_id s =? id3) (Server.sites db))),
     Server.mkDb
       (map (fun s =>
               if Server.site_id s =? id3
               then Server.mkSite (Server.site_id s)
                      (COALESCE code (Server.site_code s))
                      (COALESCE name (Server.site_name s))
               else s)
            (Server.sites db))
       (Server.sites_id_seq db) (Server.projects db) (Server.projects_id_seq db)).

(** [app.put("/api/sites/:id", ...)]; [{ code=null, name=null }] turns
    an absent field into null, and the driver binds the others as
    text.  [id_] is [Number(req.params.id)] for a numeric path segment. *)
Definition put_sites (fault : option Exn) (id_ : Z) (code name : Candidatos.value)
    (db : Server.Db) : Response Server.Site * Server.Db :=
  try_catch
    (rowCount <- exec fault
                   (update_site (Candidatos.bound_text code)
                      (Candidatos.bound_text name) id_) ;;
     match rowCount with
     | O => ret (status_json 404 (JText "no encontrado"))
     | S _ => ret (json JOk)
     end)
    (fun _ => status_json 500 (JText "error"))
    db.

(** Modelled from the spec: the schema of [projects] is not in the
    sources.  "Project (belongs to one Site)", "DELETE blocked with 409 if
    referenced by a foreign key": a project refers to the site. *)
Definition referenced (id1 : Z) (db : Server.Db) : bool :=
  existsb (fun p => Server.project_site_id p =? id1) (Server.projects db).

(** [DELETE FROM sites WHERE id=$1] *)
Definition delete_site (id1 : Z) (db : Server.Db) : (Exn + unit) * Server.Db :=
  if existsb (fun s => Server.site_id s =? id1) (Server.sites db) && referenced id1 db
  then (inl foreign_key_violation, db)
  else
    (inr tt,
     Server.mkDb (filter (fun s => negb (Server.site_id s =? id1)) (Server.sites db))
       (Server.sites_id_seq db) (Server.projects db) (Server.projects_id_seq db)).

(** The [catch] of [app.delete("/api/sites/:id", ...)]. *)
Definition delete_sites_catch (e : Exn) : Response Server.Site :=
  match exn_code e with
  | Some c =>
      if (c =? "23503")%string
      then status_json 409 (JText "No se puede eliminar: tiene proyectos asociados")
      else status_json 500 (JText "error")
  | None => status_json 500 (JText "error")
  end.

(** [app.delete("/api/sites/:id", ...)] *)
Definition delete_sites (fault : option Exn) (id_ : Z) (db : Server.Db)
    : Response Server.Site * Server.Db :=
  try_catch
    (exec fault (delete_site id_) ;;;
     ret (json JOk))
    delete_sites_catch
    db.

End Sites.

(** ** The empleados SQL server: create and update
    [src/modules/candidatos/candidatos.controller.js], fourth document,
    lines 998-1051 *)

Module EmpleadosWrites.
Import Js Http Pg Date Sql.
Local Open Scope pg_scope.

(** [{ nombre, sede, grupo } = req.body], the text fields of the form. *)
Record Body := mkBody { b_nombre : field; b_sede : field; b_grupo : field }.

(** [INSERT INTO empleados (nombre, sede, grupo) VALUES ($1,$2,$3)
     RETURNING id]; [fecha] takes the default of its column, which is
    not in the sources and is a parameter here. *)
Definition insert_empleado (default_fecha : date) (nombre sede grupo : string)
    (db : Empleados.Db) : (Exn + Z) * Empleados.Db :=
  let new_id := Empleados.empleados_id_seq db in
  (inr new_id,
   Empleados.mkDb
     (Empleados.empleados db ++
        [Empleados.mkEmpleado new_id (Some nombre) (Some sede) (Some grupo)
           default_fecha])
     (Empleados.documentos db)
     (new_id + 1)).

(** [app.post("/api/empleados", ...)] *)
Definition post_empleados (default_fecha : date) (fault : option Exn) (b : Body)
    (db : Empleados.Db) : Response Empleados.Row * Empleados.Db :=
  try_catch
    (match or_null (b_nombre b), or_null (b_sede b), or_null (b_grupo b) with
     | Some nombre, Some sede, Some grupo =>
         nuevoId <- exec fault (insert_empleado default_fecha nombre sede grupo) ;;
         ret (json (JOkId nuevoId))
     | _, _, _ => ret (status_json 400 (JError "Faltan campos"))
     end)
    (fun _ => status_json 500 (JError "Error creando empleado"))
    db.

(** [SELECT id FROM empleados WHERE id = $1] *)
Definition select_id (id1 : Z) (db : Empleados.Db) : list Z :=
  map Empleados.id (filter (fun e => Empleados.id e =? id1) (Empleados.empleados db)).

(** [UPDATE empleados SET nombre = COALESCE($1, nombre),
     sede = COALESCE($2, sede), grupo = COALESCE($3, grupo) WHERE id = $4] *)
Definition update_empleado (b : Body) (id4 : Z) (db : Empleados.Db)
    : (Exn + unit) * Empleados.Db :=
  (inr tt,
   Empleados.mkDb
     (map (fun e =>
             if Empleados.id e =? id4
             then Empleados.mkEmpleado (Empleados.id e)
                    (Candidatos.COALESCE (or_null (b_nombre b)) (Empleados.nombre e))
                    (Candidatos.COALESCE (or_null (b_sede b)) (Empleados.sede e))
                    (Candidatos.COALESCE (or_null (b_grupo b)) (Empleados.grupo e))
                    (Empleados.fecha e)
             else e)
          (Empleados.empleados db))
     (Empleados.documentos db)
     (Empleados.empleados_id_seq db)).

(** [app.put("/api/empleados/:id", ...)]; [id_] is
    [Number(req.params.id)] for a numeric path segment. *)
Definition put_empleados (f : Faults) (id_ : Z) (b : Body) (db : Empleados.Db)
    : Response Empleados.Row * Empleados.Db :=
  try_catch
    (exists_ <- query (f 0%nat) (fun db => inr (select_id id_ db)) ;;
     match exists_ with
     | [] => ret (status_json 404 (JError "No encontrado"))
     | _ :: _ =>
         exec (f 1%nat) (update_empleado b id_) ;;;
         ret (json JOk)
     end)
    (fun _ => status_json 500 (JError "Error actualizando empleado"))
    db.

End EmpleadosWrites.

(** ** The employer profile
    [src/unnamed/part_000], lines 395-422 *)

Module EmployerProfile.
Import Js Http Pg Date Sql.
Local Open Scope pg_scope.

Record Employer := mkEmployer {
  id : Z;
  ruc : string;
  name : string;
  logo_url : option string
}.

Record Db := mkDb { employers : list Employer; employers_id_seq : Z }.

#[global] Instance Db_Database : Database Db :=
  {| restore_tables snapshot current :=
       mkDb (employers snapshot) (employers_id_seq current) |}.

(** [SELECT id, ruc, name, logo_url FROM employers ORDER BY id ASC LIMIT 1] *)
Definition first_employer (db : Db) : list Employer :=
  limit_1 (order_by (fun x y => id x <=? id y) (employers db)).

(** [app.get("/api/employer", ...)]; the answer is [q.rows[0] || null]. *)
Definition get_employer (fault : option Exn) (db : Db) : Response Employer * Db :=
  try_catch
    (q <- query fault (fun db => inr (first_employer db)) ;;
     ret (json (JRow (hd_error q))))
    (fun _ => status_json 500 (JText "error"))
    db.

(** [INSERT INTO employers (ruc, name, logo_url) VALUES ($1,$2,$3)
     ON CONFLICT (ruc) DO UPDATE
       SET name=EXCLUDED.name, logo_url=EXCLUDED.logo_url
     RETURNING id, ruc, name, logo_url].  The conflict is on the unique
    index of [ruc] that the statement names; the identifier of the
    proposed row is taken from the sequence before the conflict is
    seen. *)
Definition upsert_employer (ruc1 name2 : string) (logo3 : option string) (db : Db)
    : (Exn + Employer) * Db :=
  let new_id := employers_id_seq db in
  match filter (fun e => (ruc e =? ruc1)%string) (employers db) with
  | [] =>
      let row := mkEmployer new_id ruc1 name2 logo3 in
      (inr row, mkDb (employers db ++ [row]) (new_id + 1))
  | old :: _ =>
      (inr (mkEmployer (id old) (ruc old) name2 logo3),
       mkDb (map (fun e =>
                    if (ruc e =? ruc1)%string
                    then mkEmployer (id e) (ruc e) name2 logo3
                    else e)
                 (employers db))
            (new_id + 1))
  end.

(** [app.post("/api/employer", ...)] *)
Definition post_employer (fault : option Exn) (ruc name logo_url : Candidatos.value)
    (db : Db) : Response Employer * Db :=
  try_catch
    (if negb (Sites.truthy_value ruc) || negb (Sites.truthy_value name)
     then ret (status_json 400 (JText "RUC y nombre son obligatorios"))
     else
       up <- exec fault
               (upsert_employer (trim (Sites.to_string ruc))
                  (trim (Sites.to_string name))
                  (if Sites.truthy_value logo_url
                   then Candidatos.bound_text logo_url else None)) ;;
       ret (json (JRow (Some up))))
    (fun _ => status_json 500 (JText "error"))
    db.

End EmployerProfile.

(** * The terms of the statements

    What the facts below are stated with: closed forms of the tables, the
    outcomes of a request, the shape of a row after an update, and sample data. *)

(** ** The employer's tax regime history *)

Module EmployerTaxTerms.
Import Js Http Pg Date Sql EmployerTax.
Local Open Scope list_scope.

Definition employer_of (db : Db) : option Z :=
  match first_employer db with
  | e :: _ => if emp_id e =? 0 then None else Some (emp_id e)
  | [] => None
  end.










(** Three calls: a first regime on day 100, a second effective on day
    200, a third on day 300 (the day it is served). *)
Definition witness_db : Db :=
  mkDb [mkEmployer 1 "20123456789" "ACME"]
       [mkRegime 1 "MICRO" "Micro"; mkRegime 2 "GENERAL" "General"] [] 1.

End EmployerTaxTerms.

(** ** create *)

Module CreateTerms.
Import Js Http Pg Date Sql Candidatos.
Local Open Scope list_scope.
Local Abbreviation list := Datatypes.list.

(** The four required fields are all truthy. *)
Definition required_present (b : Body) : bool :=
  truthy (b_dni b) && truthy (b_apellido_paterno b)
  && truthy (b_apellido_materno b) && truthy (b_nombres b).

(** Both tables hold the rows they held. *)
Definition same_tables (db db' : Db) : Prop :=
  candidatos db' = candidatos db /\
  candidato_documentos db' = candidato_documentos db.

(** The row the parent insert adds. *)
Definition new_candidato (env : Env) (b : Body) (db : Db) : Candidato :=
  mkCandidato (candidatos_id_seq db) (b_dni b) (b_apellido_paterno b)
    (b_apellido_materno b) (b_nombres b) (b_sede b) (b_turno_horario b)
    (b_grupo b) (default_estado env) (default_fecha env).

(** What a request with its required fields runs into, statement by
    statement. *)
Inductive Outcome (env : Env) (req : Request) (db : Db)
    : (Exn + list (string * string))%type -> Prop :=
| BeginFails e :
    faults env 0%nat = Some e -> Outcome env req db (inl e)
| InsertFails e :
    faults env 0%nat = None -> faults env 1%nat = Some e ->
    Outcome env req db (inl e)
| DniTaken :
    faults env 0%nat = None -> faults env 1%nat = None ->
    dni_in_use (default_to "" (b_dni (body req))) db = true ->
    Outcome env req db (inl unique_violation)
| UploadFails e :
    faults env 0%nat = None -> faults env 1%nat = None ->
    dni_in_use (default_to "" (b_dni (body req))) db = false ->
    upload_tipos env (default_to "" (b_dni (body req))) (files req) tipos = inl e ->
    Outcome env req db (inl e)
| DocumentsFail e inserts :
    faults env 0%nat = None -> faults env 1%nat = None ->
    dni_in_use (default_to "" (b_dni (body req))) db = false ->
    upload_tipos env (default_to "" (b_dni (body req))) (files req) tipos = inr inserts ->
    inserts <> [] ->
    faults env 2%nat = Some e ->
    Outcome env req db (inl e)
| CommitFails e inserts :
    faults env 0%nat = None -> faults env 1%nat = None ->
    dni_in_use (default_to "" (b_dni (body req))) db = false ->
    upload_tipos env (default_to "" (b_dni (body req))) (files req) tipos = inr inserts ->
    (inserts = [] \/ faults env 2%nat = None) ->
    faults env 3%nat = Some e ->
    Outcome env req db (inl e)
| Commits inserts :
    faults env 0%nat = None -> faults env 1%nat = None ->
    dni_in_use (default_to "" (b_dni (body req))) db = false ->
    upload_tipos env (default_to "" (b_dni (body req))) (files req) tipos = inr inserts ->
    (inserts = [] \/ faults env 2%nat = None) ->
    faults env 3%nat = None ->
    Outcome env req db (inr inserts).

(** The answer and the database after each outcome. *)
Definition after (env : Env) (req : Request) (db : Db)
    (o : (Exn + list (string * string))%type) (r : Response unit) (db' : Db) : Prop :=
  match o with
  | inl e => r = create_catch e /\ same_tables db db'
  | inr inserts =>
      r = json (JOkId (candidatos_id_seq db)) /\
      candidatos db' = candidatos db ++ [new_candidato env (body req) db] /\
      candidato_documentos db'
        = candidato_documentos db
          ++ map (fun x => mkDocumento (candidatos_id_seq db) (fst x) (snd x)) inserts
  end.

(** [e.code === "23505"] *)
Definition is_unique_violation (e : Exn) : bool :=
  match exn_code e with
  | Some c => (c =? "23505")%string
  | None => false
  end.

Definition conflict : Response unit := status_json 409 (JError "DNI ya registrado").

Definition write_failure : Response unit :=
  status_json 500 (JError "Error creando candidato").

(** A candidate whose second certificate cannot be uploaded. *)
Definition witness_db : Db :=
  mkDb [mkCandidato 1 (Some "11111111") (Some "Perez") (Some "Lopez") (Some "Juan")
          (Some "Lima") None (Some "51") (Some "En Revision") (of_civil 2024 8 1)]
       [mkDocumento 1 "dni" "https://cdn/candidatos/11111111/dni/frente"]
       2.

Definition witness_env : Env :=
  mkEnv no_faults
    (fun _ folder name =>
       if (name =? "roto.pdf")%string then inl (mkExn None)
       else inr ("https://cdn/" ++ folder ++ "/" ++ name)%string)
    (Some "En Revision") (of_civil 2024 9 1).

Definition witness_req : Request :=
  mkRequest
    (mkBody (Some "12345678") (Some "Garcia") (Some "Flores") (Some "Maria")
       None None (Some "52") None)
    [("certificados", [mkFile "%PDF-1" "uno.pdf"; mkFile "%PDF-2" "roto.pdf"])].



Definition two_certificates : Request :=
  mkRequest
    (mkBody (Some "12345678") (Some "Garcia") (Some "Flores") (Some "Maria")
       None None (Some "52") None)
    [("certificados", [mkFile "%PDF-1" "uno.pdf"; mkFile "%PDF-2" "dos.pdf"])].

End CreateTerms.

(** ** update and updateEstado *)

Module UpdateTerms.
Import Js Http Pg Date Sql Candidatos.
Local Open Scope list_scope.
Local Abbreviation list := Datatypes.list.

(** [c'] is [c] with, when its id is [i], [e] for estado and nothing else
    changed. *)
Definition only_estado_set (i : Z) (e : string) (c c' : Candidato) : Prop :=
  id c' = id c /\ dni c' = dni c /\
  apellido_paterno c' = apellido_paterno c /\
  apellido_materno c' = apellido_materno c /\
  nombres c' = nombres c /\ sede c' = sede c /\
  turno_horario c' = turno_horario c /\ grupo c' = grupo c /\
  fecha c' = fecha c /\
  estado c' = if id c =? i then Some e else estado c.

(** What PUT /api/candidatos/:id/estado promises, for a handler over the
    enumeration [estados]. *)
Definition estado_contract
    (handler : option Exn -> Z -> value -> Db -> Response unit * Db)
    (estados : list string) : Prop :=
  forall (id_ : Z) (estado_ : value) (db : Db),
    ((forall s, estado_ = VString s -> ~ In s estados) ->
     forall fault,
       handler fault id_ estado_ db
         = (status_json 400 (JError "Estado inválido"), db)) /\
    (forall s, estado_ = VString s -> In s estados ->
       (forall c, In c (candidatos db) -> id c <> id_) ->
       handler None id_ estado_ db
         = (status_json 404 (JError "No encontrado"), db)) /\
    (forall s, estado_ = VString s -> In s estados ->
       (exists c, In c (candidatos db) /\ id c = id_) ->
       fst (handler None id_ estado_ db) = json JOk /\
       Forall2 (only_estado_set id_ s) (candidatos db)
         (candidatos (snd (handler None id_ estado_ db))) /\
       candidato_documentos (snd (handler None id_ estado_ db))
         = candidato_documentos db).

Definition witness_db : Db :=
  mkDb [mkCandidato 1 (Some "11111111") (Some "Perez") (Some "Lopez") (Some "Juan")
          (Some "Lima") None (Some "51") (Some "En Revision") (of_civil 2024 8 1);
        mkCandidato 2 (Some "22222222") (Some "Garcia") (Some "Flores") (Some "Maria")
          (Some "Arequipa") (Some "Tarde") (Some "52") (Some "Aprobado")
          (of_civil 2024 8 5)]
       [mkDocumento 1 "dni" "https://cdn/candidatos/11111111/dni/frente"]
       3.

(** The value [COALESCE(x || null, old)] leaves in a column: a supplied
    string that is not empty, and otherwise what the column held. *)
Definition merged (supplied : field) (old : option string) : option string :=
  match supplied with
  | Some s => if (s =? "")%string then old else Some s
  | None => old
  end.

(** [c'] is [c] after the update of the rows whose id is [i]. *)
Definition updated (i : Z) (b : Body) (c c' : Candidato) : Prop :=
  id c' = id c /\ dni c' = dni c /\ fecha c' = fecha c /\
  if id c =? i
  then apellido_paterno c' = merged (b_apellido_paterno b) (apellido_paterno c) /\
       apellido_materno c' = merged (b_apellido_materno b) (apellido_materno c) /\
       nombres c' = merged (b_nombres b) (nombres c) /\
       sede c' = merged (b_sede b) (sede c) /\
       turno_horario c' = merged (b_turno_horario b) (turno_horario c) /\
       grupo c' = merged (b_grupo b) (grupo c) /\
       estado c' = merged (b_estado b) (estado c)
  else c' = c.

(** A body that supplies an empty sede, a new grupo and a dni. *)
Definition witness_body : Body :=
  mkBody (Some "99999999") None None None (Some "") None (Some "77") None.
End UpdateTerms.

(** ** list *)

Module ListTerms.
Import Js Http Pg Date Sql Candidatos.
Local Open Scope list_scope.
Local Abbreviation list := Datatypes.list.

(** The request without its group bounds. *)
Definition without_group (q : Query) : Query :=
  mkQuery (ano q) (mes q) (q_estado q) None None.

(** The fragment is a group-range predicate. *)
Definition is_group_range (p : Pred) : bool :=
  match cond p with
  | GrupoDigitsBetween _ _ | GrupoCastBetween _ _ => true
  | _ => false
  end.

(** Three candidates: two of August 2024 (one in a group that is not a
    number), one of September 2023. *)
Definition sample_db : Db :=
  mkDb [mkCandidato 1 (Some "11111111") (Some "Perez") (Some "Lopez") (Some "Juan")
          (Some "Lima") None (Some "51") (Some "En Revision") (of_civil 2024 8 1);
        mkCandidato 2 (Some "22222222") (Some "Garcia") (Some "Flores") (Some "Maria")
          (Some "Arequipa") (Some "Tarde") (Some "A1") (Some "Aprobado")
          (of_civil 2024 8 1);
        mkCandidato 3 (Some "33333333") (Some "Ramos") (Some "Diaz") (Some "Carlos")
          (Some "Cusco") (Some "Noche") (Some "53") (Some "Aprobado")
          (of_civil 2023 9 12)]
       [mkDocumento 1 "dni" "https://cdn/candidatos/11111111/dni/frente";
        mkDocumento 1 "cv" "https://cdn/candidatos/11111111/cv/cv"]
       4.

(** [x] may stand before [y]: a later date, or the same date and an id
    that is not smaller. *)
Definition date_desc_id_desc (x y : Candidato) : Prop :=
  fecha y < fecha x \/ (fecha y = fecha x /\ id y <= id x).

(** The rows of an answer. *)
Definition rows_of {Row} (r : Response Row) : list Row :=
  match Http.body r with
  | JRows rows => rows
  | _ => []
  end.

Definition in_range_50_60 : Query := mkQuery None None None (Some "50") (Some "60").
End ListTerms.

(** ** The middleware and the sentinel *)

Module MiddlewareTerms.
Import Js Http Pg Date Sql.
Local Open Scope list_scope.

Definition sample_db : Candidatos.Db :=
  Candidatos.mkDb
    [Candidatos.mkCandidato 1 (Some "11111111") (Some "Perez") (Some "Lopez")
       (Some "Juan") (Some "Lima") None (Some "51") (Some "En Revision")
       (of_civil 2024 8 1);
     Candidatos.mkCandidato 2 (Some "22222222") (Some "Garcia") (Some "Flores")
       (Some "Maria") (Some "Arequipa") (Some "Tarde") (Some "52") (Some "Aprobado")
       (of_civil 2024 8 5)]
    [] 3.

Definition ano_todos : Candidatos.Query :=
  Candidatos.mkQuery (Some "TODOS") None None None None.

Definition no_parameters : Candidatos.Query :=
  Candidatos.mkQuery None None None None None.
End MiddlewareTerms.

(** ** The empleados SQL server *)

Module EmpleadosTerms.
Import Js Http Pg Date Sql Empleados.
Local Open Scope list_scope.

Definition sample_db : Db :=
  mkDb [mkEmpleado 1 (Some "JUAN PEREZ LOPEZ") (Some "Lima") (Some "51")
          (of_civil 2024 8 1);
        mkEmpleado 2 (Some "MARIA GARCIA FLORES") (Some "Arequipa") (Some "A1")
          (of_civil 2024 8 5)]
       [mkDocumento 1 "dni" "https://example.com/uploads/1/dni.pdf"]
       3.

Definition range_1_99 : Query := mkQuery None None None (Some "1") (Some "99").

Definition no_parameters : Query := mkQuery None None None None None.
End EmpleadosTerms.

(** ** The code generator *)

Module CodeTerms.
Import Js Http Pg Date Sql Server.
Local Open Scope list_scope.













End CodeTerms.

(** ** The demo server's store *)

Module DemoStoreTerms.
Import Js Http Demo DemoStore.
Local Open Scope list_scope.

(** A request that writes. *)
Inductive Request :=
| Post (today : string) (b : Body)
| Put (id_ : number) (b : Body).

Definition step (l : list Empleado) (r : Request) : list Empleado :=
  match r with
  | Post today b => snd (post_empleados today b l)
  | Put id_ b => snd (put_empleados id_ b l)
  end.

(** The data after the requests, served in order from the data the
    server starts with. *)
Definition run (requests : list Request) : list Empleado :=
  fold_left step requests empleados.

(** The ids are positive and grow along the list. *)
Definition ids_increase (l : list Empleado) : Prop :=
  StronglySorted Z.lt (0 :: map id l).

(** The value a text field has after [if (x) e.x = x]. *)
Definition kept_or (supplied : field) (old : string) : string :=
  match supplied with
  | Some s => if (s =? "")%string then old else s
  | None => old
  end.

(** [e'] is [e] after the assignments of PUT. *)
Definition reassigned (b : Body) (e e' : Empleado) : Prop :=
  id e' = id e /\ fecha e' = fecha e /\
  nombre e' = kept_or (b_nombre b) (nombre e) /\
  sede e' = kept_or (b_sede b) (sede e) /\
  grupo e' = kept_or (b_grupo b) (grupo e) /\
  dni e' = dni e /\ certificados e' = certificados e /\
  antecedentes e' = antecedentes e /\ medicos e' = medicos e /\
  capacitacion e' = capacitacion e.

Definition sample_body : Body := mkBody (Some "ANA SOTO") (Some "Lima / Tarde") (Some "53").
End DemoStoreTerms.

(** ** The detail of a candidate *)

Module DetailTerms.
Import Js Http Pg Date Sql Candidatos CandidatoDetail.
Local Open Scope list_scope.
Local Abbreviation list := Datatypes.list.

(** The documents of a candidate, as rows of the answer. *)
Definition docs_of (created_at : Documento -> Z) (id_ : Z) (db : Db) : list DocRow :=
  map (fun d => mkDocRow (tipo d) (url d) (created_at d))
    (filter (fun d => candidato_id d =? id_) (candidato_documentos db)).

(** The category and the URL of a row of the answer. *)
Definition tagged (d : DocRow) : string * string := (d_tipo d, d_url d).

(** A timestamp for examples: every row was written at the same time. *)
Definition at_once (d : Documento) : Z := 0.
End DetailTerms.

(** ** The tax regime writer and its reads *)

Module TaxWriterTerms.
Import Js Http Pg Date Sql EmployerTax EmployerTaxReads.
Import EmployerTaxTerms.
Local Open Scope list_scope.

(** The three tables hold the rows they held. *)
Definition same_tables (db db' : Db) : Prop :=
  employers db' = employers db /\
  regimes_tax db' = regimes_tax db /\
  employer_tax_history db' = employer_tax_history db.



(** The employer has a regime since day 100; the read that follows the
    COMMIT is lost. *)
Definition one_period_db : Db :=
  mkDb [mkEmployer 1 "20123456789" "ACME"]
       [mkRegime 1 "MICRO" "Micro"; mkRegime 2 "GENERAL" "General"]
       [mkPeriod 1 1 1 100 None] 2.


Definition no_employer_db : Db :=
  mkDb [] [mkRegime 1 "MICRO" "Micro"] [] 1.
End TaxWriterTerms.

(** ** The uploader and the documents statement *)

Module UploaderTerms.
Import Js Http Pg Date Sql Uploader.
Local Open Scope list_scope.

(** The files of a request that [create] uploads, each with its
    category, in the order of the uploads. *)
Definition planned (fs : list (string * list Candidatos.File))
    : list (string * Candidatos.File) :=
  flat_map (fun t => map (pair t) (Candidatos.files_of fs t)) Candidatos.tipos.

(** The upload of one of them. *)
Definition upload_of (env : Candidatos.Env) (candDni : string)
    (tf : string * Candidatos.File) : Exn + string :=
  Candidatos.uploadToCloudinary env (Candidatos.buffer (snd tf))
    ("candidatos/" ++ candDni ++ "/" ++ fst tf)%string
    (Candidatos.originalname (snd tf)).

(** [x] is what the upload of [tf] adds to [inserts]. *)
Definition uploaded (env : Candidatos.Env) (candDni : string)
    (x : string * string) (tf : string * Candidatos.File) : Prop :=
  fst x = fst tf /\ upload_of env candDni tf = inr (snd x).

(** The uploads of a list of files, stopped by the first that fails. *)
Fixpoint collect (env : Candidatos.Env) (candDni : string)
    (l : list (string * Candidatos.File)) : Exn + list (string * string) :=
  match l with
  | [] => inr []
  | tf :: rest =>
      and_then (upload_of env candDni tf) (fun u =>
      and_then (collect env candDni rest) (fun more => inr ((fst tf, u) :: more)))
  end.

(** An uploader that stores everything, and a request with a file under
    a field that is no category. *)
Definition storing : Candidatos.Env :=
  Candidatos.mkEnv no_faults
    (fun _ folder name => inr ("https://cdn/" ++ folder ++ "/" ++ name)%string)
    None 0.

Definition with_a_stray_field : list (string * list Candidatos.File) :=
  [("cv", [Candidatos.mkFile "%PDF-3" "cv.pdf"]);
   ("foto", [Candidatos.mkFile "JFIF" "foto.jpg"]);
   ("dni", [Candidatos.mkFile "%PDF-1" "frente.pdf";
            Candidatos.mkFile "%PDF-2" "dorso.pdf"])].
End UploaderTerms.

(** ** The placeholders of the list statements *)

Module BuilderTerms.
Import Js Http Pg Date Sql Candidatos.
Local Open Scope list_scope.
Local Abbreviation list := Datatypes.list.

(** The placeholders a fragment names, in the order of its text. *)
Definition cond_placeholders (c : Cond) : list nat :=
  match c with
  | YearIs i | MonthIs i | EstadoIsLower i | EstadoIs i => [i]
  | GrupoDigitsBetween i j | GrupoCastBetween i j => [i; j]
  end.

(** Read from left to right the clause names $1, $2, ... up to the
    number of values pushed, and [i] is the next free number. *)
Definition numbered (b : Builder) : Prop :=
  flat_map cond_placeholders (map cond (where_ b)) = seq 1 (List.length (params b)) /\
  i b = S (List.length (params b)).

(** Every placeholder of the clause has its value. *)
Definition every_placeholder_bound (b : Builder) : Prop :=
  forall p k, In p (where_ b) -> In k (cond_placeholders (cond p)) ->
    exists v, placeholder (params b) k = inr v.
End BuilderTerms.

(** ** The group range and the range of integers *)

Module RangeTerms.
Import Js Http Pg Date Sql Candidatos.
Local Open Scope list_scope.
Local Abbreviation list := Datatypes.list.

(** The request filters by the group range and by nothing else. *)
Definition only_group_range (q : Query) : Prop :=
  default_to "TODOS" (ano q) = "TODOS" /\
  default_to "TODOS" (mes q) = "TODOS" /\
  truthy (q_estado q) = false /\
  truthy (grupoInicio q) = true /\ truthy (grupoFin q) = true.

(** A candidate whose grupo is a ten-digit number. *)
Definition wide_db : Db :=
  mkDb [mkCandidato 1 (Some "11111111") (Some "Perez") (Some "Lopez") (Some "Juan")
          (Some "Lima") None (Some "51") (Some "En Revision") (of_civil 2024 8 1);
        mkCandidato 2 (Some "22222222") (Some "Garcia") (Some "Flores") (Some "Maria")
          (Some "Arequipa") None (Some "4000000000") (Some "Aprobado")
          (of_civil 2024 8 5)]
       [] 3.
End RangeTerms.

(** ** The normalising middleware and the handlers behind it *)

Module BodyMiddlewareTerms.
Import Js Http Pg Date Sql BodyMiddleware.
Local Open Scope list_scope.

(** An upper-case ASCII letter. *)
Definition is_upper (c : ascii) : bool :=
  let n := nat_of_ascii c in ((65 <=? n) && (n <=? 90))%nat.

Fixpoint has_upper (s : string) : bool :=
  match s with
  | EmptyString => false
  | String c s' => is_upper c || has_upper s'
  end.

(** No upper-case letter stands after a word character. *)
Fixpoint capitals_start_words (after_word : bool) (s : string) : bool :=
  match s with
  | EmptyString => true
  | String c s' =>
      negb (is_upper c && after_word) && capitals_start_words (is_word c) s'
  end.

(** The text is ASCII. *)
Fixpoint is_ascii (s : string) : bool :=
  match s with
  | EmptyString => true
  | String c s' => (nat_of_ascii c <? 128)%nat && is_ascii s'
  end.

(** Two candidates that differ in the case of their estado. *)
Definition lower_case_candidate : Candidatos.Candidato :=
  Candidatos.mkCandidato 2 (Some "22222222") (Some "Garcia") (Some "Flores")
    (Some "Maria") (Some "Arequipa") None (Some "52") (Some "aprobado")
    (of_civil 2024 8 5).

Definition mixed_db : Candidatos.Db :=
  Candidatos.mkDb
    [Candidatos.mkCandidato 1 (Some "11111111") (Some "Perez") (Some "Lopez")
       (Some "Juan") (Some "Lima") None (Some "51") (Some "Aprobado")
       (of_civil 2024 8 1);
     lower_case_candidate]
    [] 3.

Definition estado_invalido : Response unit :=
  status_json 400 (JError "Estado inválido").
End BodyMiddlewareTerms.

(** ** The cut of the slug *)

Module SlugTerms.
Import Js Http Pg Date Sql Server.
Local Open Scope list_scope.

(** The slug before [.slice(0, 32)]. *)
Definition uncut (normalize : string -> string -> string) (str : field) : string :=
  trim_hyphens
    (replace_runs false
       (toUpperCase
          (remove_combining_marks
             (normalize "NFKD" (default_to "" (or_null str)))))).

Fixpoint ends_with_hyphen (s : string) : bool :=
  match s with
  | EmptyString => false
  | String c EmptyString => is_hyphen c
  | String _ s' => ends_with_hyphen s'
  end.

(** A name whose thirty-second character is a space. *)
Definition long_name : string := "ABCDEFGHIJKLMNOPQRSTUVWXYZ01234 SUR".
End SlugTerms.

(** ** Sites whose code is sent by the client *)

Module SitesTerms.
Import Js Http Pg Date Sql Server Sites.
Local Open Scope list_scope.

(** The two tables hold the rows they held. *)
Definition same_rows (db db' : Db) : Prop :=
  sites db' = sites db /\ projects db' = projects db.

(** The value a column has after [COALESCE($k, column)] for a field of
    the body: null and an absent field keep the column, everything else,
    the empty string included, replaces it. *)
Definition replaced (v : Candidatos.value) (old : string) : string :=
  match v with
  | Candidatos.VUndefined | Candidatos.VNull => old
  | _ => to_string v
  end.

(** [s'] is [s] after the update of the sites whose id is [i]. *)
Definition site_updated (i : Z) (code name : Candidatos.value) (s s' : Site) : Prop :=
  if site_id s =? i
  then s' = mkSite (site_id s) (replaced code (site_code s))
              (replaced name (site_name s))
  else s' = s.

(** Two sites, the first with a project. *)
Definition two_sites : Db :=
  mkDb [mkSite 1 "LIM" "Lima"; mkSite 2 "AQP" "Arequipa"] 3
       [mkProject 1 "P1" "Planta" 1] 2.
End SitesTerms.

(** ** The empleados SQL server: documents and filters *)

Module EmpleadosListTerms.
Import Js Http Pg Date Sql Empleados.
Local Open Scope list_scope.

(** The document is of this employee and of this type. *)
Definition is_doc (e : Z) (t : string) (d : Documento) : bool :=
  (empleado_id d =? e) && (tipo d =? t)%string.

(** The URLs stored for an employee and a type, in the order the rows
    are read. *)
Definition urls_of (e : Z) (t : string) (docs : list Documento) : list string :=
  map url (filter (is_doc e t) docs).

(** The first of them that is not empty. *)
Definition first_url (e : Z) (t : string) (docs : list Documento) : option string :=
  hd_error (filter (fun u => negb (u =? "")%string) (urls_of e t docs)).

(** The last of them, when it is not empty. *)
Definition last_url (e : Z) (t : string) (docs : list Documento) : option string :=
  or_null (hd_error (rev (urls_of e t docs))).

(** One round of the loop over [docsRes.rows]. *)
Definition index_step (m : DocsMap) (d : Documento) : DocsMap :=
  if (tipo d =? "certificados")%string || (tipo d =? "capacitacion")%string
  then if truthy (lookup m (empleado_id d) (tipo d)) then m
       else assign m (empleado_id d) (tipo d) (url d)
  else assign m (empleado_id d) (tipo d) (url d).

(** An employee with three certificates (the first with an empty URL)
    and two identity documents. *)
Definition several_docs : Db :=
  mkDb [mkEmpleado 1 (Some "JUAN PEREZ LOPEZ") (Some "Lima") (Some "51")
          (of_civil 2024 8 1)]
       [mkDocumento 1 "certificados" "";
        mkDocumento 1 "dni" "https://cdn/1/dni-frente.pdf";
        mkDocumento 1 "certificados" "https://cdn/1/cert-a.pdf";
        mkDocumento 1 "certificados" "https://cdn/1/cert-b.pdf";
        mkDocumento 1 "dni" "https://cdn/1/dni-dorso.pdf"]
       2.
End EmpleadosListTerms.

(** ** The empleados SQL server: create and update *)

Module EmpleadosWritesTerms.
Import Js Http Pg Date Sql Empleados EmpleadosWrites.
Local Open Scope list_scope.

(** [e'] is [e] after the update of the employees whose id is [i]. *)
Definition emp_updated (i : Z) (b : Body) (e e' : Empleado) : Prop :=
  id e' = id e /\ fecha e' = fecha e /\
  if id e =? i
  then nombre e' = UpdateTerms.merged (b_nombre b) (nombre e) /\
       sede e' = UpdateTerms.merged (b_sede b) (sede e) /\
       grupo e' = UpdateTerms.merged (b_grupo b) (grupo e)
  else e' = e.

(** The request without parameters. *)
Definition everything : Query := mkQuery None None None None None.

Definition update_lost : Faults :=
  fun k => if (k =? 1)%nat then Some (mkExn (Some "08006")) else None.
End EmpleadosWritesTerms.

(** ** The employer profile *)

Module EmployerProfileTerms.
Import Js Http Pg Date Sql EmployerProfile.
Local Open Scope list_scope.

(** [logo_url || null], as the driver binds it. *)
Definition sent_logo (v : Candidatos.value) : option string :=
  if Sites.truthy_value v then Candidatos.bound_text v else None.

(** What the upsert does to a row when the conflict is on [r]. *)
Definition overwrite (r n : string) (l : option string) (e : Employer) : Employer :=
  if (ruc e =? r)%string then mkEmployer (id e) (ruc e) n l else e.

Definition acme : Db := mkDb [mkEmployer 1 "20123456789" "ACME" None] 2.
End EmployerProfileTerms.

(** ** Effective dates that are not later *)

Module BackdatedTerms.
Import Js Http Pg Date Sql EmployerTax.
Import EmployerTaxTerms TaxWriterTerms.
Local Open Scope list_scope.

End BackdatedTerms.

(** * Facts

    Lemmas on the query results, then the facts of each handler. *)

(** ** ORDER BY and filters *)

Module SqlFacts.
Import Sql.
Local Open Scope list_scope.

Section OrderBy.
Context {A : Type}.
Variable before : A -> A -> bool.

Lemma insert_perm x l : Permutation (insert before x l) (x :: l).
Proof.
  induction l as [|y l IH]; simpl; [reflexivity|].
  destruct (before x y); [reflexivity|].
  rewrite IH. apply perm_swap.
Qed.

Lemma order_by_perm l : Permutation (order_by before l) l.
Proof.
  induction l as [|x l IH]; simpl; [reflexivity|].
  rewrite insert_perm. now constructor.
Qed.

Hypothesis before_total : forall x y, before x y = true \/ before y x = true.

Lemma insert_sorted x l :
  Sorted (fun a b => before a b = true) l ->
  Sorted (fun a b => before a b = true) (insert before x l).
Proof.
  induction 1 as [|y l Hs IH Hhd]; simpl.
  - repeat constructor.
  - destruct (before x y) eqn:Hxy.
    + repeat constructor; assumption.
    + constructor; [exact IH|].
      destruct l as [|z l]; simpl.
      * constructor. destruct (before_total x y); congruence.
      * destruct (before x z).
        -- constructor. destruct (before_total x y); congruence.
        -- inversion Hhd; subst. now constructor.
Qed.

Lemma order_by_sorted l :
  Sorted (fun a b => before a b = true) (order_by before l).
Proof.
  induction l as [|x l IH]; simpl; [constructor|].
  now apply insert_sorted.
Qed.
End OrderBy.



Lemma filter_none {A} (f : A -> bool) (l : list A) :
  (forall x, In x l -> f x = false) -> filter f l = [].
Proof.
  induction l as [|y l IH]; intros Hf; [reflexivity|].
  simpl. rewrite (Hf y (or_introl eq_refl)). apply IH.
  intros x Hx. apply Hf. now right.
Qed.

End SqlFacts.

(** ** The employer's tax regime history *)

Module EmployerTaxFacts.
Import Js Http Pg Date Sql EmployerTax.
Import EmployerTaxTerms.
Local Open Scope list_scope.



















End EmployerTaxFacts.

(** ** create *)

Module CreateFacts.
Import Js Http Pg Date Sql Candidatos.
Import CreateTerms.
Local Open Scope list_scope.
Local Abbreviation list := Datatypes.list.

Lemma or_null_truthy v : truthy v = true -> or_null v = v /\ exists s, v = Some s.
Proof.
  unfold or_null. intros H. rewrite H. split; [reflexivity|].
  destruct v; [eauto|discriminate].
Qed.

Lemma or_null_falsy v : truthy v = false -> or_null v = None.
Proof. unfold or_null. now intros ->. Qed.

Ltac run_create :=
  unfold create, try_catch_rollback, create_try, bind, exec, lift, ret,
    BEGIN, COMMIT, committed, ROLLBACK, insert_candidato, insert_documentos;
  cbn [live txn fst snd restore_tables Db_Database candidatos
       candidato_documentos candidatos_id_seq].

Lemma create_missing env req db :
  required_present (body req) = false ->
  create env req db = (status_json 400 (JError "Faltan campos obligatorios"), db).
Proof.
  unfold required_present. intros H. run_create.
  destruct (truthy (b_dni (body req))) eqn:H1;
    [|rewrite (or_null_falsy _ H1); reflexivity].
  destruct (truthy (b_apellido_paterno (body req))) eqn:H2;
    [|rewrite (or_null_falsy _ H2); destruct (or_null _); reflexivity].
  destruct (truthy (b_apellido_materno (body req))) eqn:H3;
    [|rewrite (or_null_falsy _ H3); repeat (destruct (or_null _)); reflexivity].
  destruct (truthy (b_nombres (body req))) eqn:H4; [discriminate|].
  rewrite (or_null_falsy _ H4); repeat (destruct (or_null _)); reflexivity.
Qed.

Lemma create_present env req db :
  required_present (body req) = true ->
  exists o,
    Outcome env req db o /\
    after env req db o (fst (create env req db)) (snd (create env req db)).
Proof.
  unfold required_present. intros H.
  apply andb_prop in H; destruct H as [H H4].
  apply andb_prop in H; destruct H as [H H3].
  apply andb_prop in H; destruct H as [H1 H2].
  destruct (or_null_truthy _ H1) as [E1 [d Hd]].
  destruct (or_null_truthy _ H2) as [E2 [ap Hap]].
  destruct (or_null_truthy _ H3) as [E3 [am Ham]].
  destruct (or_null_truthy _ H4) as [E4 [nom Hnom]].
  unfold after, new_candidato. run_create.
  rewrite E1, E2, E3, E4, Hd, Hap, Ham, Hnom. cbn [default_to].
  destruct (faults env 0%nat) as [e|] eqn:F0.
  { exists (inl e). split; [now apply BeginFails|]. cbn. repeat split. }
  destruct (faults env 1%nat) as [e|] eqn:F1.
  { exists (inl e). split; [now apply InsertFails|]. cbn. repeat split. }
  cbn [live txn fst snd].
  destruct (dni_in_use d db) eqn:Hdni.
  { exists (inl unique_violation). split.
    - apply DniTaken; auto. now rewrite Hd.
    - cbn. repeat split. }
  cbn [fst snd live txn].
  destruct (upload_tipos env d (files req) tipos) as [e|inserts] eqn:Hup.
  { exists (inl e). split.
    - apply UploadFails; auto; now rewrite Hd.
    - cbn. repeat split. }
  destruct inserts as [|x inserts].
  - destruct (faults env 3%nat) as [e|] eqn:F3.
    + exists (inl e). split.
      * apply (CommitFails _ _ _ e []); auto; now rewrite Hd.
      * cbn. repeat split.
    + exists (inr []). split.
      * apply Commits; auto; now rewrite Hd.
      * cbn. rewrite app_nil_r. repeat split.
  - destruct (faults env 2%nat) as [e|] eqn:F2.
    { exists (inl e). split.
      - apply (DocumentsFail _ _ _ e (x :: inserts)); auto;
          try (now rewrite Hd); discriminate.
      - cbn. repeat split. }
    destruct (faults env 3%nat) as [e|] eqn:F3.
    + exists (inl e). split.
      * apply (CommitFails _ _ _ e (x :: inserts)); auto; now rewrite Hd.
      * cbn. repeat split.
    + exists (inr (x :: inserts)). split.
      * apply Commits; auto; now rewrite Hd.
      * cbn. repeat split.
Qed.

Lemma outcome_unique env req db o o' :
  Outcome env req db o -> Outcome env req db o' -> o = o'.
Proof.
  intros H H'. inversion H; subst; inversion H'; subst;
    try congruence;
    repeat match goal with
           | H : _ \/ _ |- _ => destruct H
           end; congruence.
Qed.

Lemma create_outcome env req db o :
  required_present (body req) = true ->
  Outcome env req db o ->
  after env req db o (fst (create env req db)) (snd (create env req db)).
Proof.
  intros Hreq Ho. destruct (create_present env req db Hreq) as (o' & Ho' & Hafter).
  now rewrite (outcome_unique _ _ _ _ _ Ho Ho').
Qed.

Lemma create_catch_spec e :
  create_catch e = if is_unique_violation e then conflict else write_failure.
Proof.
  unfold create_catch, is_unique_violation.
  destruct (exn_code e) as [c|]; [destruct (c =? "23505")%string|]; reflexivity.
Qed.

(** C2.  When the parent insert of POST /api/candidatos succeeds and then
    an upload or the insert of the documents fails with [e], the handler
    has rolled the transaction back when it answers: both tables hold the
    rows they held before the request (no candidato with the request's
    dni, no document row more), and the answer is the duplicate-key one
    (409) when [e.code] is 23505 and the generic write failure (500)
    otherwise. *)
Theorem create_rolls_back_after_parent_insert :
  forall (env : Env) (req : Request) (db : Db) (e : Exn),
    required_present (body req) = true ->
    faults env 0%nat = None ->
    faults env 1%nat = None ->
    dni_in_use (default_to "" (b_dni (body req))) db = false ->
    (upload_tipos env (default_to "" (b_dni (body req))) (files req) tipos = inl e
     \/ exists inserts,
          upload_tipos env (default_to "" (b_dni (body req))) (files req) tipos
            = inr inserts /\
          inserts <> [] /\ faults env 2%nat = Some e) ->
    candidatos (snd (create env req db)) = candidatos db /\
    candidato_documentos (snd (create env req db)) = candidato_documentos db /\
    (forall c, In c (candidatos (snd (create env req db))) ->
               dni c <> b_dni (body req)) /\
    fst (create env req db)
      = (if is_unique_violation e then conflict else write_failure).
Proof.
  intros env req db e Hreq F0 F1 Hfree Hfail.
  assert (Ho : Outcome env req db (inl e)).
  { destruct Hfail as [Hup|(inserts & Hup & Hne & F2)].
    - now apply UploadFails.
    - now apply (DocumentsFail _ _ _ e inserts). }
  destruct (create_outcome env req db _ Hreq Ho) as (Hr & Hc & Hd).
  rewrite Hr, Hc, Hd, create_catch_spec. repeat split.
  intros c Hin Heq.
  unfold required_present in Hreq.
  destruct (b_dni (body req)) as [d|] eqn:Hdni; [|discriminate].
  cbn [default_to] in Hfree. unfold dni_in_use in Hfree.
  rewrite <- not_true_iff_false in Hfree. apply Hfree.
  apply existsb_exists. exists c. split; [exact Hin|].
  rewrite Heq. apply String.eqb_refl.
Qed.

Lemma create_rolls_back_after_parent_insert_witness :
  candidatos (snd (create witness_env witness_req witness_db)) = candidatos witness_db /\
  candidato_documentos (snd (create witness_env witness_req witness_db))
    = candidato_documentos witness_db /\
  (forall c, In c (candidatos (snd (create witness_env witness_req witness_db))) ->
             dni c <> Some "12345678") /\
  fst (create witness_env witness_req witness_db) = write_failure.
Proof.
  apply (create_rolls_back_after_parent_insert witness_env witness_req witness_db
           (mkExn None)).
  - reflexivity.
  - reflexivity.
  - reflexivity.
  - reflexivity.
  - left. reflexivity.
Defined.



Lemma create_success env req db :
  status (fst (create env req db)) = 200 ->
  fst (create env req db) = json (JOkId (candidatos_id_seq db)) /\
  candidatos (snd (create env req db))
    = candidatos db ++ [new_candidato env (body req) db] /\
  exists inserts,
    upload_tipos env (default_to "" (b_dni (body req))) (files req) tipos
      = inr inserts /\
    candidato_documentos (snd (create env req db))
      = candidato_documentos db
        ++ map (fun x => mkDocumento (candidatos_id_seq db) (fst x) (snd x)) inserts.
Proof.
  intros Hok. destruct (required_present (body req)) eqn:Hreq.
  - destruct (create_present env req db Hreq) as (o & Ho & Hafter).
    destruct o as [e|inserts]; cbn [after] in Hafter.
    + destruct Hafter as [Hr _]. rewrite Hr, create_catch_spec in Hok.
      destruct (is_unique_violation e); discriminate.
    + destruct Hafter as (Hr & Hc & Hd). split; [exact Hr|]. split; [exact Hc|].
      exists inserts. split; [|exact Hd]. inversion Ho; assumption.
  - rewrite (create_missing env req db Hreq) in Hok. discriminate.
Qed.


End CreateFacts.

(** ** update and updateEstado *)

Module UpdateFacts.
Import Js Http Pg Date Sql Candidatos.
Import UpdateTerms.
Local Open Scope list_scope.
Local Abbreviation list := Datatypes.list.

Lemma map_unmatched {A} (p : A -> bool) (f : A -> A) (l : list A) :
  (forall x, In x l -> p x = false) ->
  map (fun x => if p x then f x else x) l = l.
Proof.
  induction l as [|x l IH]; intros H; [reflexivity|].
  simpl. rewrite (H x (or_introl eq_refl)). f_equal.
  apply IH. intros y Hy. apply H. now right.
Qed.

Lemma rowCount_zero (i : Z) (l : list Candidato) :
  (forall c, In c l -> id c <> i) ->
  List.length (filter (fun c => id c =? i) l) = 0%nat.
Proof.
  intros H. induction l as [|c l IH]; [reflexivity|].
  simpl. destruct (Z.eqb_spec (id c) i) as [Heq|_].
  - exfalso. apply (H c); [now left|exact Heq].
  - apply IH. intros c' Hc'. apply H. now right.
Qed.

Lemma rowCount_positive (i : Z) (l : list Candidato) :
  (exists c, In c l /\ id c = i) ->
  exists n, List.length (filter (fun c => id c =? i) l) = S n.
Proof.
  intros (c & Hin & Hid).
  assert (Hf : In c (filter (fun c => id c =? i) l)).
  { apply filter_In. split; [exact Hin|]. now apply Z.eqb_eq. }
  destruct (filter (fun c => id c =? i) l); [contradiction|].
  simpl. eauto.
Qed.

Lemma Forall2_map_l {A} (R : A -> A -> Prop) (f : A -> A) (l : list A) :
  (forall x, R x (f x)) -> Forall2 R l (map f l).
Proof. intros H. induction l; simpl; constructor; auto. Qed.

(** *** updateEstado *)

Lemma includes_spec (l : list string) (v : value) :
  includes l v = true <-> exists s, v = VString s /\ In s l.
Proof.
  destruct v; simpl; try (split; [discriminate|intros (s & H & _); discriminate]).
  rewrite existsb_exists. split.
  - intros (x & Hin & Heq). apply String.eqb_eq in Heq. subst. eauto.
  - intros (s' & Heq & Hin). inversion Heq; subst.
    exists s'. split; [exact Hin|apply String.eqb_refl].
Qed.

Ltac run_updateEstado s :=
  unfold updateEstado_with, try_catch;
  rewrite (proj2 (includes_spec _ (VString s))) by (exists s; auto);
  unfold bind, exec, ret, committed, ROLLBACK, set_estado; cbn.

Lemma updateEstado_invalid estados fault id_ estado_ db :
  (forall s, estado_ = VString s -> ~ In s estados) ->
  updateEstado_with estados fault id_ estado_ db
    = (status_json 400 (JError "Estado inválido"), db).
Proof.
  intros Hnot. unfold updateEstado_with, try_catch.
  destruct (includes estados estado_) eqn:Hinc; [|reflexivity].
  apply includes_spec in Hinc. destruct Hinc as (s & Hs & Hin).
  exfalso. exact (Hnot s Hs Hin).
Qed.

Lemma updateEstado_absent estados id_ s db :
  In s estados ->
  (forall c, In c (candidatos db) -> id c <> id_) ->
  updateEstado_with estados None id_ (VString s) db
    = (status_json 404 (JError "No encontrado"), db).
Proof.
  intros Hin Hnone. run_updateEstado s.
  rewrite (rowCount_zero id_ _ Hnone). cbn.
  rewrite map_unmatched.
  - destruct db; reflexivity.
  - intros c Hc. apply Z.eqb_neq. now apply Hnone.
Qed.

Lemma updateEstado_found estados id_ s db :
  In s estados ->
  (exists c, In c (candidatos db) /\ id c = id_) ->
  fst (updateEstado_with estados None id_ (VString s) db) = json JOk /\
  Forall2 (only_estado_set id_ s) (candidatos db)
    (candidatos (snd (updateEstado_with estados None id_ (VString s) db))) /\
  candidato_documentos (snd (updateEstado_with estados None id_ (VString s) db))
    = candidato_documentos db.
Proof.
  intros Hin Hsome. run_updateEstado s.
  destruct (rowCount_positive id_ _ Hsome) as [n ->]. cbn.
  repeat split.
  apply Forall2_map_l. intros c. unfold only_estado_set.
  destruct (id c =? id_); cbn; repeat split.
Qed.

Lemma updateEstado_with_contract estados :
  estado_contract (updateEstado_with estados) estados.
Proof.
  intros id_ estado_ db. split; [|split].
  - intros Hnot fault. now apply updateEstado_invalid.
  - intros s -> Hin Hnone. now apply updateEstado_absent.
  - intros s -> Hin Hsome. now apply updateEstado_found.
Qed.

(** C9.  PUT /api/candidatos/{id}/estado, in the controller and in the
    inline handler: an estado outside the handler's three-value
    enumeration is answered 400 and changes nothing (whatever the storage
    would do); a valid estado for an id no row has is answered 404 and
    changes nothing; otherwise the answer is [{ ok: true }], the rows
    with that id have the new estado and no other column changed, and no
    other row changed. *)
Theorem updateEstado_contract :
  estado_contract updateEstado ["En Revision"; "Cancelado"; "Aprobado"] /\
  estado_contract put_candidatos_id_estado ["EN_REVISION"; "CANCELADO"; "APROBADO"].
Proof. split; apply updateEstado_with_contract. Qed.

Lemma updateEstado_contract_witness :
  updateEstado None 1 (VString "APROBADO") witness_db
    = (status_json 400 (JError "Estado inválido"), witness_db) /\
  updateEstado None 7 (VString "Aprobado") witness_db
    = (status_json 404 (JError "No encontrado"), witness_db) /\
  fst (updateEstado None 1 (VString "Aprobado") witness_db) = json JOk /\
  map estado (candidatos (snd (updateEstado None 1 (VString "Aprobado") witness_db)))
    = [Some "Aprobado"; Some "Aprobado"].
Proof.
  destruct updateEstado_contract as [Hcontroller _].
  split; [|split; [|split]].
  - apply (proj1 (Hcontroller 1 (VString "APROBADO") witness_db)).
    intros s Hs. inversion Hs; subst. simpl. intuition discriminate.
  - apply (proj1 (proj2 (Hcontroller 7 (VString "Aprobado") witness_db)) "Aprobado").
    + reflexivity.
    + simpl. tauto.
    + simpl. intros c [<-|[<-|[]]]; discriminate.
  - apply (proj2 (proj2 (Hcontroller 1 (VString "Aprobado") witness_db)) "Aprobado").
    + reflexivity.
    + simpl. tauto.
    + eexists. split; [left; reflexivity|reflexivity].
  - reflexivity.
Defined.

(** *** update *)

Lemma COALESCE_or_null v old : COALESCE (or_null v) old = merged v old.
Proof.
  unfold COALESCE, or_null, merged, truthy.
  destruct v as [s|]; [|reflexivity].
  destruct (s =? "")%string; reflexivity.
Qed.

Ltac run_update :=
  unfold update, try_catch, bind, exec, ret, committed, ROLLBACK, update_candidato;
  cbn.

Lemma update_absent id_ b db :
  (forall c, In c (candidatos db) -> id c <> id_) ->
  update None id_ b db = (status_json 404 (JError "No encontrado"), db).
Proof.
  intros Hnone. run_update.
  rewrite (rowCount_zero id_ _ Hnone). cbn.
  rewrite map_unmatched.
  - destruct db; reflexivity.
  - intros c Hc. apply Z.eqb_neq. now apply Hnone.
Qed.

Lemma update_found id_ b db :
  (exists c, In c (candidatos db) /\ id c = id_) ->
  fst (update None id_ b db) = json JOk /\
  Forall2 (updated id_ b) (candidatos db) (candidatos (snd (update None id_ b db))) /\
  candidato_documentos (snd (update None id_ b db)) = candidato_documentos db.
Proof.
  intros Hsome. run_update.
  destruct (rowCount_positive id_ _ Hsome) as [n ->]. cbn.
  repeat split.
  apply Forall2_map_l. intros c. unfold updated.
  destruct (id c =? id_); cbn; rewrite ?COALESCE_or_null; repeat split.
Qed.

(** C8, as amended.  PUT /api/candidatos/{id} on an existing record
    answers [{ ok: true }]; each of apellido_paterno, apellido_materno,
    nombres, sede, turno_horario, grupo and estado takes the supplied
    value when that is a string that is not empty and keeps its stored
    value when the field is absent or empty; id, dni and fecha keep their
    values whatever the body holds; no other row and no document
    changes.  When no record has the id the answer is 404 and nothing
    changes. *)
Theorem update_merges_non_empty_fields :
  forall (id_ : Z) (b : Body) (db : Db),
    ((exists c, In c (candidatos db) /\ id c = id_) ->
       fst (update None id_ b db) = json JOk /\
       Forall2 (updated id_ b) (candidatos db)
         (candidatos (snd (update None id_ b db))) /\
       candidato_documentos (snd (update None id_ b db)) = candidato_documentos db) /\
    ((forall c, In c (candidatos db) -> id c <> id_) ->
       update None id_ b db = (status_json 404 (JError "No encontrado"), db)).
Proof.
  intros id_ b db. split.
  - apply update_found.
  - apply update_absent.
Qed.

Lemma update_merges_non_empty_fields_witness :
  fst (update None 1 witness_body witness_db) = json JOk /\
  map grupo (candidatos (snd (update None 1 witness_body witness_db)))
    = [Some "77"; Some "52"] /\
  update None 7 witness_body witness_db
    = (status_json 404 (JError "No encontrado"), witness_db).
Proof.
  split; [|split].
  - apply (proj1 (update_merges_non_empty_fields 1 witness_body witness_db)).
    eexists. split; [left; reflexivity|reflexivity].
  - reflexivity.
  - apply (proj2 (update_merges_non_empty_fields 7 witness_body witness_db)).
    simpl. intros c [<-|[<-|[]]]; discriminate.
Defined.

(** C8 as stated fails: the body supplies [sede] (the empty string) and
    [dni], the request is answered [{ ok: true }], and the record keeps
    the sede and the dni it had. *)
Lemma update_ignores_empty_and_dni :
  b_sede witness_body = Some "" /\
  b_dni witness_body = Some "99999999" /\
  fst (update None 1 witness_body witness_db) = json JOk /\
  map sede (candidatos (snd (update None 1 witness_body witness_db)))
    = [Some "Lima"; Some "Arequipa"] /\
  map dni (candidatos (snd (update None 1 witness_body witness_db)))
    = [Some "11111111"; Some "22222222"].
Proof. repeat split. Qed.
End UpdateFacts.

(** ** list *)

Module ListFacts.
Import Js Http Pg Date Sql Candidatos.
Import ListTerms.
Local Open Scope list_scope.
Local Abbreviation list := Datatypes.list.

Lemma list_filters_group q :
  existsb is_group_range (where_ (list_filters q))
    = truthy (grupoInicio q) && truthy (grupoFin q).
Proof.
  unfold list_filters.
  destruct (truthy (grupoInicio q) && truthy (grupoFin q));
    destruct (negb (default_to "TODOS" (ano q) =? "TODOS")%string);
    destruct (negb (default_to "TODOS" (mes q) =? "TODOS")%string);
    destruct (truthy (q_estado q)); reflexivity.
Qed.

Lemma inline_filters_group q :
  existsb is_group_range (where_ (Inline.get_candidatos_filters q))
    = truthy (grupoInicio q) && truthy (grupoFin q).
Proof.
  unfold Inline.get_candidatos_filters.
  destruct (truthy (grupoInicio q) && truthy (grupoFin q));
    destruct (negb (default_to "TODOS" (ano q) =? "TODOS")%string);
    destruct (negb (default_to "TODOS" (mes q) =? "TODOS")%string);
    destruct (truthy (q_estado q)); reflexivity.
Qed.

Lemma list_filters_one_bound q :
  truthy (grupoInicio q) && truthy (grupoFin q) = false ->
  list_filters q = list_filters (without_group q).
Proof.
  intros H. unfold list_filters, without_group. cbn [ano mes q_estado grupoInicio grupoFin truthy andb].
  now rewrite H.
Qed.

Lemma inline_filters_one_bound q :
  truthy (grupoInicio q) && truthy (grupoFin q) = false ->
  Inline.get_candidatos_filters q = Inline.get_candidatos_filters (without_group q).
Proof.
  intros H. unfold Inline.get_candidatos_filters, without_group.
  cbn [ano mes q_estado grupoInicio grupoFin truthy andb].
  now rewrite H.
Qed.

(** C10.  In GET /api/candidatos (the controller's [list] and the inline
    handler) the group-range predicate is part of the WHERE clause
    exactly when grupoInicio and grupoFin are both truthy; a request
    where one of them is missing or empty builds the same clause and
    parameters, and gets the same answer, as the request without any
    group parameter. *)
Theorem group_range_requires_both_bounds :
  forall q : Query,
    existsb is_group_range (where_ (list_filters q))
      = truthy (grupoInicio q) && truthy (grupoFin q) /\
    existsb is_group_range (where_ (Inline.get_candidatos_filters q))
      = truthy (grupoInicio q) && truthy (grupoFin q) /\
    (truthy (grupoInicio q) && truthy (grupoFin q) = false ->
       list_filters q = list_filters (without_group q) /\
       Inline.get_candidatos_filters q
         = Inline.get_candidatos_filters (without_group q) /\
       forall fault db,
         Candidatos.list fault q db = Candidatos.list fault (without_group q) db /\
         Inline.get_candidatos fault q db
           = Inline.get_candidatos fault (without_group q) db).
Proof.
  intros q. split; [apply list_filters_group|].
  split; [apply inline_filters_group|].
  intros H. split; [now apply list_filters_one_bound|].
  split; [now apply inline_filters_one_bound|].
  intros fault db. unfold Candidatos.list, Inline.get_candidatos.
  now rewrite (list_filters_one_bound q H), (inline_filters_one_bound q H).
Qed.

Lemma group_range_requires_both_bounds_witness :
  let q := mkQuery (Some "2024") None None (Some "50") None in
  whereSQL (where_ (list_filters q)) = "WHERE EXTRACT(YEAR  FROM v.fecha) = $1" /\
  list_filters q = list_filters (without_group q) /\
  map (fun r => id (row r))
      match Http.body (fst (Candidatos.list None q sample_db)) with
      | JRows rows => rows
      | _ => []
      end = [2; 1] /\
  Candidatos.list None q sample_db = Candidatos.list None (without_group q) sample_db.
Proof.
  intros q.
  pose proof (proj2 (proj2 (group_range_requires_both_bounds q)) eq_refl)
    as (Hfilters & _ & Hanswers).
  split; [reflexivity|]. split; [exact Hfilters|]. split; [reflexivity|].
  exact (proj1 (Hanswers None sample_db)).
Defined.

(** *** The sentinel in the controller *)

(** In the controller's [list], "TODOS" for ano or mes, and an empty
    estado, build the clause and the parameters that the absent parameter
    builds, and get the same answer. *)
Theorem list_sentinel_is_inactive :
  forall (a m e gi gf : field),
    list_filters (mkQuery (Some "TODOS") m e gi gf)
      = list_filters (mkQuery None m e gi gf) /\
    list_filters (mkQuery a (Some "TODOS") e gi gf)
      = list_filters (mkQuery a None e gi gf) /\
    list_filters (mkQuery a m (Some "") gi gf)
      = list_filters (mkQuery a m None gi gf) /\
    forall fault db,
      Candidatos.list fault (mkQuery (Some "TODOS") m e gi gf) db
        = Candidatos.list fault (mkQuery None m e gi gf) db /\
      Candidatos.list fault (mkQuery a (Some "TODOS") e gi gf) db
        = Candidatos.list fault (mkQuery a None e gi gf) db /\
      Candidatos.list fault (mkQuery a m (Some "") gi gf) db
        = Candidatos.list fault (mkQuery a m None gi gf) db.
Proof. intros a m e gi gf. repeat split. Qed.

(** *** Rows the WHERE clause keeps *)

Section Scan.
Context {Row : Type} `{Columns Row}.

Lemma holds_all_true (bs : list Bound) (r : Row) :
  holds_all bs r = inr true -> forall b, In b bs -> holds b r = inr true.
Proof.
  induction bs as [|b0 bs IH]; intros Hall b Hin; [contradiction|].
  simpl in Hall. destruct (holds b0 r) as [e|[|]] eqn:Hb0; try discriminate.
  destruct Hin as [<-|Hin]; [exact Hb0|]. now apply IH.
Qed.

Lemma scan_In (bs : list Bound) (rows kept : list Row) (r : Row) :
  scan bs rows = inr kept -> In r kept ->
  In r rows /\ holds_all bs r = inr true.
Proof.
  revert kept. induction rows as [|r0 rows IH]; intros kept Hscan Hin.
  - inversion Hscan; subst. contradiction.
  - simpl in Hscan.
    destruct (holds_all bs r0) as [e|keep] eqn:Hr0; [discriminate|].
    destruct (scan bs rows) as [e|kept'] eqn:Hrest; [discriminate|].
    simpl in Hscan. inversion Hscan; subst.
    destruct keep.
    + destruct Hin as [<-|Hin].
      * split; [now left|exact Hr0].
      * destruct (IH kept' eq_refl Hin). split; [now right|assumption].
    + destruct (IH kept' eq_refl Hin). split; [now right|assumption].
Qed.

(** A row whose grupo is NULL or not a run of digits fails the guarded
    range predicate, whatever the bounds, and raises nothing. *)
Lemma holds_guarded_not_digits (lo hi : Z) (r : Row) :
  (forall g, col_grupo r = Some g -> matches_digits g = false) ->
  holds (BDigitsBetween lo hi) r = inr false.
Proof.
  intros Hg. simpl. destruct (col_grupo r) as [g|]; [|reflexivity].
  now rewrite (Hg g eq_refl).
Qed.
End Scan.

Lemma bind_all_In params cs bs c :
  bind_all params cs = inr bs -> In c cs ->
  exists b, In b bs /\ bind_cond params c = inr b.
Proof.
  revert bs. induction cs as [|c0 cs IH]; intros bs Hbind Hin; [contradiction|].
  simpl in Hbind.
  destruct (bind_cond params c0) as [e|b0] eqn:Hc0; [discriminate|].
  destruct (bind_all params cs) as [e|bs'] eqn:Hrest; [discriminate|].
  simpl in Hbind. inversion Hbind; subst.
  destruct Hin as [<-|Hin].
  - exists b0. split; [now left|exact Hc0].
  - destruct (IH bs' eq_refl Hin) as (b & Hb & Hbc).
    exists b. split; [now right|exact Hbc].
Qed.

Lemma bind_guarded params i j b :
  bind_cond params (GrupoDigitsBetween i j) = inr b ->
  exists lo hi, b = BDigitsBetween lo hi.
Proof.
  simpl. unfold and_then.
  destruct (placeholder params i) as [e|p]; [discriminate|].
  destruct (as_integer p) as [e|lo]; [discriminate|].
  destruct (placeholder params j) as [e|p']; [discriminate|].
  destruct (as_integer p') as [e|hi]; [discriminate|].
  intros Hb. inversion Hb. eauto.
Qed.

Lemma list_filters_guard q :
  truthy (grupoInicio q) = true -> truthy (grupoFin q) = true ->
  exists p i j, In p (where_ (list_filters q)) /\ cond p = GrupoDigitsBetween i j.
Proof.
  intros Hi Hf. unfold list_filters. rewrite Hi, Hf. cbn [andb].
  destruct (negb (default_to "TODOS" (ano q) =? "TODOS")%string);
    destruct (negb (default_to "TODOS" (mes q) =? "TODOS")%string);
    destruct (truthy (q_estado q));
    cbn; eexists; eexists; eexists;
    first [ split; [left; reflexivity|reflexivity]
          | split; [right; left; reflexivity|reflexivity]
          | split; [right; right; left; reflexivity|reflexivity]
          | split; [right; right; right; left; reflexivity|reflexivity] ].
Qed.

Lemma list_rows fault q db rows :
  fst (Candidatos.list fault q db) = json (JRows rows) ->
  exists kept,
    select_where (where_ (list_filters q)) (params (list_filters q))
      (vw_api_candidatos db) = inr kept /\
    rows = map (with_doc_count db) (order_by fecha_desc_id_desc kept).
Proof.
  unfold Candidatos.list, try_catch, bind, query, ret, list_sql, and_then. cbn.
  destruct fault as [e|]; [discriminate|].
  destruct (select_where _ _ _) as [e|kept]; [discriminate|].
  cbn. intros Hrows. inversion Hrows. eauto.
Qed.

(** In the controller's [list] with both bounds present, every row of
    the answer has a grupo that is a run of digits: a row whose grupo is
    NULL or anything else is left out, and the guarded predicate raises
    nothing on it whatever the bounds. *)
Theorem list_excludes_not_digits :
  forall fault q db rows,
    truthy (grupoInicio q) = true -> truthy (grupoFin q) = true ->
    fst (Candidatos.list fault q db) = json (JRows rows) ->
    (forall r, In r rows ->
       exists g, grupo (row r) = Some g /\ matches_digits g = true) /\
    (forall lo hi c,
       (forall g, grupo c = Some g -> matches_digits g = false) ->
       holds (BDigitsBetween lo hi) c = inr false).
Proof.
  intros fault q db rows Hi Hf Hrows.
  split; [|intros lo hi c Hg; apply holds_guarded_not_digits; exact Hg].
  intros r Hin.
  destruct (list_rows _ _ _ _ Hrows) as (kept & Hsel & ->).
  apply in_map_iff in Hin. destruct Hin as (c & <- & Hc). cbn [row with_doc_count].
  apply (Permutation_in _ (SqlFacts.order_by_perm _ kept)) in Hc.
  unfold select_where, and_then in Hsel.
  destruct (bind_all _ _) as [e|bs] eqn:Hbind; [discriminate|].
  destruct (scan_In _ _ _ _ Hsel Hc) as [_ Hall].
  destruct (list_filters_guard q Hi Hf) as (p & i & j & Hp & Hcond).
  destruct (bind_all_In _ _ _ (cond p) Hbind (in_map cond _ _ Hp))
    as (b & Hb & Hbc).
  rewrite Hcond in Hbc. destruct (bind_guarded _ _ _ _ Hbc) as (lo & hi & ->).
  pose proof (holds_all_true _ _ Hall _ Hb) as Hholds.
  simpl in Hholds. change (col_grupo c) with (grupo c) in Hholds.
  destruct (grupo c) as [g|]; [|discriminate].
  exists g. split; [reflexivity|].
  destruct (matches_digits g); [reflexivity|discriminate].
Qed.

(** *** ORDER BY fecha DESC, id DESC *)

Lemma fecha_desc_id_desc_spec x y :
  fecha_desc_id_desc x y = true <-> date_desc_id_desc x y.
Proof.
  unfold fecha_desc_id_desc, date_desc_id_desc.
  rewrite orb_true_iff, andb_true_iff, Z.ltb_lt, Z.eqb_eq, Z.leb_le. tauto.
Qed.

Lemma fecha_desc_id_desc_total x y :
  fecha_desc_id_desc x y = true \/ fecha_desc_id_desc y x = true.
Proof. rewrite !fecha_desc_id_desc_spec. unfold date_desc_id_desc. lia. Qed.

Lemma Sorted_map {A B} (R : B -> B -> Prop) (f : A -> B) (l : list A) :
  Sorted (fun x y => R (f x) (f y)) l -> Sorted R (map f l).
Proof.
  induction 1 as [|x l Hs IH Hhd]; simpl; constructor; [exact IH|].
  destruct Hhd; simpl; constructor. assumption.
Qed.

Lemma Sorted_weaken {A} (R S : A -> A -> Prop) (l : list A) :
  (forall x y, R x y -> S x y) -> Sorted R l -> Sorted S l.
Proof.
  intros HRS. induction 1 as [|x l Hs IH Hhd]; constructor; [exact IH|].
  destruct Hhd; constructor. auto.
Qed.

Lemma order_by_date_desc_id_desc (l : list Candidato) :
  Sorted date_desc_id_desc (order_by fecha_desc_id_desc l).
Proof.
  eapply Sorted_weaken; [|apply SqlFacts.order_by_sorted].
  - intros x y. apply fecha_desc_id_desc_spec.
  - apply fecha_desc_id_desc_total.
Qed.

Lemma inline_rows fault q db rows :
  fst (Inline.get_candidatos fault q db) = json (JRows rows) ->
  exists kept, rows = order_by fecha_desc_id_desc kept.
Proof.
  unfold Inline.get_candidatos, try_catch, bind, query, ret,
    Inline.get_candidatos_sql, and_then. cbn.
  destruct fault as [e|]; [discriminate|].
  destruct (select_where _ _ _) as [e|kept]; [discriminate|].
  cbn. intros Hrows. inversion Hrows. eauto.
Qed.

(** Whatever the filters, the rows that the controller's [list] and the
    inline GET /api/candidatos answer with are ordered by date
    descending, id descending among equal dates. *)
Theorem candidatos_lists_are_sorted :
  forall fault q db,
    (forall rows,
       fst (Candidatos.list fault q db) = json (JRows rows) ->
       Sorted date_desc_id_desc (map row rows)) /\
    (forall rows,
       fst (Inline.get_candidatos fault q db) = json (JRows rows) ->
       Sorted date_desc_id_desc rows).
Proof.
  intros fault q db. split; intros rows Hrows.
  - destruct (list_rows _ _ _ _ Hrows) as (kept & _ & ->).
    rewrite map_map. cbn [with_doc_count row]. rewrite map_id.
    apply order_by_date_desc_id_desc.
  - destruct (inline_rows _ _ _ _ Hrows) as (kept & ->).
    apply order_by_date_desc_id_desc.
Qed.

Lemma list_excludes_not_digits_witness :
  map (fun r => grupo (row r)) (rows_of (fst (Candidatos.list None in_range_50_60 sample_db)))
    = [Some "51"; Some "53"] /\
  forall r, In r (rows_of (fst (Candidatos.list None in_range_50_60 sample_db))) ->
    exists g, grupo (row r) = Some g /\ matches_digits g = true.
Proof.
  split; [reflexivity|].
  apply (list_excludes_not_digits None in_range_50_60 sample_db
           (rows_of (fst (Candidatos.list None in_range_50_60 sample_db))));
    reflexivity.
Defined.

Lemma candidatos_lists_are_sorted_witness :
  map (fun r => id (row r)) (rows_of (fst (Candidatos.list None in_range_50_60 sample_db)))
    = [1; 3] /\
  Sorted date_desc_id_desc
    (map row (rows_of (fst (Candidatos.list None in_range_50_60 sample_db)))).
Proof.
  split; [reflexivity|].
  apply (proj1 (candidatos_lists_are_sorted None in_range_50_60 sample_db)).
  reflexivity.
Defined.
End ListFacts.

(** ** The middleware and the sentinel *)

Module MiddlewareFacts.
Import Js Http Pg Date Sql.
Import MiddlewareTerms.
Local Open Scope list_scope.

(** C3 fails in the server of [src/server.js] (second document).  The
    middleware puts every query value in lower case before the handler
    compares it with "TODOS": for [?ano=TODOS] the handler builds a year
    predicate bound to [Number("todos")], that is NaN, and answers with no
    row, where the request without [ano] builds no clause and answers
    with every row.  [normalize] is any normalisation that leaves the
    ASCII text "TODOS" as it is. *)
Theorem ano_todos_is_filtered_after_middleware :
  forall normalize : string -> string -> string,
    normalize "NFD" "TODOS" = "TODOS" ->
    let sent := Inline.get_candidatos_filters (Server.normalize_query normalize ano_todos) in
    let omitted :=
      Inline.get_candidatos_filters (Server.normalize_query normalize no_parameters) in
    whereSQL (Candidatos.where_ sent) = "WHERE EXTRACT(YEAR  FROM fecha) = $1" /\
    Candidatos.params sent = [PNum NaN] /\
    whereSQL (Candidatos.where_ omitted) = "" /\
    Candidatos.params omitted = [] /\
    fst (Server.get_candidatos normalize None ano_todos sample_db) = json (JRows []) /\
    fst (Server.get_candidatos normalize None no_parameters sample_db)
      = json (JRows (rev (Candidatos.candidatos sample_db))).
Proof.
  intros normalize Hascii.
  assert (Hq : Server.normalize_query normalize ano_todos
               = Candidatos.mkQuery (Some "todos") None None None None).
  { unfold Server.normalize_query, Server.normalizeQueryValue, Server.stripDiacritics,
      ano_todos. cbn [Candidatos.ano Candidatos.mes Candidatos.q_estado
                      Candidatos.grupoInicio Candidatos.grupoFin option_map].
    change (trim "TODOS") with "TODOS". rewrite Hascii. reflexivity. }
  unfold Server.get_candidatos. cbv zeta. rewrite Hq.
  repeat split.
Qed.

Lemma ano_todos_is_filtered_after_middleware_witness :
  let sent :=
    Inline.get_candidatos_filters
      (Server.normalize_query Server.normalize_latin1 ano_todos) in
  let omitted :=
    Inline.get_candidatos_filters
      (Server.normalize_query Server.normalize_latin1 no_parameters) in
  whereSQL (Candidatos.where_ sent) = "WHERE EXTRACT(YEAR  FROM fecha) = $1" /\
  Candidatos.params sent = [PNum NaN] /\
  whereSQL (Candidatos.where_ omitted) = "" /\
  Candidatos.params omitted = [] /\
  fst (Server.get_candidatos Server.normalize_latin1 None ano_todos sample_db)
    = json (JRows []) /\
  fst (Server.get_candidatos Server.normalize_latin1 None no_parameters sample_db)
    = json (JRows (rev (Candidatos.candidatos sample_db))).
Proof.
  apply (ano_todos_is_filtered_after_middleware Server.normalize_latin1).
  reflexivity.
Defined.
End MiddlewareFacts.

(** ** The empleados SQL server *)

Module EmpleadosFacts.
Import Js Http Pg Date Sql Empleados.
Import EmpleadosTerms.
Local Open Scope list_scope.

(** C4 fails in GET /api/empleados of the empleados SQL server: its range
    predicate casts [grupo] without the digit test that the candidatos
    handlers put before the cast.  With a row whose grupo is "A1" the
    request [?grupoInicio=1&grupoFin=99] makes the statement raise, and
    the handler answers 500 instead of leaving the row out; without the
    range parameters the same row is listed. *)
Theorem empleados_range_cast_raises :
  whereSQL (Candidatos.where_ (get_empleados_filters range_1_99))
    = "WHERE CAST(grupo AS INT) BETWEEN $1 AND $2" /\
  Candidatos.params (get_empleados_filters range_1_99) = [PNum (Int 1); PNum (Int 99)] /\
  fst (get_empleados no_faults range_1_99 sample_db)
    = status_json 500 (JError "Error consultando empleados") /\
  match Http.body (fst (get_empleados no_faults no_parameters sample_db)) with
  | JRows rows => map r_grupo rows = [Some "A1"; Some "51"]
  | _ => False
  end.
Proof. repeat split. Qed.
End EmpleadosFacts.

(** ** The in-memory demo server *)

Module DemoFacts.
Import Js Http Demo.
Local Open Scope list_scope.

(** C6 fails in GET /api/empleados of the in-memory server: the handler
    filters a copy of [empleados] and sends it as it is, in insertion
    order.  On the data the server starts with, the request without
    parameters answers with the dates ascending. *)
Theorem demo_list_is_in_insertion_order :
  get_empleados empleados (mkQuery None None None None None)
    = json (JRows empleados) /\
  map fecha empleados = ["2024-08-01"; "2024-08-05"; "2024-09-12"] /\
  map id empleados = [1; 2; 3] /\
  sorted_by may_precede empleados = false.
Proof. repeat split. Qed.
End DemoFacts.

(** ** The code generator *)

Module CodeFacts.
Import Js Http Pg Date Sql Server.
Import CodeTerms.
Local Open Scope list_scope.

(** *** Text *)




(** *** The codes the loop tries *)





(** *** The loop *)






(** *** What slugify returns *)



Section Preserved.
(** A property of text that its parts inherit. *)
Variable p : ascii -> bool.



End Preserved.











(** *** POST /api/sites *)





End CodeFacts.

(** ** The demo server's store *)

Module DemoStoreFacts.
Import Js Http Demo DemoStore.
Import DemoStoreTerms.
Local Open Scope list_scope.

Lemma last_cons (a b : Z) l : last (b :: l) a = last l b.
Proof.
  revert a b. induction l as [|c l IH]; intros a b; [reflexivity|].
  change (last (b :: c :: l) a) with (last (c :: l) a).
  now rewrite (IH a c), (IH b c).
Qed.

Lemma sorted_last a l :
  StronglySorted Z.lt (a :: l) -> Forall (fun y => y <= last l a) (a :: l).
Proof.
  revert a. induction l as [|b l IH]; intros a Hs.
  - simpl. constructor; [lia|constructor].
  - inversion Hs as [|? ? Hs' Hall]; subst.
    specialize (IH b Hs').
    pose proof (last_cons a b l) as Hlast.
    rewrite Hlast. constructor.
    + inversion Hall as [|? ? Hab _]; subst.
      inversion IH as [|? ? Hb _]; subst. lia.
    + exact IH.
Qed.

Lemma sorted_snoc a l x :
  StronglySorted Z.lt (a :: l) -> last l a < x ->
  StronglySorted Z.lt (a :: l ++ [x]).
Proof.
  intros Hs Hx. pose proof (sorted_last a l Hs) as Hle.
  revert a Hs Hx Hle. induction l as [|b l IH]; intros a Hs Hx Hle.
  - simpl in *. repeat constructor. exact Hx.
  - inversion Hs as [|? ? Hs' Hall]; subst.
    pose proof (last_cons a b l) as Hlast.
    rewrite Hlast in *.
    inversion Hle as [|? ? Ha Hle']; subst.
    simpl. constructor.
    + apply IH; assumption.
    + inversion Hall as [|? ? Hab Hall']; subst.
      constructor; [exact Hab|].
      apply Forall_app. split; [exact Hall'|].
      repeat constructor. lia.
Qed.

Lemma assign_at_first_ids id_ b l l' :
  assign_at_first id_ b l = Some l' -> map id l' = map id l.
Proof.
  revert l'. induction l as [|e l IH]; intros l' H; [discriminate|].
  cbn [assign_at_first] in H. destruct (number_eq (Int (id e)) id_).
  - inversion H; subst. reflexivity.
  - destruct (assign_at_first id_ b l) as [l0|]; [|discriminate].
    inversion H; subst. cbn [map]. now rewrite (IH l0).
Qed.

Lemma step_ids_increase l r : ids_increase l -> ids_increase (step l r).
Proof.
  unfold ids_increase. intros Hs. destruct r as [today b|id_ b]; simpl.
  - unfold post_empleados.
    destruct (or_null (b_nombre b)); [|exact Hs].
    destruct (or_null (b_sede b)); [|exact Hs].
    destruct (or_null (b_grupo b)); [|exact Hs].
    simpl. rewrite map_app. simpl. apply sorted_snoc; [exact Hs|].
    unfold next_id. lia.
  - unfold put_empleados.
    destruct (assign_at_first id_ b l) as [l'|] eqn:H; simpl; [|exact Hs].
    now rewrite (assign_at_first_ids _ _ _ _ H).
Qed.

Lemma run_ids_increase requests : ids_increase (run requests).
Proof.
  unfold run.
  assert (H0 : ids_increase empleados).
  { unfold ids_increase, empleados. simpl.
    repeat (constructor; [|repeat constructor; lia]). constructor. }
  revert H0. generalize empleados.
  induction requests as [|r rest IH]; intros l Hl; simpl; [exact Hl|].
  apply IH. now apply step_ids_increase.
Qed.

Lemma ids_increase_NoDup l : ids_increase l -> NoDup (map id l).
Proof.
  unfold ids_increase. intros Hs. inversion Hs as [|? ? Hs' _]; subst.
  clear Hs. induction Hs' as [|x xs Hs' IH Hall]; constructor; [|exact IH].
  intros Hin. rewrite Forall_forall in Hall. specialize (Hall x Hin). lia.
Qed.

Lemma find_by_id_own l e :
  NoDup (map id l) -> In e l -> find_by_id (Int (id e)) l = Some e.
Proof.
  unfold find_by_id. induction l as [|x l IH]; intros Hnd Hin; [contradiction|].
  simpl in *. inversion Hnd as [|? ? Hnotin Hnd']; subst.
  destruct Hin as [->|Hin].
  - now rewrite Z.eqb_refl.
  - destruct (Z.eqb_spec (id x) (id e)) as [Heq|_].
    + exfalso. apply Hnotin. rewrite Heq. now apply in_map.
    + now apply IH.
Qed.

(** X4.  In every state the demo server reaches from its initial data
    by POST and PUT requests the ids are positive and strictly
    increasing along the list, so no two employees share an id, and
    GET /api/empleados/:id with the id of a stored employee answers with
    that employee. *)
Theorem demo_ids_stay_unique :
  forall requests : list Request,
    ids_increase (run requests) /\
    NoDup (map id (run requests)) /\
    forall e, In e (run requests) ->
      get_empleado (Int (id e)) (run requests) = json (JRow (Some e)).
Proof.
  intros requests. pose proof (run_ids_increase requests) as Hinc.
  pose proof (ids_increase_NoDup _ Hinc) as Hnd.
  repeat split; [exact Hinc|exact Hnd|].
  intros e He. unfold get_empleado. now rewrite (find_by_id_own _ _ Hnd He).
Qed.

Lemma find_app_new (p : Empleado -> bool) l x :
  (forall y, In y l -> p y = false) -> find p (l ++ [x]) = if p x then Some x else None.
Proof.
  induction l as [|y l IH]; intros H; simpl; [reflexivity|].
  rewrite (H y (or_introl eq_refl)). apply IH. intros z Hz. apply H. now right.
Qed.

Lemma find_app_old (p : Empleado -> bool) l x :
  p x = false -> find p (l ++ [x]) = find p l.
Proof.
  intros Hx. induction l as [|y l IH]; simpl; [now rewrite Hx|].
  destruct (p y); [reflexivity|exact IH].
Qed.

Lemma or_null_text s : s <> "" -> or_null (Some s) = Some s.
Proof.
  intros Hs. unfold or_null, truthy.
  destruct (String.eqb_spec s ""); [contradiction|reflexivity].
Qed.

(** X5.  POST /api/empleados of the demo server: a request that lacks
    nombre, sede or grupo (absent or empty) is answered 400 and stores
    nothing; any other request appends one employee whose id is one
    above the last id, with the fields as sent, the day of the request
    and no document, and answers with that id.  When the ids grow along
    the list, GET /api/empleados/:id with the new id then answers with
    the new employee, and every other id is answered as before. *)
Theorem demo_post_then_get :
  forall (today : string) (b : Body) (l : list Empleado),
    ids_increase l ->
    (truthy (b_nombre b) && truthy (b_sede b) && truthy (b_grupo b) = false ->
     post_empleados today b l = (status_json 400 (JError "Faltan campos"), l)) /\
    (forall nombre sede grupo,
       b = mkBody (Some nombre) (Some sede) (Some grupo) ->
       nombre <> "" -> sede <> "" -> grupo <> "" ->
       let nuevo :=
         mkEmpleado (next_id l) nombre sede grupo today None None None None None in
       post_empleados today b l = (json (JOkId (next_id l)), l ++ [nuevo]) /\
       get_empleado (Int (next_id l)) (l ++ [nuevo]) = json (JRow (Some nuevo)) /\
       forall j, j <> Int (next_id l) ->
         get_empleado j (l ++ [nuevo]) = get_empleado j l).
Proof.
  intros today b l Hinc. split.
  - intros Hmiss. unfold post_empleados, or_null.
    destruct (truthy (b_nombre b)); [|reflexivity].
    destruct (truthy (b_sede b)); [|destruct (b_nombre b); reflexivity].
    destruct (truthy (b_grupo b)); [discriminate|].
    destruct (b_nombre b), (b_sede b); reflexivity.
  - intros nombre sede grupo -> Hn Hs Hg nuevo.
    unfold post_empleados. cbn [b_nombre b_sede b_grupo].
    rewrite !or_null_text by assumption.
    split; [reflexivity|]. unfold get_empleado, find_by_id. split.
    + rewrite find_app_new.
      * subst nuevo. cbn [id number_eq]. now rewrite Z.eqb_refl.
      * intros y Hy. cbn [number_eq]. apply Z.eqb_neq.
        pose proof (sorted_last 0 (map id l) Hinc) as Hle.
        inversion Hle as [|? ? _ Hle']; subst.
        rewrite Forall_forall in Hle'.
        specialize (Hle' (id y) (in_map id l y Hy)). unfold next_id. lia.
    + intros j Hj. rewrite find_app_old; [reflexivity|].
      subst nuevo. cbn [id]. destruct j as [|z]; [reflexivity|].
      cbn [number_eq]. apply Z.eqb_neq. congruence.
Qed.

Lemma demo_post_then_get_witness :
  ids_increase empleados /\
  post_empleados "2024-10-01" sample_body empleados
    = (json (JOkId 4),
       empleados ++ [mkEmpleado 4 "ANA SOTO" "Lima / Tarde" "53" "2024-10-01"
                       None None None None None]) /\
  get_empleado (Int 4) (snd (post_empleados "2024-10-01" sample_body empleados))
    = json (JRow (Some (mkEmpleado 4 "ANA SOTO" "Lima / Tarde" "53" "2024-10-01"
                          None None None None None))).
Proof.
  assert (H0 : ids_increase empleados) by apply (run_ids_increase []).
  destruct (demo_post_then_get "2024-10-01" sample_body empleados H0) as [_ H].
  destruct (H "ANA SOTO" "Lima / Tarde" "53" eq_refl) as (Hpost & Hget & _);
    try discriminate.
  split; [exact H0|]. split; [exact Hpost|].
  rewrite Hpost. exact Hget.
Defined.

Lemma kept_or_spec v old :
  match or_null v with Some s => s | None => old end = kept_or v old.
Proof.
  unfold or_null, truthy, kept_or. destruct v as [s|]; [|reflexivity].
  destruct (s =? "")%string; reflexivity.
Qed.

Lemma assign_reassigned b e : reassigned b e (assign b e).
Proof.
  unfold reassigned, assign. cbn [id fecha nombre sede grupo dni certificados
    antecedentes medicos capacitacion].
  rewrite !kept_or_spec. repeat split; reflexivity.
Qed.

Lemma assign_at_first_none id_ b l :
  find_by_id id_ l = None -> assign_at_first id_ b l = None.
Proof.
  unfold find_by_id. induction l as [|e l IH]; intros H; [reflexivity|].
  cbn [find assign_at_first] in *.
  destruct (number_eq (Int (id e)) id_); [discriminate|].
  now rewrite (IH H).
Qed.

Lemma assign_at_first_some id_ b l e :
  find_by_id id_ l = Some e ->
  exists l', assign_at_first id_ b l = Some l' /\
    find_by_id id_ l' = Some (assign b e) /\
    forall j, j <> id_ -> find_by_id j l' = find_by_id j l.
Proof.
  unfold find_by_id. induction l as [|x l IH]; intros H; [discriminate|].
  cbn [find assign_at_first] in *.
  destruct (number_eq (Int (id x)) id_) eqn:Hx.
  - inversion H; subst x. eexists. split; [reflexivity|]. split.
    + cbn [find]. change (id (assign b e)) with (id e). now rewrite Hx.
    + intros j Hj. cbn [find]. change (id (assign b e)) with (id e).
      destruct (number_eq (Int (id e)) j) eqn:Hej; [|reflexivity].
      exfalso. apply Hj. destruct j as [|a], id_ as [|c]; try discriminate.
      cbn [number_eq] in *. apply Z.eqb_eq in Hx, Hej. congruence.
  - destruct (IH H) as (l' & Hl' & Hfound & Hothers).
    exists (x :: l'). rewrite Hl'. split; [reflexivity|]. split.
    + cbn [find]. now rewrite Hx.
    + intros j Hj. cbn [find]. destruct (number_eq (Int (id x)) j); [reflexivity|].
      now apply Hothers.
Qed.

(** X6.  PUT /api/empleados/:id of the demo server: when no employee has
    the id (and when the id is not a number) the answer is 404 and the
    data is as it was; otherwise the answer is {ok}, the first employee
    with that id takes each of nombre, sede and grupo that is sent and
    not empty and keeps the others, its id, date and documents, and
    every other id is answered by GET /api/empleados/:id as before. *)
Theorem demo_put_assigns_sent_fields :
  forall (id_ : number) (b : Body) (l : list Empleado),
    (get_empleado id_ l = status_json 404 (JError "No encontrado") ->
     put_empleados id_ b l = (status_json 404 (JError "No encontrado"), l)) /\
    (forall e, get_empleado id_ l = json (JRow (Some e)) ->
       exists e',
         fst (put_empleados id_ b l) = json JOk /\
         get_empleado id_ (snd (put_empleados id_ b l)) = json (JRow (Some e')) /\
         reassigned b e e' /\
         map id (snd (put_empleados id_ b l)) = map id l /\
         forall j, j <> id_ ->
           get_empleado j (snd (put_empleados id_ b l)) = get_empleado j l).
Proof.
  intros id_ b l. unfold get_empleado, put_empleados. split.
  - destruct (find_by_id id_ l) eqn:Hf; [discriminate|]. intros _.
    now rewrite (assign_at_first_none _ b _ Hf).
  - intros e He. destruct (find_by_id id_ l) as [e0|] eqn:Hf; [|discriminate].
    inversion He; subst e0.
    destruct (assign_at_first_some _ b _ _ Hf) as (l' & Hl' & Hfound & Hothers).
    rewrite Hl'. cbn [fst snd]. exists (assign b e). rewrite Hfound.
    repeat split; try apply assign_reassigned.
    + exact (assign_at_first_ids _ _ _ _ Hl').
    + intros j Hj. now rewrite (Hothers j Hj).
Qed.

Lemma demo_put_assigns_sent_fields_witness :
  put_empleados NaN (mkBody (Some "X") None None) empleados
    = (status_json 404 (JError "No encontrado"), empleados) /\
  exists e',
    get_empleado (Int 2)
      (snd (put_empleados (Int 2) (mkBody (Some "") None (Some "60")) empleados))
      = json (JRow (Some e')) /\
    nombre e' = "MARIA GARCIA FLORES" /\ grupo e' = "60".
Proof.
  split.
  - apply (proj1 (demo_put_assigns_sent_fields NaN (mkBody (Some "X") None None)
                    empleados)). reflexivity.
  - destruct (proj2 (demo_put_assigns_sent_fields (Int 2)
                       (mkBody (Some "") None (Some "60")) empleados)
                (mkEmpleado 2 "MARIA GARCIA FLORES" "Arequipa / Tarde" "51" "2024-08-05"
                   (Some "https://example.com/uploads/2/dni.pdf")
                   (Some "https://example.com/uploads/2/certificados.pdf")
                   None None None) eq_refl)
      as (e' & _ & Hget & Hre & _).
    exists e'. split; [exact Hget|].
    destruct Hre as (_ & _ & Hn & _ & Hg & _). split; [exact Hn|exact Hg].
Defined.
End DemoStoreFacts.

(** ** The detail of a candidate *)

Module DetailFacts.
Import Js Http Pg Date Sql Candidatos CandidatoDetail.
Import DetailTerms.
Local Open Scope list_scope.
Local Abbreviation list := Datatypes.list.

Lemma desc_total {A} (key : A -> Z) x y : desc key x y = true \/ desc key y x = true.
Proof. unfold desc. destruct (Z.leb_spec (key y) (key x)); [now left|right]. apply Z.leb_le. lia. Qed.

Lemma docs_by_candidato_perm created_at id_ db :
  Permutation (docs_by_candidato created_at id_ db) (docs_of created_at id_ db).
Proof.
  unfold docs_by_candidato, docs_of. apply Permutation_map, SqlFacts.order_by_perm.
Qed.

Lemma docs_by_candidato_sorted created_at id_ db :
  Sorted (fun a b => d_created_at b <= d_created_at a)
    (docs_by_candidato created_at id_ db).
Proof.
  unfold docs_by_candidato.
  pose proof (SqlFacts.order_by_sorted (desc created_at) (desc_total created_at)
                (filter (fun d => candidato_id d =? id_) (candidato_documentos db)))
    as Hs.
  induction Hs as [|x l Hs IH Hhd]; simpl; constructor; [exact IH|].
  destruct Hhd as [|y l Hxy]; simpl; constructor.
  simpl. unfold desc in Hxy. now apply Z.leb_le.
Qed.

Ltac run_getById :=
  unfold getById, try_catch, bind, query, ret, committed, ROLLBACK;
  cbn [live txn].

(** X7.  GET /api/candidatos/:id of the controller never changes the
    database.  When no candidate has the id it answers 404; when one
    has, it answers 200 with that candidate and with every document row
    of the candidate and no other, the most recent first; when a
    statement fails it answers 500. *)
Theorem getById_answers :
  forall (created_at : Documento -> Z) (id_ : Z) (db : Db),
    ((forall c, In c (candidatos db) -> id c <> id_) ->
     forall f, f 0%nat = None ->
       getById created_at f id_ db
         = (status_json 404 (JError "No encontrado"), db)) /\
    ((exists c, In c (candidatos db) /\ id c = id_) ->
     exists c docs,
       getById created_at no_faults id_ db
         = (json (JRow (Some (mkDetail c docs))), db) /\
       In c (candidatos db) /\ id c = id_ /\
       Permutation docs (docs_of created_at id_ db) /\
       Sorted (fun a b => d_created_at b <= d_created_at a) docs) /\
    (forall f e,
       f 0%nat = Some e \/
       (f 0%nat = None /\ (exists c, In c (candidatos db) /\ id c = id_) /\
        f 1%nat = Some e) ->
       getById created_at f id_ db
         = (status_json 500 (JError "Error consultando candidato"), db)).
Proof.
  intros created_at id_ db.
  assert (Hnone : (forall c, In c (candidatos db) -> id c <> id_) ->
                  cab_by_id id_ db = []).
  { intros H. unfold cab_by_id, vw_api_candidatos. apply SqlFacts.filter_none.
    intros c Hc. apply Z.eqb_neq. now apply H. }
  assert (Hsome : (exists c, In c (candidatos db) /\ id c = id_) ->
                  exists c rest, cab_by_id id_ db = c :: rest /\
                                 In c (candidatos db) /\ id c = id_).
  { intros (c & Hc & Hid).
    assert (Hin : In c (cab_by_id id_ db)).
    { unfold cab_by_id, vw_api_candidatos. apply filter_In. split; [exact Hc|].
      now apply Z.eqb_eq. }
    destruct (cab_by_id id_ db) as [|c0 rest] eqn:Hcab; [contradiction|].
    exists c0, rest. split; [reflexivity|].
    assert (Hin0 : In c0 (cab_by_id id_ db)) by (rewrite Hcab; now left).
    unfold cab_by_id, vw_api_candidatos in Hin0. apply filter_In in Hin0.
    destruct Hin0 as [H1 H2]. split; [exact H1|]. now apply Z.eqb_eq. }
  split; [|split].
  - intros Habs f Hf. run_getById. rewrite Hf, (Hnone Habs). reflexivity.
  - intros Hex. destruct (Hsome Hex) as (c & rest & Hcab & Hc & Hid).
    exists c, (docs_by_candidato created_at id_ db).
    split; [|split; [exact Hc|split; [exact Hid|split]]].
    + run_getById. unfold no_faults. rewrite Hcab. reflexivity.
    + apply docs_by_candidato_perm.
    + apply docs_by_candidato_sorted.
  - intros f e [Hf|(Hf0 & Hex & Hf1)]; run_getById.
    + rewrite Hf. reflexivity.
    + destruct (Hsome Hex) as (c & rest & Hcab & _).
      rewrite Hf0, Hcab. cbn [live txn]. rewrite Hf1. reflexivity.
Qed.

Lemma getById_answers_witness :
  getById at_once no_faults 7 ListTerms.sample_db
    = (status_json 404 (JError "No encontrado"), ListTerms.sample_db) /\
  exists c docs,
    getById at_once no_faults 1 ListTerms.sample_db
      = (json (JRow (Some (mkDetail c docs))), ListTerms.sample_db) /\
    id c = 1 /\ List.length docs = 2%nat.
Proof.
  destruct (getById_answers at_once 7 ListTerms.sample_db) as (H404 & _ & _).
  destruct (getById_answers at_once 1 ListTerms.sample_db) as (_ & H200 & _).
  split.
  - apply H404; [|reflexivity].
    intros c Hc. simpl in Hc.
    destruct Hc as [<-|[<-|[<-|[]]]]; simpl; discriminate.
  - destruct H200 as (c & docs & Hget & _ & Hid & Hperm & _).
    + eexists. split; [left; reflexivity|reflexivity].
    + exists c, docs. split; [exact Hget|split; [exact Hid|]].
      now rewrite (Permutation_length Hperm).
Defined.

Lemma map_pair_eta {A B} (l : list (A * B)) : map (fun x => (fst x, snd x)) l = l.
Proof. induction l as [|[a b] l IH]; simpl; [reflexivity|]. now rewrite IH. Qed.

(** X8.  A POST /api/candidatos answered 200, on a database where the
    identifier the sequence hands out is not yet used by a candidate or
    a document row, followed by GET /api/candidatos/:id with the
    identifier of the answer: the detail is the candidate as sent, and
    its documents are, up to order, one row per uploaded file with the
    category of the file and the URL the upload returned. *)
Theorem create_then_getById :
  forall (created_at : Documento -> Z) (env : Env) (req : Request) (db : Db),
    status (fst (create env req db)) = 200 ->
    (forall c, In c (candidatos db) -> id c <> candidatos_id_seq db) ->
    (forall d, In d (candidato_documentos db) ->
       candidato_id d <> candidatos_id_seq db) ->
    let db' := snd (create env req db) in
    exists docs inserts,
      fst (create env req db) = json (JOkId (candidatos_id_seq db)) /\
      getById created_at no_faults (candidatos_id_seq db) db'
        = (json (JRow (Some (mkDetail
             (CreateTerms.new_candidato env (body req) db) docs))), db') /\
      upload_tipos env (default_to "" (b_dni (body req))) (files req) tipos
        = inr inserts /\
      Permutation (map tagged docs) inserts.
Proof.
  intros created_at env req db Hok Hc Hd db'.
  destruct (CreateFacts.create_success env req db Hok)
    as (Hr & Hcand & inserts & Hup & Hdocs).
  fold db' in Hcand, Hdocs.
  exists (docs_by_candidato created_at (candidatos_id_seq db) db'), inserts.
  split; [exact Hr|]. split; [|split; [exact Hup|]].
  - run_getById. unfold no_faults, cab_by_id, vw_api_candidatos.
    rewrite Hcand, filter_app.
    rewrite (SqlFacts.filter_none _ (candidatos db)).
    + cbn [filter app CreateTerms.new_candidato id]. rewrite Z.eqb_refl.
      reflexivity.
    + intros c Hin. apply Z.eqb_neq. now apply Hc.
  - rewrite (Permutation_map tagged
               (docs_by_candidato_perm created_at (candidatos_id_seq db) db')).
    unfold docs_of. rewrite Hdocs, filter_app.
    rewrite (SqlFacts.filter_none _ (candidato_documentos db)).
    + cbn [app]. rewrite !map_map.
      assert (Hall : filter (fun d => candidato_id d =? candidatos_id_seq db)
                       (map (fun x => mkDocumento (candidatos_id_seq db) (fst x) (snd x))
                            inserts)
                     = map (fun x => mkDocumento (candidatos_id_seq db) (fst x) (snd x))
                           inserts).
      { clear. induction inserts as [|x l IH]; simpl; [reflexivity|].
        rewrite Z.eqb_refl. now rewrite IH. }
      rewrite Hall, map_map. unfold tagged. cbn [d_tipo d_url tipo url].
      now rewrite map_pair_eta.
    + intros d Hin. apply Z.eqb_neq. now apply Hd.
Qed.

Lemma create_then_getById_witness :
  exists docs,
    getById at_once no_faults 2
      (snd (create CreateTerms.witness_env CreateTerms.two_certificates
              CreateTerms.witness_db))
      = (json (JRow (Some (mkDetail
           (CreateTerms.new_candidato CreateTerms.witness_env
              (body CreateTerms.two_certificates) CreateTerms.witness_db) docs))),
         snd (create CreateTerms.witness_env CreateTerms.two_certificates
                CreateTerms.witness_db)) /\
    map d_tipo docs = ["certificados"; "certificados"].
Proof.
  destruct (create_then_getById at_once CreateTerms.witness_env
              CreateTerms.two_certificates CreateTerms.witness_db)
    as (docs & inserts & _ & Hget & Hup & Hperm).
  - reflexivity.
  - intros c Hc. simpl in Hc. destruct Hc as [<-|[]]. simpl. discriminate.
  - intros d Hd. simpl in Hd. destruct Hd as [<-|[]]. simpl. discriminate.
  - exists docs. split; [exact Hget|].
    vm_compute in Hup. inversion Hup; subst inserts. clear Hup.
    assert (Hlen : List.length docs = 2%nat).
    { rewrite <- (length_map tagged). now rewrite (Permutation_length Hperm). }
    assert (Hall : forall d, In d docs -> d_tipo d = "certificados").
    { intros d Hin. apply (in_map tagged) in Hin.
      apply (Permutation_in _ Hperm) in Hin. simpl in Hin.
      destruct Hin as [H|[H|[]]]; unfold tagged in H; now inversion H. }
    destruct docs as [|d1 [|d2 [|d3 rest]]]; try discriminate.
    simpl. rewrite (Hall d1), (Hall d2); simpl; auto.
Defined.
End DetailFacts.

(** ** The tax regime writer and its reads *)

Module TaxWriterFacts.
Import Js Http Pg Date Sql EmployerTax EmployerTaxReads.
Import TaxWriterTerms.
Import EmployerTaxTerms.
Local Open Scope list_scope.




Lemma employer_of_run c db :
  faults c 0%nat = None ->
  getEmployerIdOrNull (faults c 0%nat) (mkSession db None)
    = (inr (employer_of db), mkSession db None).
Proof.
  intros F0. unfold getEmployerIdOrNull, employer_of, bind, query, ret.
  rewrite F0. cbn [live]. reflexivity.
Qed.

(** X9.  POST /api/employer/tax checks, in this order, that an employer
    is registered, that the body carries a regime_code, and that the
    code names a regime of the catalogue; each check that fails is
    answered 400 with its own message before any transaction is opened,
    and the database is as it was. *)
Theorem post_employer_tax_rejects :
  forall (c : Call) (db : Db),
    faults c 0%nat = None ->
    (employer_of db = None ->
     post_employer_tax c db
       = (status_json 400 (JError "Primero registra la Empresa"), db)) /\
    (employer_of db <> None ->
     truthy (regime_code (req_body c)) = false ->
     post_employer_tax c db
       = (status_json 400 (JError "regime_code es obligatorio"), db)) /\
    (employer_of db <> None ->
     forall rc, regime_code (req_body c) = Some rc -> rc <> "" ->
     faults c 1%nat = None ->
     (forall rt, In rt (regimes_tax db) -> code rt <> rc) ->
     post_employer_tax c db
       = (status_json 400 (JError "regime_code inválido"), db)).
Proof.
  intros c db F0.
  split; [|split]; intros He;
    unfold post_employer_tax, try_catch_rollback, post_employer_tax_try;
    unfold bind at 1; rewrite (employer_of_run c db F0).
  - rewrite He. reflexivity.
  - intros Hrc. destruct (employer_of db); [|contradiction].
    unfold or_null. rewrite Hrc. reflexivity.
  - intros rc Hrc Hne F1 Hnone. destruct (employer_of db); [|contradiction].
    unfold or_null, truthy. rewrite Hrc.
    destruct (String.eqb_spec rc ""); [contradiction|]. cbn [negb].
    unfold bind, query. rewrite F1. cbn [live].
    unfold regimes_by_code. rewrite SqlFacts.filter_none; [reflexivity|].
    intros rt Hin. apply String.eqb_neq. now apply Hnone.
Qed.

Lemma post_employer_tax_rejects_witness :
  post_employer_tax (mkCall no_faults 100 (mkBody (Some "MICRO") None)) no_employer_db
    = (status_json 400 (JError "Primero registra la Empresa"), no_employer_db) /\
  post_employer_tax (mkCall no_faults 100 (mkBody (Some "") None)) one_period_db
    = (status_json 400 (JError "regime_code es obligatorio"), one_period_db) /\
  post_employer_tax (mkCall no_faults 100 (mkBody (Some "MYPE") None)) one_period_db
    = (status_json 400 (JError "regime_code inválido"), one_period_db).
Proof.
  split; [|split].
  - apply (post_employer_tax_rejects
             (mkCall no_faults 100 (mkBody (Some "MICRO") None)) no_employer_db
             eq_refl). reflexivity.
  - apply (post_employer_tax_rejects
             (mkCall no_faults 100 (mkBody (Some "") None)) one_period_db eq_refl);
      [discriminate|reflexivity].
  - apply (proj2 (proj2 (post_employer_tax_rejects
             (mkCall no_faults 100 (mkBody (Some "MYPE") None)) one_period_db
             eq_refl))) with (rc := "MYPE");
      [discriminate|reflexivity|discriminate|reflexivity|].
    intros rt Hin. simpl in Hin. destruct Hin as [<-|[<-|[]]]; discriminate.
Defined.













Lemma reg_id_total (x y : Regime) :
  (reg_id x <=? reg_id y) = true \/ (reg_id y <=? reg_id x) = true.
Proof.
  destruct (Z.leb_spec (reg_id x) (reg_id y)); [now left|right].
  apply Z.leb_le. lia.
Qed.

(** X13.  GET /api/regimes/tax answers with every regime of the
    catalogue, each once, in ascending order of id, and changes
    nothing; when the statement fails it answers 500. *)
Theorem get_regimes_tax_lists_catalogue :
  forall db : Db,
    (exists rows,
       get_regimes_tax None db = (json (JRows rows), db) /\
       Permutation rows (regimes_tax db) /\
       Sorted (fun a b => reg_id a <= reg_id b) rows) /\
    (forall e, get_regimes_tax (Some e) db = (status_json 500 (JText "error"), db)).
Proof.
  intros db. split; [|reflexivity].
  exists (regimes_by_id db). split; [reflexivity|]. split.
  - apply SqlFacts.order_by_perm.
  - unfold regimes_by_id.
    pose proof (SqlFacts.order_by_sorted _ reg_id_total (regimes_tax db)) as Hs.
    induction Hs as [|x l Hs IH Hhd]; constructor; [exact IH|].
    destruct Hhd as [|z l Hxz]; constructor. now apply Z.leb_le.
Qed.
End TaxWriterFacts.

(** ** The uploader and the documents statement *)

Module UploaderFacts.
Import Js Http Pg Date Sql Uploader.
Import UploaderTerms.
Local Open Scope list_scope.

Lemma substring_whole n s : (String.length s <= n)%nat -> substring 0 n s = s.
Proof.
  revert n. induction s as [|c s IH]; intros n Hn.
  - destruct n; reflexivity.
  - destruct n; simpl in Hn; [lia|]. simpl. rewrite IH; [reflexivity|lia].
Qed.

Lemma substring_at_most n s : (String.length (substring 0 n s) <= n)%nat.
Proof.
  revert s. induction n as [|n IH]; intros s.
  - destruct s; simpl; lia.
  - destruct s as [|c s]; simpl; [lia|]. specialize (IH s). lia.
Qed.

Lemma has_dot_app a b : has_dot (a ++ b) = has_dot a || has_dot b.
Proof.
  induction a as [|c a IH]; simpl; [reflexivity|]. now rewrite IH, orb_assoc.
Qed.

Lemma strip_no_dot s : has_dot s = false -> strip_extension s = s.
Proof.
  induction s as [|c s IH]; intros H; [reflexivity|].
  simpl in *. apply orb_false_elim in H. destruct H as [Hc Hs].
  rewrite Hc. cbn [andb]. now rewrite (IH Hs).
Qed.

Lemma strip_trailing_dot s : strip_extension (s ++ ".") = (s ++ ".")%string.
Proof.
  induction s as [|c s IH].
  - reflexivity.
  - cbn [append strip_extension]. rewrite has_dot_app.
    replace (has_dot ".") with true by reflexivity.
    rewrite orb_true_r. cbn [negb]. rewrite andb_false_r. now rewrite IH.
Qed.

Lemma strip_last_extension stem ext :
  ext <> "" -> has_dot ext = false ->
  strip_extension (stem ++ "." ++ ext) = stem.
Proof.
  intros Hne Hnd.
  change (stem ++ "." ++ ext)%string with (stem ++ String "." ext)%string.
  induction stem as [|c stem IH].
  - cbn [append strip_extension]. rewrite Hnd.
    destruct (String.eqb_spec ext ""); [contradiction|reflexivity].
  - cbn [append strip_extension]. rewrite has_dot_app.
    replace (has_dot (String "." ext)) with true by reflexivity.
    rewrite orb_true_r. cbn [negb]. rewrite andb_false_r. now rewrite IH.
Qed.

(** X14.  The public id under which [uploadToCloudinary] stores a file
    is its name without the last extension, cut to 120: a name without a
    dot, or ending in one, is kept whole; from [stem.ext] only [stem] is
    left, so a name that starts with its only dot gives the empty id,
    and two files of one folder whose names differ in the extension only
    are sent with the same options. *)
Theorem public_id_drops_last_extension :
  forall s : string,
    (String.length (public_id s) <= 120)%nat /\
    (has_dot s = false -> strip_extension s = s) /\
    strip_extension (s ++ ".") = (s ++ ".")%string /\
    (forall ext, ext <> "" -> has_dot ext = false ->
       strip_extension (s ++ "." ++ ext) = s) /\
    (forall ext ext', ext <> "" -> has_dot ext = false ->
       ext' <> "" -> has_dot ext' = false ->
       forall upload_stream fileBuffer folder,
         uploadToCloudinary upload_stream fileBuffer folder (s ++ "." ++ ext)
         = uploadToCloudinary upload_stream fileBuffer folder (s ++ "." ++ ext')).
Proof.
  intros s. split; [apply substring_at_most|].
  split; [apply strip_no_dot|]. split; [apply strip_trailing_dot|].
  split; [intros ext; apply strip_last_extension|].
  intros ext ext' H1 H2 H3 H4 upload_stream fileBuffer folder.
  unfold uploadToCloudinary, public_id.
  now rewrite (strip_last_extension s ext H1 H2), (strip_last_extension s ext' H3 H4).
Qed.

Lemma public_id_drops_last_extension_witness :
  public_id "informe.final.pdf" = "informe.final" /\
  public_id ".env" = "" /\
  public_id "LEEME" = "LEEME".
Proof.
  destruct (public_id_drops_last_extension "informe.final") as (_ & _ & _ & H1 & _).
  destruct (public_id_drops_last_extension "") as (_ & _ & _ & H2 & _).
  destruct (public_id_drops_last_extension "LEEME") as (_ & H3 & _).
  unfold public_id.
  change "informe.final.pdf" with ("informe.final" ++ "." ++ "pdf")%string.
  change ".env" with ("" ++ "." ++ "env")%string.
  rewrite H1, H2, H3; try discriminate; try reflexivity.
  repeat split.
Defined.

Lemma collect_app env d a b :
  collect env d (a ++ b)
  = and_then (collect env d a) (fun x =>
    and_then (collect env d b) (fun y => inr (x ++ y))).
Proof.
  induction a as [|tf a IH]; cbn [app collect].
  - destruct (collect env d b); reflexivity.
  - destruct (upload_of env d tf) as [e|u]; [reflexivity|]. cbn [and_then].
    rewrite IH. destruct (collect env d a) as [e|x]; [reflexivity|].
    cbn [and_then]. destruct (collect env d b); reflexivity.
Qed.

Lemma upload_files_collect env d t fl :
  Candidatos.upload_files env d t fl = collect env d (map (pair t) fl).
Proof.
  induction fl as [|f fl IH]; [reflexivity|].
  cbn [Candidatos.upload_files map collect]. unfold upload_of. cbn [fst snd].
  destruct (Candidatos.uploadToCloudinary env _ _ _); [reflexivity|].
  cbn [and_then]. now rewrite IH.
Qed.

Lemma upload_tipos_collect env d fs ts :
  Candidatos.upload_tipos env d fs ts
  = collect env d (flat_map (fun t => map (pair t) (Candidatos.files_of fs t)) ts).
Proof.
  induction ts as [|t ts IH]; [reflexivity|].
  cbn [Candidatos.upload_tipos flat_map].
  now rewrite collect_app, upload_files_collect, IH.
Qed.

Lemma collect_inr env d l inserts :
  collect env d l = inr inserts -> Forall2 (uploaded env d) inserts l.
Proof.
  revert inserts. induction l as [|tf l IH]; intros inserts H.
  - inversion H. constructor.
  - cbn [collect] in H. destruct (upload_of env d tf) as [e|u] eqn:Hu; [discriminate|].
    cbn [and_then] in H. destruct (collect env d l) as [e|more]; [discriminate|].
    inversion H; subst. constructor; [|now apply IH].
    split; [reflexivity|exact Hu].
Qed.

Lemma collect_inl env d l e :
  collect env d l = inl e -> exists tf, In tf l /\ upload_of env d tf = inl e.
Proof.
  induction l as [|tf l IH]; intros H; [discriminate|].
  cbn [collect] in H. destruct (upload_of env d tf) as [e0|u] eqn:Hu.
  - inversion H; subst. exists tf. split; [now left|exact Hu].
  - cbn [and_then] in H. destruct (collect env d l) as [e1|more]; [|discriminate].
    inversion H; subst. destruct (IH eq_refl) as (tf' & Hin & Htf').
    exists tf'. split; [now right|exact Htf'].
Qed.

Lemma collect_all env d l :
  (forall tf, In tf l -> exists u, upload_of env d tf = inr u) ->
  exists inserts, collect env d l = inr inserts.
Proof.
  induction l as [|tf l IH]; intros H; [now exists []|].
  destruct (H tf (or_introl eq_refl)) as [u Hu].
  destruct IH as [more Hmore]; [intros x Hx; apply H; now right|].
  exists ((fst tf, u) :: more). cbn [collect]. now rewrite Hu, Hmore.
Qed.

(** X15.  The uploads of [create]: the files are taken category by
    category in the order of [tipos], and within a category in the
    order received; files under any other field are not uploaded.  When
    every upload succeeds, [inserts] has one entry per file, in that
    order, with the category of the file and the URL returned for the
    folder candidatos/dni/category; the exception that ends the loops
    is the one an upload of these files raised; and when no upload
    raises, the loops run to their end. *)
Theorem uploads_follow_the_categories :
  forall (env : Candidatos.Env) (candDni : string)
         (fs : list (string * list Candidatos.File)),
    (forall inserts,
       Candidatos.upload_tipos env candDni fs Candidatos.tipos = inr inserts ->
       Forall2 (uploaded env candDni) inserts (planned fs)) /\
    (forall e,
       Candidatos.upload_tipos env candDni fs Candidatos.tipos = inl e ->
       exists tf, In tf (planned fs) /\ upload_of env candDni tf = inl e) /\
    ((forall tf, In tf (planned fs) -> exists u, upload_of env candDni tf = inr u) ->
     exists inserts,
       Candidatos.upload_tipos env candDni fs Candidatos.tipos = inr inserts).
Proof.
  intros env d fs. rewrite upload_tipos_collect. fold (planned fs).
  split; [intros inserts; apply collect_inr|].
  split; [intros e; apply collect_inl|apply collect_all].
Qed.

Lemma uploads_follow_the_categories_witness :
  Candidatos.upload_tipos storing "12345678" with_a_stray_field Candidatos.tipos
    = inr [("dni", "https://cdn/candidatos/12345678/dni/frente.pdf");
           ("dni", "https://cdn/candidatos/12345678/dni/dorso.pdf");
           ("cv", "https://cdn/candidatos/12345678/cv/cv.pdf")] /\
  map fst (planned with_a_stray_field) = ["dni"; "dni"; "cv"].
Proof.
  destruct (uploads_follow_the_categories storing "12345678" with_a_stray_field)
    as (_ & _ & Hall).
  destruct Hall as [inserts Hins].
  - intros tf _. eexists. reflexivity.
  - split; [|reflexivity]. rewrite Hins. vm_compute in Hins. exact (eq_sym Hins).
Defined.

Lemma nth_error_pairs (l : list (string * string)) i x :
  nth_error l i = Some x ->
  nth_error (flat_map (fun x => [PText (fst x); PText (snd x)]) l) (i * 2)
    = Some (PText (fst x)) /\
  nth_error (flat_map (fun x => [PText (fst x); PText (snd x)]) l) (i * 2 + 1)
    = Some (PText (snd x)).
Proof.
  revert i. induction l as [|y l IH]; intros i H; [destruct i; discriminate|].
  destruct i as [|i].
  - inversion H; subst. split; reflexivity.
  - cbn [nth_error] in H. destruct (IH i H) as [H1 H2].
    cbn [flat_map app]. replace (S i * 2)%nat with (S (S (i * 2))) by lia.
    replace (S (S (i * 2)) + 1)%nat with (S (S (i * 2 + 1))) by lia.
    split; assumption.
Qed.

Lemma bound_from ps (candidatoId : Z) (l : list (string * string)) :
  forall k,
    nth_error ps 0 = Some (PNum (Int candidatoId)) ->
    (forall i x, nth_error l i = Some x ->
       nth_error ps ((k + i) * 2 + 1) = Some (PText (fst x)) /\
       nth_error ps ((k + i) * 2 + 2) = Some (PText (snd x))) ->
    bound_tuples ps (map tuple_at (seq k (List.length l)))
    = inr (map (fun x => (PNum (Int candidatoId), PText (fst x), PText (snd x))) l).
Proof.
  induction l as [|y l IH]; intros k H0 Hl; [reflexivity|].
  cbn [List.length seq map bound_tuples].
  destruct (Hl 0%nat y eq_refl) as [Ht Hu]. rewrite Nat.add_0_r in Ht, Hu.
  unfold bound_tuple, placeholder.
  cbn [tuple_at of_candidato_id of_tipo of_url].
  replace (1 - 1)%nat with 0%nat by lia.
  replace (k * 2 + 2 - 1)%nat with (k * 2 + 1)%nat by lia.
  replace (k * 2 + 3 - 1)%nat with (k * 2 + 2)%nat by lia.
  rewrite H0, Ht, Hu. cbn [and_then].
  rewrite (IH (S k) H0); [reflexivity|].
  intros i x Hx. specialize (Hl (S i) x Hx).
  now replace (S k + i)%nat with (k + S i)%nat by lia.
Qed.

(** X16.  The statement that stores the documents: with [n] entries in
    [inserts] the VALUES list has [n] tuples and [params] has [2n + 1]
    values; every placeholder of every tuple has its value, the first of
    each tuple being the candidate's id and the other two the category
    and the URL of the entry at the tuple's position. *)
Theorem document_tuples_match_params :
  forall (candidatoId : Z) (inserts : list (string * string)),
    List.length (tuples inserts) = List.length inserts /\
    List.length (params candidatoId inserts) = (2 * List.length inserts + 1)%nat /\
    bound_tuples (params candidatoId inserts) (tuples inserts)
      = inr (map (fun x => (PNum (Int candidatoId), PText (fst x), PText (snd x)))
                 inserts).
Proof.
  intros candidatoId inserts. split; [|split].
  - unfold tuples. now rewrite length_map, length_seq.
  - unfold params. cbn [List.length]. f_equal.
    induction inserts as [|x l IH]; [reflexivity|].
    cbn [flat_map app List.length]. rewrite IH. lia.
  - unfold tuples. apply bound_from; [reflexivity|].
    intros i x Hx. destruct (nth_error_pairs inserts i x Hx) as [H1 H2].
    unfold params. cbn [Nat.add].
    replace (i * 2 + 1)%nat with (S (i * 2)) by lia.
    replace (i * 2 + 2)%nat with (S (i * 2 + 1)) by lia.
    cbn [nth_error]. split; assumption.
Qed.
End UploaderFacts.

(** ** The placeholders of the list statements *)

Module BuilderFacts.
Import Js Http Pg Date Sql Candidatos.
Import BuilderTerms.
Local Open Scope list_scope.
Local Abbreviation list := Datatypes.list.

Lemma push1_numbered text c v b :
  (forall k, cond_placeholders (c k) = [k]) ->
  numbered b -> numbered (push1 text c v b).
Proof.
  intros Hc [Hw Hi]. unfold numbered, push1. cbn [where_ params i].
  rewrite map_app, flat_map_app, Hw, !length_app. cbn [map flat_map cond List.length].
  rewrite Hc, app_nil_r, Hi. split; [|lia].
  replace (List.length (params b) + 1)%nat with (S (List.length (params b))) by lia.
  now rewrite seq_S.
Qed.

Lemma push2_numbered text c v w b :
  (forall k l, cond_placeholders (c k l) = [k; l]) ->
  numbered b -> numbered (push2 text c v w b).
Proof.
  intros Hc [Hw Hi]. unfold numbered, push2. cbn [where_ params i].
  rewrite map_app, flat_map_app, Hw, !length_app. cbn [map flat_map cond List.length].
  rewrite Hc, app_nil_r, Hi. split; [|lia].
  replace (List.length (params b) + 2)%nat with (S (S (List.length (params b)))) by lia.
  rewrite !seq_S. rewrite <- app_assoc. reflexivity.
Qed.

Lemma numbered_empty : numbered (mkBuilder [] [] 1).
Proof. split; reflexivity. Qed.

Lemma numbered_bound b : numbered b -> every_placeholder_bound b.
Proof.
  intros [Hw _] p k Hp Hk.
  assert (Hin : In k (seq 1 (List.length (params b)))).
  { rewrite <- Hw. apply in_flat_map. exists (cond p). split; [|exact Hk].
    now apply in_map. }
  apply in_seq in Hin. unfold placeholder.
  destruct (nth_error (params b) (k - 1)) as [v|] eqn:Hnth; [eauto|].
  apply nth_error_None in Hnth. lia.
Qed.

Ltac numbered_steps :=
  repeat first
    [ apply numbered_empty
    | apply push1_numbered; [intros; reflexivity|]
    | apply push2_numbered; [intros; reflexivity|]
    | match goal with
      | |- numbered (if ?c then _ else _) => destruct c
      | |- numbered (match ?x with _ => _ end) => destruct x
      end ].

Lemma list_filters_numbered q : numbered (list_filters q).
Proof. unfold list_filters. numbered_steps. Qed.

Lemma inline_filters_numbered q : numbered (Inline.get_candidatos_filters q).
Proof. unfold Inline.get_candidatos_filters. numbered_steps. Qed.

Lemma empleados_filters_numbered q : numbered (Empleados.get_empleados_filters q).
Proof. unfold Empleados.get_empleados_filters. numbered_steps. Qed.

(** X17.  The WHERE clauses that the three list handlers assemble
    ([list] of the controller, the inline GET /api/candidatos and GET
    /api/empleados) number their placeholders $1, $2, ... from left to
    right without a gap, as many as values are pushed, whatever filters
    are active; so every placeholder of the clause has its value. *)
Theorem where_placeholders_are_numbered :
  (forall q : Query,
     numbered (list_filters q) /\ every_placeholder_bound (list_filters q) /\
     numbered (Inline.get_candidatos_filters q) /\
     every_placeholder_bound (Inline.get_candidatos_filters q)) /\
  (forall q : Empleados.Query,
     numbered (Empleados.get_empleados_filters q) /\
     every_placeholder_bound (Empleados.get_empleados_filters q)).
Proof.
  split; intros q.
  - pose proof (list_filters_numbered q) as H1.
    pose proof (inline_filters_numbered q) as H2.
    split; [exact H1|]. split; [now apply numbered_bound|].
    split; [exact H2|now apply numbered_bound].
  - pose proof (empleados_filters_numbered q) as H1.
    split; [exact H1|now apply numbered_bound].
Qed.
End BuilderFacts.

(** ** The group range and the range of integers *)

Module RangeFacts.
Import Js Http Pg Date Sql Candidatos.
Import RangeTerms.
Local Open Scope list_scope.
Local Abbreviation list := Datatypes.list.

Lemma digit_not_space c : is_digit c = true -> is_space c = false.
Proof.
  destruct c as [[] [] [] [] [] [] [] []]; intros H; try discriminate H; reflexivity.
Qed.

Lemma trim_end_digits s : all_digits s = true -> trim_end s = s.
Proof.
  induction s as [|c s IH]; intros H; [reflexivity|].
  cbn [all_digits] in H. apply andb_prop in H. destruct H as [Hc Hs].
  cbn [trim_end]. rewrite (IH Hs).
  destruct s; [now rewrite (digit_not_space c Hc)|reflexivity].
Qed.

Lemma trim_digits s : all_digits s = true -> trim s = s.
Proof.
  intros H. unfold trim.
  assert (Hs : trim_start s = s).
  { destruct s as [|c s]; [reflexivity|].
    cbn [all_digits] in H. apply andb_prop in H. destruct H as [Hc _].
    cbn [trim_start]. now rewrite (digit_not_space c Hc). }
  rewrite Hs. now apply trim_end_digits.
Qed.

Lemma cast_digits g :
  matches_digits g = true -> cast_as_int g = int4 (digits_value 0 g).
Proof.
  unfold matches_digits. intros H. apply andb_prop in H. destruct H as [Hd Hne].
  unfold cast_as_int. rewrite (trim_digits g Hd).
  destruct g as [|c g]; [discriminate|].
  pose proof Hd as Hd'. cbn [all_digits] in Hd'. apply andb_prop in Hd'.
  destruct Hd' as [Hc _].
  destruct c as [[] [] [] [] [] [] [] []]; try discriminate Hc; now rewrite Hd.
Qed.

Section Scan.
Context {Row : Type} `{Columns Row}.

Lemma scan_raises (bs : list Bound) (rows : list Row) (r : Row) e :
  In r rows -> holds_all bs r = inl e -> exists e', scan bs rows = inl e'.
Proof.
  induction rows as [|r0 rows IH]; intros Hin Hr; [contradiction|].
  cbn [scan]. destruct Hin as [->|Hin].
  - rewrite Hr. cbn [and_then]. eauto.
  - destruct (holds_all bs r0) as [e0|keep]; cbn [and_then]; [eauto|].
    destruct (IH Hin Hr) as [e' He']. rewrite He'. cbn [and_then]. eauto.
Qed.

Lemma guarded_range_raises (wh : list Pred) (ps : list Param) (rows : list Row)
    (r : Row) (g : string) (i j : nat) :
  map cond wh = [GrupoDigitsBetween i j] ->
  In r rows -> col_grupo r = Some g ->
  matches_digits g = true -> int4_max < digits_value 0 g ->
  exists e, select_where wh ps rows = inl e.
Proof.
  intros Hwh Hin Hg Hd Hbig. unfold select_where. rewrite Hwh.
  cbn [bind_all bind_cond].
  destruct (and_then (placeholder ps i) as_integer) as [e|lo];
    cbn [and_then]; [eauto|].
  destruct (and_then (placeholder ps j) as_integer) as [e|hi];
    cbn [and_then]; [eauto|].
  apply (scan_raises _ _ r numeric_value_out_of_range Hin).
  cbn [holds_all holds]. rewrite Hg, Hd, (cast_digits g Hd).
  unfold int4. destruct (Z.leb_spec (digits_value 0 g) int4_max); [lia|].
  rewrite andb_false_r. reflexivity.
Qed.
End Scan.

Lemma only_range_filters q :
  only_group_range q ->
  exists i j, map cond (where_ (list_filters q)) = [GrupoDigitsBetween i j] /\
              map cond (where_ (Inline.get_candidatos_filters q))
                = [GrupoDigitsBetween i j].
Proof.
  intros (Ha & Hm & He & Hi & Hf). exists 1%nat, 2%nat.
  unfold list_filters, Inline.get_candidatos_filters.
  rewrite Ha, Hm, He, Hi, Hf. split; reflexivity.
Qed.

(** X18.  The digit test of the group range does not bound the number:
    a stored grupo that is a run of digits above 2147483647 passes the
    test and makes the cast raise.  So a request that filters by the
    group range only, whatever its bounds, is answered 500 by the
    controller's [list] and by the inline GET /api/candidatos as soon as
    one candidate has such a grupo; the database is as it was. *)
Theorem group_range_fails_on_a_grupo_beyond_int :
  forall (q : Query) (db : Db) (c : Candidato) (g : string),
    only_group_range q ->
    In c (candidatos db) -> grupo c = Some g ->
    matches_digits g = true -> int4_max < digits_value 0 g ->
    Candidatos.list None q db
      = (status_json 500 (JError "Error consultando candidatos"), db) /\
    Inline.get_candidatos None q db
      = (status_json 500 (JError "Error consultando candidatos"), db).
Proof.
  intros q db c g Hq Hin Hg Hd Hbig.
  destruct (only_range_filters q Hq) as (i & j & Hl & Hi).
  destruct (@guarded_range_raises Candidato Candidato_Columns (where_ (list_filters q)) (params (list_filters q))
              (vw_api_candidatos db) c g i j Hl Hin Hg Hd Hbig) as [e He].
  destruct (@guarded_range_raises Candidato Candidato_Columns (where_ (Inline.get_candidatos_filters q))
              (params (Inline.get_candidatos_filters q))
              (vw_api_candidatos db) c g i j Hi Hin Hg Hd Hbig) as [e' He'].
  split.
  - unfold Candidatos.list, try_catch, bind, query, ret, list_sql.
    cbn [live]. rewrite He. reflexivity.
  - unfold Inline.get_candidatos, try_catch, bind, query, ret,
      Inline.get_candidatos_sql.
    cbn [live]. rewrite He'. reflexivity.
Qed.

Lemma group_range_fails_on_a_grupo_beyond_int_witness :
  Candidatos.list None (mkQuery None None None (Some "50") (Some "60")) wide_db
    = (status_json 500 (JError "Error consultando candidatos"), wide_db).
Proof.
  apply (group_range_fails_on_a_grupo_beyond_int
           (mkQuery None None None (Some "50") (Some "60")) wide_db
           (mkCandidato 2 (Some "22222222") (Some "Garcia") (Some "Flores")
              (Some "Maria") (Some "Arequipa") None (Some "4000000000")
              (Some "Aprobado") (of_civil 2024 8 5))
           "4000000000").
  - repeat split.
  - right. left. reflexivity.
  - reflexivity.
  - reflexivity.
  - reflexivity.
Defined.
End RangeFacts.

(** ** The normalising middleware and the handlers behind it *)

Module BodyMiddlewareFacts.
Import Js Http Pg Date Sql BodyMiddleware.
Import BodyMiddlewareTerms.
Local Open Scope list_scope.

Lemma lower_char_not_upper c : is_upper (lower_char c) = false.
Proof. destruct c as [[] [] [] [] [] [] [] []]; reflexivity. Qed.

Lemma upper_char_word c : is_word (upper_char c) = is_word c.
Proof. destruct c as [[] [] [] [] [] [] [] []]; reflexivity. Qed.

Lemma toLowerCase_no_upper s : has_upper (toLowerCase s) = false.
Proof.
  unfold toLowerCase. induction s as [|c s IH]; [reflexivity|].
  cbn [map_string has_upper]. now rewrite lower_char_not_upper, IH.
Qed.

Lemma capitalize_shape s :
  has_upper s = false ->
  forall after_word, capitals_start_words after_word (capitalize after_word s) = true.
Proof.
  induction s as [|c s IH]; intros Hs after_word; [reflexivity|].
  cbn [has_upper] in Hs. apply orb_false_elim in Hs. destruct Hs as [Hc Hs].
  cbn [capitalize capitals_start_words].
  assert (Hw : is_word (if is_alnum c && negb after_word then upper_char c else c)
               = is_word c).
  { destruct (is_alnum c && negb after_word); [apply upper_char_word|reflexivity]. }
  rewrite Hw, (IH Hs). rewrite andb_true_r.
  destruct after_word.
  - rewrite andb_false_r, Hc. reflexivity.
  - now rewrite andb_false_r.
Qed.

Lemma toTitleCase_shape s : capitals_start_words false (toTitleCase s) = true.
Proof. unfold toTitleCase. apply capitalize_shape, toLowerCase_no_upper. Qed.

(** X19.  Behind the normalising middleware of the second server, PUT
    /api/candidatos/:id/estado cannot set a state: the middleware
    rewrites the estado of the body in title case, where a capital never
    follows a letter, a digit or an underscore, and the handler compares
    with EN_REVISION, CANCELADO and APROBADO.  Whatever estado is sent
    (for a string: one that is ASCII text once trimmed and stripped of
    its diacritics) the answer is 400 and the database is as it was. *)
Theorem estado_is_always_rejected_behind_the_middleware :
  forall (normalize : string -> string -> string) (fault : option Exn) (id_ : Z)
         (estado : Candidatos.value) (db : Candidatos.Db),
    (forall s, estado = Candidatos.VString s ->
       is_ascii (Server.stripDiacritics normalize (trim s)) = true) ->
    put_candidatos_id_estado normalize fault id_ estado db = (estado_invalido, db).
Proof.
  intros normalize fault id_ estado db _.
  unfold put_candidatos_id_estado, Candidatos.put_candidatos_id_estado,
    Candidatos.updateEstado_with, try_catch, estado_invalido.
  assert (Hinc : Candidatos.includes ["EN_REVISION"; "CANCELADO"; "APROBADO"]
                   (normalize_body_field normalize estado) = false).
  { destruct estado as [| |b|z|s]; try reflexivity.
    cbn [normalize_body_field Candidatos.includes existsb].
    pose proof (toTitleCase_shape (Server.stripDiacritics normalize (trim s))) as Hs.
    fold (normalizeBodyValue normalize s) in Hs.
    destruct (String.eqb_spec "EN_REVISION" (normalizeBodyValue normalize s)) as [E|_];
      [rewrite <- E in Hs; discriminate|].
    destruct (String.eqb_spec "CANCELADO" (normalizeBodyValue normalize s)) as [E|_];
      [rewrite <- E in Hs; discriminate|].
    destruct (String.eqb_spec "APROBADO" (normalizeBodyValue normalize s)) as [E|_];
      [rewrite <- E in Hs; discriminate|].
    reflexivity. }
  rewrite Hinc. reflexivity.
Qed.

Lemma estado_is_always_rejected_behind_the_middleware_witness :
  put_candidatos_id_estado Server.normalize_latin1 None 1
    (Candidatos.VString "APROBADO") UpdateTerms.witness_db
    = (estado_invalido, UpdateTerms.witness_db) /\
  Candidatos.put_candidatos_id_estado None 1
    (Candidatos.VString "APROBADO") UpdateTerms.witness_db
    <> (estado_invalido, UpdateTerms.witness_db).
Proof.
  split.
  - apply estado_is_always_rejected_behind_the_middleware.
    intros s Hs. inversion Hs; subst s. reflexivity.
  - discriminate.
Defined.

Lemma inline_estado_filter q :
  truthy (Candidatos.q_estado q) = true ->
  exists p k,
    In p (Candidatos.where_ (Inline.get_candidatos_filters q)) /\
    cond p = EstadoIs k /\
    placeholder (Candidatos.params (Inline.get_candidatos_filters q)) k
      = inr (PText (default_to "" (Candidatos.q_estado q))).
Proof.
  intros He. unfold Inline.get_candidatos_filters. rewrite He.
  destruct (negb (default_to "TODOS" (Candidatos.ano q) =? "TODOS")%string);
    destruct (negb (default_to "TODOS" (Candidatos.mes q) =? "TODOS")%string);
    destruct (truthy (Candidatos.grupoInicio q) && truthy (Candidatos.grupoFin q));
    cbn; eexists; eexists;
    first [ split; [left; reflexivity|split; reflexivity]
          | split; [right; left; reflexivity|split; reflexivity]
          | split; [right; right; left; reflexivity|split; reflexivity] ].
Qed.

Lemma inline_kept fault q db rows :
  fst (Inline.get_candidatos fault q db) = json (JRows rows) ->
  exists bs kept,
    bind_all (Candidatos.params (Inline.get_candidatos_filters q))
      (map cond (Candidatos.where_ (Inline.get_candidatos_filters q))) = inr bs /\
    scan bs (Candidatos.vw_api_candidatos db) = inr kept /\
    rows = order_by Candidatos.fecha_desc_id_desc kept.
Proof.
  unfold Inline.get_candidatos, try_catch, bind, query, ret,
    Inline.get_candidatos_sql, select_where. cbn [live].
  destruct fault as [e|]; [discriminate|].
  destruct (bind_all _ _) as [e|bs]; [discriminate|]. cbn [and_then].
  destruct (scan bs _) as [e|kept] eqn:Hscan; [discriminate|]. cbn [and_then fst].
  intros Hrows. inversion Hrows. exists bs, kept. auto.
Qed.

(** X20.  Behind the normalising middleware GET /api/candidatos compares
    the estado column, letter for letter, with the estado of the query
    in lower case: every candidate of an answer to a request that
    filters by estado has exactly the normalised text as its estado,
    which holds no upper-case letter; a candidate stored as EN_REVISION
    or En Revision is in no such answer. *)
Theorem estado_filter_matches_lower_case_only :
  forall (normalize : string -> string -> string) (fault : option Exn)
         (q : Candidatos.Query) (db : Candidatos.Db)
         (rows : list Candidatos.Candidato),
    fst (Server.get_candidatos normalize fault q db) = json (JRows rows) ->
    forall s, Candidatos.q_estado q = Some s ->
      Server.normalizeQueryValue normalize s <> "" ->
      forall c, In c rows ->
        Candidatos.estado c = Some (Server.normalizeQueryValue normalize s) /\
        has_upper (Server.normalizeQueryValue normalize s) = false.
Proof.
  intros normalize fault q db rows Hrows s Hs Hne c Hc.
  split; [|apply toLowerCase_no_upper].
  unfold Server.get_candidatos in Hrows.
  set (q' := Server.normalize_query normalize q) in *.
  assert (Hq' : Candidatos.q_estado q' = Some (Server.normalizeQueryValue normalize s)).
  { unfold q', Server.normalize_query. cbn [Candidatos.q_estado]. now rewrite Hs. }
  assert (Ht : truthy (Candidatos.q_estado q') = true).
  { rewrite Hq'. unfold truthy.
    destruct (String.eqb_spec (Server.normalizeQueryValue normalize s) "");
      [contradiction|reflexivity]. }
  destruct (inline_estado_filter q' Ht) as (p & k & Hp & Hcond & Hk).
  destruct (inline_kept fault q' db rows Hrows) as (bs & kept & Hbind & Hscan & ->).
  assert (Hin : In c kept).
  { apply (Permutation_in _
             (SqlFacts.order_by_perm Candidatos.fecha_desc_id_desc kept)).
    exact Hc. }
  destruct (ListFacts.scan_In bs _ kept c Hscan Hin) as [_ Hall].
  destruct (ListFacts.bind_all_In _ _ bs (cond p) Hbind (in_map cond _ p Hp))
    as (b & Hb & Hbc).
  rewrite Hq' in Hk. cbn [default_to] in Hk.
  rewrite Hcond in Hbc. cbn [bind_cond] in Hbc. rewrite Hk in Hbc.
  cbn [and_then param_text] in Hbc. inversion Hbc; subst b.
  pose proof (ListFacts.holds_all_true bs c Hall _ Hb) as Hholds.
  cbn [holds col_estado Candidatos.Candidato_Columns] in Hholds.
  destruct (Candidatos.estado c) as [e0|]; [|discriminate].
  inversion Hholds as [Heq]. apply String.eqb_eq in Heq. now rewrite Heq.
Qed.

Lemma estado_filter_matches_lower_case_only_witness :
  Candidatos.estado lower_case_candidate = Some "aprobado" /\
  has_upper "aprobado" = false /\
  fst (Server.get_candidatos Server.normalize_latin1 None
         (Candidatos.mkQuery None None (Some " APROBADO ") None None) mixed_db)
    = json (JRows [lower_case_candidate]).
Proof.
  destruct (estado_filter_matches_lower_case_only Server.normalize_latin1 None
              (Candidatos.mkQuery None None (Some " APROBADO ") None None) mixed_db
              [lower_case_candidate] eq_refl " APROBADO " eq_refl)
    with (c := lower_case_candidate) as [H1 H2].
  - discriminate.
  - now left.
  - split; [exact H1|]. split; [exact H2|reflexivity].
Defined.
End BodyMiddlewareFacts.

(** ** The cut of the slug *)

Module SlugFacts.
Import Js Http Pg Date Sql Server.
Import SlugTerms.
Local Open Scope list_scope.

Lemma strip_trailing_end s : ends_with_hyphen (strip_trailing_hyphens s) = false.
Proof.
  induction s as [|c s IH]; [reflexivity|].
  cbn [strip_trailing_hyphens].
  destruct (strip_trailing_hyphens s) as [|d t] eqn:Ht.
  - destruct (is_hyphen c) eqn:Hc; [reflexivity|]. cbn. exact Hc.
  - exact IH.
Qed.

Lemma substring_cut n s :
  (n < String.length s)%nat -> String.length (substring 0 n s) = n.
Proof.
  revert s. induction n as [|n IH]; intros s Hn.
  - destruct s; reflexivity.
  - destruct s as [|c s]; simpl in Hn; [lia|]. simpl. rewrite IH; [reflexivity|lia].
Qed.

(** X21.  [slugify] cuts the slug to 32 characters after it has taken
    the hyphens off its ends.  A slug of at most 32 characters is kept
    whole and does not end with a hyphen; a slug that ends with a hyphen
    is the first 32 characters of a longer one. *)
Theorem slug_ends_with_hyphen_only_when_cut :
  forall (normalize : string -> string -> string) (str : field),
    slugify normalize str = slice0 32 (uncut normalize str) /\
    ((String.length (uncut normalize str) <= 32)%nat ->
     slugify normalize str = uncut normalize str /\
     ends_with_hyphen (slugify normalize str) = false) /\
    (ends_with_hyphen (slugify normalize str) = true ->
     (32 < String.length (uncut normalize str))%nat /\
     String.length (slugify normalize str) = 32%nat).
Proof.
  intros normalize str.
  assert (Hslug : slugify normalize str = slice0 32 (uncut normalize str))
    by reflexivity.
  assert (Hshort : (String.length (uncut normalize str) <= 32)%nat ->
                   slugify normalize str = uncut normalize str /\
                   ends_with_hyphen (slugify normalize str) = false).
  { intros Hlen. rewrite Hslug. unfold slice0.
    rewrite (UploaderFacts.substring_whole _ _ Hlen).
    split; [reflexivity|]. unfold uncut, trim_hyphens. apply strip_trailing_end. }
  split; [exact Hslug|]. split; [exact Hshort|].
  intros Hend.
  destruct (Nat.le_gt_cases (String.length (uncut normalize str)) 32) as [Hle|Hgt].
  - destruct (Hshort Hle) as [_ Hno]. rewrite Hno in Hend. discriminate.
  - split; [exact Hgt|]. rewrite Hslug. unfold slice0. now apply substring_cut.
Qed.

Lemma slug_ends_with_hyphen_only_when_cut_witness :
  slugify normalize_latin1 (Some long_name) = "ABCDEFGHIJKLMNOPQRSTUVWXYZ01234-" /\
  (32 < String.length (uncut normalize_latin1 (Some long_name)))%nat /\
  String.length (slugify normalize_latin1 (Some long_name)) = 32%nat.
Proof.
  split; [reflexivity|].
  apply (slug_ends_with_hyphen_only_when_cut normalize_latin1 (Some long_name)).
  reflexivity.
Defined.
End SlugFacts.

(** ** Sites whose code is sent by the client *)

Module SitesFacts.
Import Js Http Pg Date Sql Server Sites.
Import SitesTerms.
Local Open Scope list_scope.

Ltac run_sites :=
  unfold post_sites, put_sites, delete_sites, try_catch, bind, exec, ret,
    committed, ROLLBACK;
  cbn [live txn].

(** X22.  POST /api/sites of the server that takes the code from the
    client: a request whose code or name is absent, null, empty, zero or
    false is answered 400; otherwise the two fields are turned into text
    and trimmed (a code of blanks becomes the empty code) and the site
    is inserted under the next id; when a site holds the trimmed code
    already, the answer is 500 with the text "error", not 409, and no
    row is added. *)
Theorem post_sites_with_a_code :
  forall (code name : Candidatos.value) (db : Db),
    (truthy_value code && truthy_value name = false ->
     forall fault,
       post_sites fault code name db
         = (status_json 400 (JText "code y name son obligatorios"), db)) /\
    (truthy_value code && truthy_value name = true ->
     code_in_use (trim (to_string code)) db = true ->
     fst (post_sites None code name db) = status_json 500 (JText "error") /\
     same_rows db (snd (post_sites None code name db))) /\
    (truthy_value code && truthy_value name = true ->
     code_in_use (trim (to_string code)) db = false ->
     let new := mkSite (sites_id_seq db) (trim (to_string code))
                  (trim (to_string name)) in
     post_sites None code name db
       = (json (JRow (Some new)),
          mkDb (sites db ++ [new]) (sites_id_seq db + 1)
               (projects db) (projects_id_seq db))).
Proof.
  intros code name db. split; [|split].
  - intros H fault. run_sites.
    destruct (truthy_value code), (truthy_value name); try discriminate; reflexivity.
  - intros H Hdup. apply andb_prop in H. destruct H as [Hc Hn].
    run_sites. rewrite Hc, Hn. cbn [negb orb live txn]. unfold insert_site.
    cbn [live txn]. rewrite Hdup.
    split; [reflexivity|split; reflexivity].
  - intros H Hfree new. apply andb_prop in H. destruct H as [Hc Hn].
    run_sites. rewrite Hc, Hn. cbn [negb orb live txn]. unfold insert_site.
    cbn [live txn]. rewrite Hfree.
    reflexivity.
Qed.

Lemma post_sites_with_a_code_witness :
  fst (post_sites None (Candidatos.VString " LIM ") (Candidatos.VString "Lima Norte")
         two_sites) = status_json 500 (JText "error") /\
  post_sites None (Candidatos.VString "   ") (Candidatos.VString "Cusco") two_sites
    = (json (JRow (Some (mkSite 3 "" "Cusco"))),
       mkDb [mkSite 1 "LIM" "Lima"; mkSite 2 "AQP" "Arequipa"; mkSite 3 "" "Cusco"] 4
            [mkProject 1 "P1" "Planta" 1] 2).
Proof.
  destruct (post_sites_with_a_code (Candidatos.VString " LIM ")
              (Candidatos.VString "Lima Norte") two_sites) as (_ & Hdup & _).
  destruct (post_sites_with_a_code (Candidatos.VString "   ")
              (Candidatos.VString "Cusco") two_sites) as (_ & _ & Hnew).
  split.
  - apply Hdup; reflexivity.
  - apply Hnew; reflexivity.
Defined.

Lemma bound_text_replaced v old :
  COALESCE (Candidatos.bound_text v) old = replaced v old.
Proof. destruct v as [| |[]|z|s]; reflexivity. Qed.

Lemma rowCount_none (i : Z) (l : list Site) :
  (forall s, In s l -> site_id s <> i) ->
  filter (fun s => site_id s =? i) l = [] /\
  map (fun s => if site_id s =? i
                then mkSite (site_id s) (site_code s) (site_name s) else s) l = l.
Proof.
  intros H. split.
  - apply SqlFacts.filter_none. intros s Hs. apply Z.eqb_neq. now apply H.
  - induction l as [|s l IH]; [reflexivity|]. cbn [map].
    rewrite IH by (intros x Hx; apply H; now right).
    destruct (Z.eqb_spec (site_id s) i) as [E|_]; [|reflexivity].
    exfalso. apply (H s); [now left|exact E].
Qed.

Lemma map_untouched {A} (p : A -> bool) (f : A -> A) (l : list A) :
  (forall x, In x l -> p x = false) -> map (fun x => if p x then f x else x) l = l.
Proof.
  induction l as [|x l IH]; intros H; [reflexivity|]. cbn [map].
  rewrite (H x (or_introl eq_refl)), IH; [reflexivity|].
  intros y Hy. apply H. now right.
Qed.

Lemma code_clash_absent code i db :
  (forall s, In s (sites db) -> site_id s <> i) -> code_clash code i db = false.
Proof.
  intros H. unfold code_clash. destruct code as [c|]; [|reflexivity].
  replace (existsb (fun s => site_id s =? i) (sites db)) with false; [reflexivity|].
  symmetry. apply not_true_is_false. intros Hex. apply existsb_exists in Hex.
  destruct Hex as (s & Hs & Heq). apply Z.eqb_eq in Heq. now apply (H s).
Qed.

(** X23.  PUT /api/sites/:id of the same server: when no site has the id
    the answer is 404 and nothing changes.  When one has and the update
    meets no other site with the new code, the answer is {ok}: code and
    name each take the value sent unless it is absent or null, so an
    empty string sent is stored, and every other site is as it was.
    When another site holds the code, the answer is 500 and nothing
    changes. *)
Theorem put_sites_replaces_what_is_sent :
  forall (id_ : Z) (code name : Candidatos.value) (db : Db),
    ((forall s, In s (sites db) -> site_id s <> id_) ->
     put_sites None id_ code name db
       = (status_json 404 (JText "no encontrado"), db)) /\
    ((exists s, In s (sites db) /\ site_id s = id_) ->
     code_clash (Candidatos.bound_text code) id_ db = false ->
     fst (put_sites None id_ code name db) = json JOk /\
     Forall2 (site_updated id_ code name) (sites db)
       (sites (snd (put_sites None id_ code name db))) /\
     projects (snd (put_sites None id_ code name db)) = projects db) /\
    (code_clash (Candidatos.bound_text code) id_ db = true ->
     put_sites None id_ code name db = (status_json 500 (JText "error"), db)).
Proof.
  intros id_ code name db. split; [|split].
  - intros Habs. run_sites. unfold update_site.
    rewrite (code_clash_absent _ _ _ Habs).
    rewrite (SqlFacts.filter_none _ (sites db))
      by (intros s Hs; apply Z.eqb_neq; now apply Habs).
    cbn [List.length fst snd].
    rewrite map_untouched by (intros s Hs; apply Z.eqb_neq; now apply Habs).
    destruct db; reflexivity.
  - intros (s & Hs & Hid) Hfree. run_sites. unfold update_site. rewrite Hfree.
    assert (Hin : In s (filter (fun s0 => site_id s0 =? id_) (sites db))).
    { apply filter_In. split; [exact Hs|now apply Z.eqb_eq]. }
    destruct (filter (fun s0 => site_id s0 =? id_) (sites db)) as [|s0 rest];
      [contradiction|].
    cbn [List.length fst snd sites projects].
    split; [reflexivity|]. split; [|reflexivity].
    clear. induction (sites db) as [|x l IH]; constructor; [|exact IH].
    unfold site_updated. rewrite !bound_text_replaced.
    destruct (site_id x =? id_); reflexivity.
  - intros Hclash. run_sites. unfold update_site. rewrite Hclash. reflexivity.
Qed.

Lemma put_sites_replaces_what_is_sent_witness :
  sites (snd (put_sites None 2 (Candidatos.VString "") Candidatos.VNull two_sites))
    = [mkSite 1 "LIM" "Lima"; mkSite 2 "" "Arequipa"] /\
  put_sites None 2 (Candidatos.VString "LIM") Candidatos.VUndefined two_sites
    = (status_json 500 (JText "error"), two_sites) /\
  put_sites None 9 (Candidatos.VString "X") Candidatos.VUndefined two_sites
    = (status_json 404 (JText "no encontrado"), two_sites).
Proof.
  destruct (put_sites_replaces_what_is_sent 2 (Candidatos.VString "")
              Candidatos.VNull two_sites) as (_ & Hok & _).
  destruct (put_sites_replaces_what_is_sent 2 (Candidatos.VString "LIM")
              Candidatos.VUndefined two_sites) as (_ & _ & Hclash).
  destruct (put_sites_replaces_what_is_sent 9 (Candidatos.VString "X")
              Candidatos.VUndefined two_sites) as (H404 & _).
  split; [|split].
  - destruct Hok as (_ & _ & _); [|reflexivity|reflexivity].
    exists (mkSite 2 "AQP" "Arequipa"). split; [right; now left|reflexivity].
  - apply Hclash. reflexivity.
  - apply H404. intros s Hs. simpl in Hs.
    destruct Hs as [<-|[<-|[]]]; simpl; discriminate.
Defined.

Lemma delete_sites_catch_spec e :
  delete_sites_catch e
  = if match exn_code e with Some c => (c =? "23503")%string | None => false end
    then status_json 409 (JText "No se puede eliminar: tiene proyectos asociados")
    else status_json 500 (JText "error").
Proof.
  unfold delete_sites_catch. destruct (exn_code e) as [c|]; reflexivity.
Qed.

(** X24.  DELETE /api/sites/:id of the same server answers {ok} whether
    or not a site has the id: when none has, nothing changes; when one
    has and no project refers to it, the sites left are the others, in
    their order; when a project refers to it the answer is 409 and
    nothing changes.  A statement that fails otherwise is answered 500. *)
Theorem delete_sites_is_idempotent :
  forall (id_ : Z) (db : Db),
    ((forall s, In s (sites db) -> site_id s <> id_) ->
     delete_sites None id_ db = (json JOk, db)) /\
    ((exists s, In s (sites db) /\ site_id s = id_) ->
     referenced id_ db = false ->
     fst (delete_sites None id_ db) = json JOk /\
     sites (snd (delete_sites None id_ db))
       = filter (fun s => negb (site_id s =? id_)) (sites db) /\
     (forall s, In s (sites (snd (delete_sites None id_ db))) -> site_id s <> id_) /\
     projects (snd (delete_sites None id_ db)) = projects db /\
     delete_sites None id_ (snd (delete_sites None id_ db))
       = (json JOk, snd (delete_sites None id_ db))) /\
    ((exists s, In s (sites db) /\ site_id s = id_) ->
     referenced id_ db = true ->
     delete_sites None id_ db
       = (status_json 409 (JText "No se puede eliminar: tiene proyectos asociados"),
          db)) /\
    (forall e, exn_code e <> Some "23503" ->
       delete_sites (Some e) id_ db = (status_json 500 (JText "error"), db)).
Proof.
  intros id_ db.
  assert (Hnone : forall d, (forall s, In s (sites d) -> site_id s <> id_) ->
                  delete_sites None id_ d = (json JOk, d)).
  { intros d Habs. run_sites. unfold delete_site.
    replace (existsb (fun s => site_id s =? id_) (sites d)) with false.
    - cbn [andb fst snd].
      replace (filter (fun s => negb (site_id s =? id_)) (sites d)) with (sites d).
      + destruct d; reflexivity.
      + symmetry. apply forallb_filter_id. apply forallb_forall.
        intros s Hs. apply negb_true_iff, Z.eqb_neq. now apply Habs.
    - symmetry. apply not_true_is_false. intros Hex. apply existsb_exists in Hex.
      destruct Hex as (s & Hs & Heq). apply Z.eqb_eq in Heq. now apply (Habs s). }
  assert (Hsome : (exists s, In s (sites db) /\ site_id s = id_) ->
                  existsb (fun s => site_id s =? id_) (sites db) = true).
  { intros (s & Hs & Hid). apply existsb_exists. exists s.
    split; [exact Hs|now apply Z.eqb_eq]. }
  split; [apply Hnone|]. split; [|split].
  - intros Hex Href.
    assert (Hrun : delete_sites None id_ db
                   = (json JOk,
                      mkDb (filter (fun s => negb (site_id s =? id_)) (sites db))
                           (sites_id_seq db) (projects db) (projects_id_seq db))).
    { run_sites. unfold delete_site. rewrite (Hsome Hex), Href. reflexivity. }
    rewrite Hrun. cbn [fst snd sites projects].
    assert (Hgone : forall s,
               In s (filter (fun s0 => negb (site_id s0 =? id_)) (sites db)) ->
               site_id s <> id_).
    { intros s Hs. apply filter_In in Hs. destruct Hs as [_ Hs].
      now apply negb_true_iff, Z.eqb_neq in Hs. }
    repeat split; try assumption.
    apply Hnone. exact Hgone.
  - intros Hex Href. run_sites. unfold delete_site.
    rewrite (Hsome Hex), Href. reflexivity.
  - intros e He. run_sites. rewrite delete_sites_catch_spec.
    destruct (exn_code e) as [c|]; [|reflexivity].
    destruct (String.eqb_spec c "23503"); [subst; contradiction|reflexivity].
Qed.

Lemma delete_sites_is_idempotent_witness :
  delete_sites None 2 two_sites
    = (json JOk, mkDb [mkSite 1 "LIM" "Lima"] 3 [mkProject 1 "P1" "Planta" 1] 2) /\
  delete_sites None 1 two_sites
    = (status_json 409 (JText "No se puede eliminar: tiene proyectos asociados"),
       two_sites) /\
  delete_sites None 7 two_sites = (json JOk, two_sites).
Proof.
  destruct (delete_sites_is_idempotent 2 two_sites) as (_ & Hdel & _).
  destruct (delete_sites_is_idempotent 1 two_sites) as (_ & _ & Href & _).
  destruct (delete_sites_is_idempotent 7 two_sites) as (Hnone & _).
  split; [|split].
  - reflexivity.
  - apply Href; [|reflexivity].
    exists (mkSite 1 "LIM" "Lima"). split; [now left|reflexivity].
  - apply Hnone. intros s Hs. simpl in Hs.
    destruct Hs as [<-|[<-|[]]]; simpl; discriminate.
Defined.
End SitesFacts.

(** ** The empleados SQL server: documents and filters *)

Module EmpleadosListFacts.
Import Js Http Pg Date Sql Empleados.
Import EmpleadosListTerms.
Local Open Scope list_scope.

Lemma lookup_step_other m d e t :
  is_doc e t d = false -> lookup (index_step m d) e t = lookup m e t.
Proof.
  intros Hd. unfold index_step, is_doc in *.
  assert (Hassign : lookup (assign m (empleado_id d) (tipo d) (url d)) e t
                    = lookup m e t).
  { unfold assign. cbn [lookup]. now rewrite Hd. }
  destruct ((tipo d =? "certificados")%string || (tipo d =? "capacitacion")%string);
    [|exact Hassign].
  destruct (truthy (lookup m (empleado_id d) (tipo d))); [reflexivity|exact Hassign].
Qed.

Lemma is_doc_eq e t d : is_doc e t d = true -> empleado_id d = e /\ tipo d = t.
Proof.
  unfold is_doc. intros H. apply andb_prop in H. destruct H as [H1 H2].
  split; [now apply Z.eqb_eq|now apply String.eqb_eq].
Qed.

Lemma lookup_assign m e t u : lookup (assign m e t u) e t = Some u.
Proof. unfold assign. cbn [lookup]. now rewrite Z.eqb_refl, String.eqb_refl. Qed.

Lemma last_wins docs e t :
  t <> "certificados" -> t <> "capacitacion" ->
  forall m,
    lookup (fold_left index_step docs m) e t
    = match hd_error (rev (urls_of e t docs)) with
      | Some u => Some u
      | None => lookup m e t
      end.
Proof.
  intros H1 H2. unfold urls_of.
  induction docs as [|d docs IH]; intros m; [reflexivity|].
  cbn [fold_left filter]. rewrite IH.
  destruct (is_doc e t d) eqn:Hd.
  - destruct (is_doc_eq _ _ _ Hd) as [He Ht].
    cbn [map rev].
    assert (Hstep : lookup (index_step m d) e t = Some (url d)).
    { unfold index_step. rewrite He, Ht.
      destruct (String.eqb_spec t "certificados"); [contradiction|].
      destruct (String.eqb_spec t "capacitacion"); [contradiction|].
      cbn [orb]. apply lookup_assign. }
    rewrite Hstep.
    destruct (rev (map url (filter (is_doc e t) docs))); reflexivity.
  - now rewrite (lookup_step_other _ _ _ _ Hd).
Qed.

Lemma first_wins docs e t :
  t = "certificados" \/ t = "capacitacion" ->
  forall m,
    or_null (lookup (fold_left index_step docs m) e t)
    = match or_null (lookup m e t) with
      | Some u => Some u
      | None => first_url e t docs
      end.
Proof.
  intros Ht. unfold first_url, urls_of.
  induction docs as [|d docs IH]; intros m.
  - cbn [fold_left filter map hd_error]. destruct (or_null (lookup m e t)); reflexivity.
  - cbn [fold_left filter]. rewrite IH.
    destruct (is_doc e t d) eqn:Hd.
    + destruct (is_doc_eq _ _ _ Hd) as [He Htd].
      cbn [map filter].
      assert (Hbranch : (tipo d =? "certificados")%string
                        || (tipo d =? "capacitacion")%string = true).
      { rewrite Htd. destruct Ht as [-> | ->]; reflexivity. }
      unfold index_step. rewrite Hbranch, He, Htd.
      destruct (truthy (lookup m e t)) eqn:Htruthy.
      * unfold or_null. rewrite Htruthy.
        destruct (lookup m e t); [reflexivity|discriminate].
      * rewrite lookup_assign.
        assert (Hold : or_null (lookup m e t) = None)
          by (unfold or_null; now rewrite Htruthy).
        rewrite Hold. unfold or_null, truthy.
        destruct (url d =? "")%string; reflexivity.
    + now rewrite (lookup_step_other _ _ _ _ Hd).
Qed.

Lemma index_documentos_fold docs : index_documentos docs = fold_left index_step docs [].
Proof. reflexivity. Qed.

Lemma urls_of_selected e ids db :
  In e ids ->
  forall t,
    urls_of e t (filter (fun d => existsb (fun i => i =? empleado_id d) ids)
                   (documentos db))
    = urls_of e t (documentos db).
Proof.
  intros Hin t. unfold urls_of. f_equal.
  induction (documentos db) as [|d l IH]; [reflexivity|].
  cbn [filter]. destruct (existsb (fun i => i =? empleado_id d) ids) eqn:Hex.
  - cbn [filter]. now rewrite IH.
  - rewrite IH. destruct (is_doc e t d) eqn:Hd; [|reflexivity].
    exfalso. destruct (is_doc_eq _ _ _ Hd) as [He _].
    assert (Htrue : existsb (fun i => i =? empleado_id d) ids = true).
    { apply existsb_exists. exists e. split; [exact Hin|]. apply Z.eqb_eq. now rewrite He. }
    congruence.
Qed.

Lemma merge_fields docs e :
  r_id (merge (index_documentos docs) e) = id e /\
  r_dni (merge (index_documentos docs) e) = last_url (id e) "dni" docs /\
  r_certificados (merge (index_documentos docs) e)
    = first_url (id e) "certificados" docs /\
  r_antecedentes (merge (index_documentos docs) e)
    = last_url (id e) "antecedentes" docs /\
  r_medicos (merge (index_documentos docs) e) = last_url (id e) "medicos" docs /\
  r_capacitacion (merge (index_documentos docs) e)
    = first_url (id e) "capacitacion" docs.
Proof.
  unfold merge, last_url. rewrite index_documentos_fold.
  cbn [r_id r_dni r_certificados r_antecedentes r_medicos r_capacitacion].
  rewrite (last_wins docs (id e) "dni") by discriminate.
  rewrite (last_wins docs (id e) "antecedentes") by discriminate.
  rewrite (last_wins docs (id e) "medicos") by discriminate.
  rewrite (first_wins docs (id e) "certificados") by auto.
  rewrite (first_wins docs (id e) "capacitacion") by auto.
  cbn [lookup or_null truthy].
  repeat split;
    match goal with
    | |- or_null (match ?x with _ => _ end) = _ => destruct x; reflexivity
    | _ => reflexivity
    end.
Qed.

Lemma get_empleados_rows q db rows :
  fst (get_empleados no_faults q db) = json (JRows rows) ->
  exists emps,
    select_empleados (get_empleados_filters q) db = inr emps /\
    rows = map (merge (index_documentos
                         (filter (fun d => existsb (fun i => i =? empleado_id d)
                                              (map id emps))
                                 (documentos db))))
               emps.
Proof.
  unfold get_empleados, try_catch, bind, query, ret, no_faults. cbn [live].
  destruct (select_empleados (get_empleados_filters q) db) as [e|emps];
    [discriminate|].
  destruct emps as [|e0 es]; cbn [fst live]; intros H; inversion H.
  - now exists [].
  - exists (e0 :: es). split; reflexivity.
Qed.

(** X25.  The documents of GET /api/empleados: each employee of the
    answer carries, for certificados and for capacitacion, the first URL
    stored for it that is not empty, and for dni, antecedentes and
    medicos the last URL stored (null when that one is empty), in the
    order in which the rows of documentos are read; null where no row
    is stored. *)
Theorem empleados_first_or_last_document :
  forall (q : Query) (db : Db) (rows : list Row),
    fst (get_empleados no_faults q db) = json (JRows rows) ->
    forall r, In r rows ->
      r_certificados r = first_url (r_id r) "certificados" (documentos db) /\
      r_capacitacion r = first_url (r_id r) "capacitacion" (documentos db) /\
      r_dni r = last_url (r_id r) "dni" (documentos db) /\
      r_antecedentes r = last_url (r_id r) "antecedentes" (documentos db) /\
      r_medicos r = last_url (r_id r) "medicos" (documentos db).
Proof.
  intros q db rows Hrows r Hr.
  destruct (get_empleados_rows q db rows Hrows) as (emps & _ & ->).
  apply in_map_iff in Hr. destruct Hr as (e & <- & He).
  set (ids := map id emps) in *.
  assert (Hid : In (id e) ids) by (now apply in_map).
  destruct (merge_fields
              (filter (fun d => existsb (fun i => i =? empleado_id d) ids)
                 (documentos db)) e)
    as (Hrid & Hdni & Hcert & Hant & Hmed & Hcap).
  rewrite Hrid, Hdni, Hcert, Hant, Hmed, Hcap.
  unfold first_url, last_url. rewrite !(urls_of_selected _ _ _ Hid).
  repeat split.
Qed.

Lemma empleados_first_or_last_document_witness :
  fst (get_empleados no_faults (mkQuery None None None None None) several_docs)
    = json (JRows [mkRow 1 (Some "JUAN PEREZ LOPEZ") (Some "Lima") (Some "51")
                     (of_civil 2024 8 1)
                     (Some "https://cdn/1/dni-dorso.pdf")
                     (Some "https://cdn/1/cert-a.pdf") None None None]) /\
  first_url 1 "certificados" (documentos several_docs)
    = Some "https://cdn/1/cert-a.pdf" /\
  last_url 1 "dni" (documentos several_docs) = Some "https://cdn/1/dni-dorso.pdf".
Proof.
  assert (Hrows : fst (get_empleados no_faults (mkQuery None None None None None)
                         several_docs)
                  = json (JRows [mkRow 1 (Some "JUAN PEREZ LOPEZ") (Some "Lima")
                                   (Some "51") (of_civil 2024 8 1)
                                   (Some "https://cdn/1/dni-dorso.pdf")
                                   (Some "https://cdn/1/cert-a.pdf") None None None]))
    by reflexivity.
  destruct (empleados_first_or_last_document _ _ _ Hrows _ (or_introl eq_refl))
    as (Hcert & _ & Hdni & _).
  cbn [r_id r_certificados r_dni] in Hcert, Hdni.
  split; [exact Hrows|]. split; [exact (eq_sym Hcert)|exact (eq_sym Hdni)].
Defined.

(** X26.  In GET /api/empleados, of the SQL server and of the in-memory
    server alike, ano and mes filter only together: a request with ano
    and without mes (absent or empty) is answered as the request without
    ano, and likewise for mes without ano; and grupo=TODOS switches the
    group range off, whatever bounds are sent with it. *)
Theorem empleados_filters_work_in_pairs :
  forall (a m g gi gf : field),
    (truthy m = false ->
     (forall f db,
        get_empleados f (mkQuery a m g gi gf) db
          = get_empleados f (mkQuery None m g gi gf) db) /\
     (forall data,
        Demo.get_empleados data (Demo.mkQuery a m g gi gf)
          = Demo.get_empleados data (Demo.mkQuery None m g gi gf))) /\
    (truthy a = false ->
     (forall f db,
        get_empleados f (mkQuery a m g gi gf) db
          = get_empleados f (mkQuery a None g gi gf) db) /\
     (forall data,
        Demo.get_empleados data (Demo.mkQuery a m g gi gf)
          = Demo.get_empleados data (Demo.mkQuery a None g gi gf))) /\
    (g = Some "TODOS" ->
     (forall f db,
        get_empleados f (mkQuery a m g gi gf) db
          = get_empleados f (mkQuery a m g None None) db) /\
     (forall data,
        Demo.get_empleados data (Demo.mkQuery a m g gi gf)
          = Demo.get_empleados data (Demo.mkQuery a m g None None))).
Proof.
  intros a m g gi gf. split; [|split].
  - intros Hm.
    assert (Hor : or_null m = None) by (unfold or_null; now rewrite Hm).
    split.
    + intros f db. unfold get_empleados, get_empleados_filters.
      cbn [q_ano q_mes q_grupo q_grupoInicio q_grupoFin].
      rewrite Hor. destruct (or_null a); reflexivity.
    + intros data. unfold Demo.get_empleados.
      cbn [Demo.q_ano Demo.q_mes Demo.q_grupo Demo.q_grupoInicio Demo.q_grupoFin].
      rewrite Hor. destruct (or_null a); reflexivity.
  - intros Ha.
    assert (Hor : or_null a = None) by (unfold or_null; now rewrite Ha).
    split.
    + intros f db. unfold get_empleados, get_empleados_filters.
      cbn [q_ano q_mes q_grupo q_grupoInicio q_grupoFin].
      rewrite Hor. reflexivity.
    + intros data. unfold Demo.get_empleados.
      cbn [Demo.q_ano Demo.q_mes Demo.q_grupo Demo.q_grupoInicio Demo.q_grupoFin].
      rewrite Hor. reflexivity.
  - intros ->. split; reflexivity.
Qed.

Lemma empleados_filters_work_in_pairs_witness :
  Demo.get_empleados Demo.empleados
    (Demo.mkQuery (Some "1999") None None None None)
    = json (JRows Demo.empleados) /\
  Demo.get_empleados Demo.empleados
    (Demo.mkQuery None None (Some "TODOS") (Some "52") (Some "52"))
    = json (JRows Demo.empleados).
Proof.
  destruct (empleados_filters_work_in_pairs (Some "1999") None None None None)
    as ((_ & H1) & _); [reflexivity|].
  destruct (empleados_filters_work_in_pairs None None (Some "TODOS")
              (Some "52") (Some "52")) as (_ & _ & H2).
  destruct (H2 eq_refl) as [_ H2'].
  rewrite (H1 Demo.empleados), (H2' Demo.empleados). split; reflexivity.
Defined.
End EmpleadosListFacts.

(** ** The empleados SQL server: create and update *)

Module EmpleadosWritesFacts.
Import Js Http Pg Date Sql Empleados EmpleadosWrites.
Import EmpleadosWritesTerms.
Local Open Scope list_scope.

Ltac run_put :=
  unfold put_empleados, try_catch, bind, query, exec, ret, committed, ROLLBACK;
  cbn [live txn].

Lemma select_id_none id_ db :
  (forall e, In e (empleados db) -> id e <> id_) -> select_id id_ db = [].
Proof.
  intros H. unfold select_id. rewrite SqlFacts.filter_none; [reflexivity|].
  intros e He. apply Z.eqb_neq. now apply H.
Qed.

Lemma select_id_some id_ db :
  (exists e, In e (empleados db) /\ id e = id_) ->
  exists i rest, select_id id_ db = i :: rest.
Proof.
  intros (e & He & Hid). unfold select_id.
  assert (Hin : In e (filter (fun e0 => id e0 =? id_) (empleados db))).
  { apply filter_In. split; [exact He|now apply Z.eqb_eq]. }
  destruct (filter (fun e0 => id e0 =? id_) (empleados db)); [contradiction|].
  cbn [map]. eauto.
Qed.

(** X27.  PUT /api/empleados/:id of the SQL server looks the employee up
    first: when none has the id the answer is 404 and nothing changes.
    Otherwise the answer is {ok}, and nombre, sede and grupo each take
    the value sent when it is a string that is not empty and keep their
    stored value when it is absent or empty; id, fecha, every other
    employee and the documents are as they were.  When the UPDATE fails
    after the look-up the answer is 500 and nothing changes. *)
Theorem put_empleados_merges_sent_fields :
  forall (id_ : Z) (b : Body) (db : Db),
    ((forall e, In e (empleados db) -> id e <> id_) ->
     put_empleados no_faults id_ b db
       = (status_json 404 (JError "No encontrado"), db)) /\
    ((exists e, In e (empleados db) /\ id e = id_) ->
     fst (put_empleados no_faults id_ b db) = json JOk /\
     Forall2 (emp_updated id_ b) (empleados db)
       (empleados (snd (put_empleados no_faults id_ b db))) /\
     documentos (snd (put_empleados no_faults id_ b db)) = documentos db) /\
    ((exists e, In e (empleados db) /\ id e = id_) ->
     forall f x, f 0%nat = None -> f 1%nat = Some x ->
       put_empleados f id_ b db
         = (status_json 500 (JError "Error actualizando empleado"), db)).
Proof.
  intros id_ b db. split; [|split].
  - intros Habs. run_put. unfold no_faults. rewrite (select_id_none _ _ Habs).
    reflexivity.
  - intros Hex. destruct (select_id_some _ _ Hex) as (i & rest & Hsel).
    run_put. unfold no_faults. rewrite Hsel. cbn [live txn fst snd].
    unfold update_empleado. cbn [fst snd live txn empleados documentos].
    split; [reflexivity|]. split; [|reflexivity].
    clear. induction (empleados db) as [|e l IH]; constructor; [|exact IH].
    unfold emp_updated. destruct (id e =? id_) eqn:He.
    + cbn [id fecha nombre sede grupo]. rewrite !UpdateFacts.COALESCE_or_null.
      repeat split.
    + repeat split.
  - intros Hex f x F0 F1. destruct (select_id_some _ _ Hex) as (i & rest & Hsel).
    run_put. rewrite F0, Hsel. cbn [live txn]. rewrite F1. reflexivity.
Qed.

Lemma put_empleados_merges_sent_fields_witness :
  empleados (snd (put_empleados no_faults 2 (mkBody (Some "") None (Some "77"))
                    EmpleadosTerms.sample_db))
    = [mkEmpleado 1 (Some "JUAN PEREZ LOPEZ") (Some "Lima") (Some "51")
         (of_civil 2024 8 1);
       mkEmpleado 2 (Some "MARIA GARCIA FLORES") (Some "Arequipa") (Some "77")
         (of_civil 2024 8 5)] /\
  put_empleados update_lost 2 (mkBody (Some "X") None None) EmpleadosTerms.sample_db
    = (status_json 500 (JError "Error actualizando empleado"),
       EmpleadosTerms.sample_db) /\
  put_empleados no_faults 5 (mkBody (Some "X") None None) EmpleadosTerms.sample_db
    = (status_json 404 (JError "No encontrado"), EmpleadosTerms.sample_db).
Proof.
  destruct (put_empleados_merges_sent_fields 2 (mkBody (Some "X") None None)
              EmpleadosTerms.sample_db) as (_ & _ & Hlost).
  destruct (put_empleados_merges_sent_fields 5 (mkBody (Some "X") None None)
              EmpleadosTerms.sample_db) as (H404 & _).
  split; [reflexivity|]. split.
  - apply (Hlost (ex_intro _ (mkEmpleado 2 (Some "MARIA GARCIA FLORES")
                                (Some "Arequipa") (Some "A1") (of_civil 2024 8 5))
                    (conj (or_intror (or_introl eq_refl)) eq_refl))
             update_lost (mkExn (Some "08006")) eq_refl eq_refl).
  - apply H404. intros e He. simpl in He.
    destruct He as [<-|[<-|[]]]; simpl; discriminate.
Defined.

Section Scan.
Context {Row : Type} `{Columns Row}.
Lemma scan_all (rows : list Row) : scan [] rows = inr rows.
Proof.
  induction rows as [|r rows IH]; [reflexivity|].
  cbn [scan holds_all and_then]. rewrite IH. reflexivity.
Qed.
End Scan.

Lemma no_docs_no_url i docs :
  (forall d, In d docs -> empleado_id d <> i) ->
  forall t, EmpleadosListTerms.urls_of i t docs = [].
Proof.
  intros H t. unfold EmpleadosListTerms.urls_of.
  rewrite SqlFacts.filter_none; [reflexivity|].
  intros d Hd. unfold EmpleadosListTerms.is_doc.
  destruct (Z.eqb_spec (empleado_id d) i) as [E|_]; [|reflexivity].
  exfalso. now apply (H d).
Qed.

(** X28.  POST /api/empleados of the SQL server: a request that lacks
    nombre, sede or grupo (absent or empty) is answered 400 and nothing
    is stored.  Otherwise the employee is stored under the identifier
    the sequence hands out, which the answer carries; and when no
    document row refers to that identifier, the GET /api/empleados
    without parameters that follows lists every employee once, among
    them the new one with the fields as sent, the default date and null
    for each of its documents. *)
Theorem post_empleados_then_list :
  forall (default_fecha : date) (b : Body) (db : Db),
    (truthy (b_nombre b) && truthy (b_sede b) && truthy (b_grupo b) = false ->
     forall fault,
       post_empleados default_fecha fault b db
         = (status_json 400 (JError "Faltan campos"), db)) /\
    (forall nombre sede grupo,
       b = mkBody (Some nombre) (Some sede) (Some grupo) ->
       nombre <> "" -> sede <> "" -> grupo <> "" ->
       (forall d, In d (documentos db) -> empleado_id d <> empleados_id_seq db) ->
       let new := mkEmpleado (empleados_id_seq db) (Some nombre) (Some sede)
                    (Some grupo) default_fecha in
       let db' := mkDb (empleados db ++ [new]) (documentos db)
                    (empleados_id_seq db + 1) in
       post_empleados default_fecha None b db
         = (json (JOkId (empleados_id_seq db)), db') /\
       exists rows,
         get_empleados no_faults everything db' = (json (JRows rows), db') /\
         Permutation (map r_id rows) (map id (empleados db ++ [new])) /\
         In (mkRow (empleados_id_seq db) (Some nombre) (Some sede) (Some grupo)
               default_fecha None None None None None) rows).
Proof.
  intros default_fecha b db. split.
  - intros Hmiss fault. unfold post_empleados, try_catch, or_null.
    destruct (truthy (b_nombre b)); [|reflexivity].
    destruct (truthy (b_sede b)); [|destruct (b_nombre b); reflexivity].
    destruct (truthy (b_grupo b)); [discriminate|].
    destruct (b_nombre b), (b_sede b); reflexivity.
  - intros nombre sede grupo -> Hn Hs Hg Hdocs new db'. split.
    + unfold post_empleados, try_catch. cbn [b_nombre b_sede b_grupo].
      rewrite !DemoStoreFacts.or_null_text by assumption.
      reflexivity.
    + set (sorted := order_by fecha_desc_id_desc (empleados db')).
      assert (Hperm : Permutation sorted (empleados db'))
        by apply SqlFacts.order_by_perm.
      assert (Hnew : In new sorted).
      { apply (Permutation_in _ (Permutation_sym Hperm)).
        cbn [empleados db']. apply in_or_app. right. now left. }
      set (docs := filter (fun d => existsb (fun i => i =? empleado_id d)
                                      (map id sorted)) (documentos db)).
      exists (map (merge (index_documentos docs)) sorted).
      assert (Hsel : select_empleados (get_empleados_filters everything) db'
                     = inr sorted).
      { unfold select_empleados, select_where. cbn [get_empleados_filters everything
          q_ano q_mes q_grupo q_grupoInicio q_grupoFin or_null truthy
          Candidatos.where_ Candidatos.params map bind_all and_then andb].
        now rewrite scan_all. }
      split; [|split].
      * unfold get_empleados, try_catch, bind, query, ret, no_faults. cbn [live].
        rewrite Hsel. fold sorted.
        destruct sorted as [|e0 es] eqn:Hsorted; [contradiction|].
        cbn [live]. reflexivity.
      * rewrite map_map.
        assert (Hids : map (fun e => r_id (merge (index_documentos docs) e)) sorted
                       = map id sorted) by (apply map_ext; reflexivity).
        rewrite Hids. now apply Permutation_map.
      * apply in_map_iff. exists new. split; [|exact Hnew].
        destruct (EmpleadosListFacts.merge_fields docs new)
          as (_ & Hdni & Hcert & Hant & Hmed & Hcap).
        assert (Hnone : forall t, EmpleadosListTerms.urls_of (id new) t docs = []).
        { apply no_docs_no_url. intros d Hd. unfold docs in Hd.
          apply filter_In in Hd. destruct Hd as [Hd _]. now apply Hdocs. }
        unfold EmpleadosListTerms.first_url, EmpleadosListTerms.last_url in *.
        rewrite !Hnone in *. cbn [rev hd_error filter or_null truthy] in *.
        unfold merge in *.
        cbn [r_dni r_certificados r_antecedentes r_medicos r_capacitacion] in *.
        rewrite Hdni, Hcert, Hant, Hmed, Hcap. reflexivity.
Qed.

Lemma post_empleados_then_list_witness :
  post_empleados (of_civil 2024 10 1) None
    (mkBody (Some "ANA SOTO") (Some "Lima") (Some "53")) EmpleadosTerms.sample_db
    = (json (JOkId 3),
       mkDb (empleados EmpleadosTerms.sample_db
               ++ [mkEmpleado 3 (Some "ANA SOTO") (Some "Lima") (Some "53")
                     (of_civil 2024 10 1)])
            (documentos EmpleadosTerms.sample_db) 4).
Proof.
  destruct (post_empleados_then_list (of_civil 2024 10 1)
              (mkBody (Some "ANA SOTO") (Some "Lima") (Some "53"))
              EmpleadosTerms.sample_db) as [_ H].
  destruct (H "ANA SOTO" "Lima" "53" eq_refl) as [Hpost _]; try discriminate.
  - intros d Hd. simpl in Hd. destruct Hd as [<-|[]]. simpl. discriminate.
  - exact Hpost.
Defined.
End EmpleadosWritesFacts.

(** ** The employer profile *)

Module EmployerProfileFacts.
Import Js Http Pg Date Sql EmployerProfile.
Import EmployerProfileTerms.
Local Open Scope list_scope.

Lemma run_post_employer ruc_ name_ logo db :
  Sites.truthy_value ruc_ && Sites.truthy_value name_ = true ->
  post_employer None ruc_ name_ logo db
  = match upsert_employer (trim (Sites.to_string ruc_)) (trim (Sites.to_string name_))
            (sent_logo logo) db with
    | (inr up, db') => (json (JRow (Some up)), db')
    | (inl _, db') => (status_json 500 (JText "error"), db')
    end.
Proof.
  intros H. apply andb_prop in H. destruct H as [Hr Hn].
  unfold post_employer, try_catch. rewrite Hr, Hn. cbn [negb orb].
  unfold bind, exec, ret, committed, ROLLBACK, sent_logo. cbn [live txn].
  destruct (upsert_employer _ _ _ db) as [[e|up] db']; reflexivity.
Qed.

Lemma same_ruc_same_row (l : list Employer) e e' :
  NoDup (map ruc l) -> In e l -> In e' l -> ruc e = ruc e' -> e = e'.
Proof.
  induction l as [|x l IH]; intros Hnd He He' Hr; [contradiction|].
  inversion Hnd as [|? ? Hnotin Hnd']; subst.
  destruct He as [->|He], He' as [->|He'].
  - reflexivity.
  - exfalso. apply Hnotin. rewrite Hr. now apply in_map.
  - exfalso. apply Hnotin. rewrite <- Hr. now apply in_map.
  - now apply IH.
Qed.

Lemma overwrite_keys r n l e :
  id (overwrite r n l e) = id e /\ ruc (overwrite r n l e) = ruc e.
Proof. unfold overwrite. destruct (ruc e =? r)%string; split; reflexivity. Qed.

Lemma overwrite_twice r n l e : overwrite r n l (overwrite r n l e) = overwrite r n l e.
Proof.
  unfold overwrite. destruct (ruc e =? r)%string eqn:He; cbn [ruc id].
  - now rewrite He.
  - now rewrite He.
Qed.

Lemma overwrite_others r n l (E : list Employer) :
  (forall e, In e E -> ruc e <> r) -> map (overwrite r n l) E = E.
Proof.
  intros H. induction E as [|x E IH]; [reflexivity|]. cbn [map].
  rewrite IH by (intros e He; apply H; now right).
  unfold overwrite. destruct (String.eqb_spec (ruc x) r) as [Heq|_]; [|reflexivity].
  exfalso. apply (H x); [now left|exact Heq].
Qed.

Lemma filter_overwrite r n l (E : list Employer) :
  filter (fun e => (ruc e =? r)%string) (map (overwrite r n l) E)
  = map (overwrite r n l) (filter (fun e => (ruc e =? r)%string) E).
Proof.
  induction E as [|x E IH]; [reflexivity|]. cbn [map filter].
  destruct (overwrite_keys r n l x) as [_ Hr]. rewrite Hr.
  destruct (ruc x =? r)%string; cbn [map]; now rewrite IH.
Qed.

(** X29.  POST /api/employer needs a ruc and a name (400 otherwise) and
    stores at most one row per ruc.  On a table without two rows of one
    ruc: the answer is the stored row with the trimmed ruc and name and
    the logo sent; a new ruc adds that row under the next identifier, a
    known ruc keeps the identifier of its row and overwrites name and
    logo; rows of other rucs are as they were; sending the same body
    again answers with the same row and leaves the rows as they are;
    and after the first POST on an empty table, GET /api/employer
    answers with that row. *)
Theorem post_employer_upserts :
  forall (ruc_ name_ logo : Candidatos.value) (db : Db),
    (Sites.truthy_value ruc_ && Sites.truthy_value name_ = false ->
     forall fault,
       post_employer fault ruc_ name_ logo db
         = (status_json 400 (JText "RUC y nombre son obligatorios"), db)) /\
    (Sites.truthy_value ruc_ && Sites.truthy_value name_ = true ->
     NoDup (map ruc (employers db)) ->
     let r := trim (Sites.to_string ruc_) in
     let db' := snd (post_employer None ruc_ name_ logo db) in
     exists row,
       fst (post_employer None ruc_ name_ logo db) = json (JRow (Some row)) /\
       ruc row = r /\ name row = trim (Sites.to_string name_) /\
       logo_url row = sent_logo logo /\
       In row (employers db') /\
       NoDup (map ruc (employers db')) /\
       (forall e, ruc e <> r -> (In e (employers db') <-> In e (employers db))) /\
       ((forall e, In e (employers db) -> ruc e <> r) ->
        id row = employers_id_seq db /\ employers db' = employers db ++ [row]) /\
       (forall e, In e (employers db) -> ruc e = r ->
          id row = id e /\ map id (employers db') = map id (employers db)) /\
       post_employer None ruc_ name_ logo db'
         = (json (JRow (Some row)),
            mkDb (employers db') (employers_id_seq db' + 1)) /\
       (employers db = [] -> get_employer None db' = (json (JRow (Some row)), db'))).
Proof.
  intros ruc_ name_ logo db. split.
  - intros H fault. unfold post_employer, try_catch.
    destruct (Sites.truthy_value ruc_), (Sites.truthy_value name_);
      try discriminate; reflexivity.
  - intros Htruthy Hnd r db'. subst db'.
    set (n := trim (Sites.to_string name_)).
    set (l := sent_logo logo).
    rewrite (run_post_employer _ _ _ db Htruthy). fold r n l.
    unfold upsert_employer.
    destruct (filter (fun e => (ruc e =? r)%string) (employers db))
      as [|old rest] eqn:HF.
    + (* a new ruc *)
      set (row := mkEmployer (employers_id_seq db) r n l).
      assert (Hfree : forall e, In e (employers db) -> ruc e <> r).
      { intros e He Hr.
        assert (Hin : In e (filter (fun e0 => (ruc e0 =? r)%string) (employers db))).
        { apply filter_In. split; [exact He|now apply String.eqb_eq]. }
        rewrite HF in Hin. contradiction. }
      exists row. cbn [fst snd employers employers_id_seq].
      split; [reflexivity|]. split; [reflexivity|]. split; [reflexivity|].
      split; [reflexivity|].
      split; [apply in_or_app; right; now left|].
      split.
      { rewrite map_app. cbn [map ruc row].
        apply NoDup_app; [exact Hnd|repeat constructor; intros []|].
        intros x Hx [<-|[]]. apply in_map_iff in Hx.
        destruct Hx as (e & Hr & He). now apply (Hfree e). }
      split.
      { intros e He. split.
        - intros Hin. apply in_app_or in Hin. destruct Hin as [Hin|[<-|[]]];
            [exact Hin|]. exfalso. now apply He.
        - intros Hin. apply in_or_app. now left. }
      split; [intros _; split; reflexivity|].
      split.
      { intros e He Hr. exfalso. now apply (Hfree e). }
      split.
      { rewrite (run_post_employer _ _ _ _ Htruthy). fold r n l.
        unfold upsert_employer. cbn [employers employers_id_seq].
        rewrite filter_app, HF. cbn [filter app ruc row].
        rewrite String.eqb_refl. cbn [id ruc].
        fold (overwrite r n l). rewrite map_app.
        rewrite (overwrite_others r n l _ Hfree).
        cbn [map]. unfold overwrite. cbn [ruc id]. rewrite String.eqb_refl.
        reflexivity. }
      intros Hempty. rewrite Hempty. reflexivity.
    + (* a known ruc *)
      assert (Hold : In old (employers db) /\ ruc old = r).
      { assert (Hin : In old (filter (fun e => (ruc e =? r)%string) (employers db)))
          by (rewrite HF; now left).
        apply filter_In in Hin. destruct Hin as [Hin Hr].
        split; [exact Hin|now apply String.eqb_eq]. }
      destruct Hold as [Hold Hr].
      set (row := mkEmployer (id old) (ruc old) n l).
      fold (overwrite r n l).
      assert (Hrow : overwrite r n l old = row).
      { unfold overwrite. rewrite Hr, String.eqb_refl. subst row. now rewrite Hr. }
      exists row. cbn [fst snd employers employers_id_seq].
      split; [reflexivity|]. split; [exact Hr|]. split; [reflexivity|].
      split; [reflexivity|].
      split; [rewrite <- Hrow; now apply in_map|].
      assert (Hrucs : map ruc (map (overwrite r n l) (employers db))
                      = map ruc (employers db)).
      { rewrite map_map. apply map_ext. intros e. apply overwrite_keys. }
      assert (Hids : map id (map (overwrite r n l) (employers db))
                     = map id (employers db)).
      { rewrite map_map. apply map_ext. intros e. apply overwrite_keys. }
      split; [now rewrite Hrucs|].
      split.
      { intros e He. split.
        - intros Hin. apply in_map_iff in Hin. destruct Hin as (x & Hx & Hin).
          unfold overwrite in Hx. destruct (String.eqb_spec (ruc x) r) as [E|_].
          + exfalso. apply He. rewrite <- Hx. exact E.
          + now subst.
        - intros Hin. apply in_map_iff. exists e. split; [|exact Hin].
          unfold overwrite. destruct (String.eqb_spec (ruc e) r); [contradiction|].
          reflexivity. }
      split.
      { intros Hfree. exfalso. now apply (Hfree old). }
      split.
      { intros e He Her. split; [|exact Hids].
        assert (E : e = old)
          by (apply (same_ruc_same_row _ _ _ Hnd He Hold); congruence).
        now subst. }
      split.
      { rewrite (run_post_employer _ _ _ _ Htruthy). fold r n l.
        unfold upsert_employer. cbn [employers employers_id_seq].
        fold (overwrite r n l). rewrite filter_overwrite, HF. cbn [map].
        rewrite Hrow.
        assert (Hmap : map (overwrite r n l) (map (overwrite r n l) (employers db))
                       = map (overwrite r n l) (employers db)).
        { rewrite map_map. apply map_ext. intros e. apply overwrite_twice. }
        rewrite Hmap. reflexivity. }
      intros Hempty. rewrite Hempty in Hold. contradiction.
Qed.

Lemma post_employer_upserts_witness :
  post_employer None (Candidatos.VString " 20123456789 ")
    (Candidatos.VString "ACME SAC") (Candidatos.VString "") acme
    = (json (JRow (Some (mkEmployer 1 "20123456789" "ACME SAC" None))),
       mkDb [mkEmployer 1 "20123456789" "ACME SAC" None] 3).
Proof.
  destruct (post_employer_upserts (Candidatos.VString " 20123456789 ")
              (Candidatos.VString "ACME SAC") (Candidatos.VString "") acme)
    as [_ H].
  destruct H as (row & Hrow & _); [reflexivity| |].
  - simpl. repeat constructor. intros [].
  - reflexivity.
Defined.
End EmployerProfileFacts.

(** ** Effective dates that are not later *)

Module BackdatedFacts.
Import Js Http Pg Date Sql EmployerTax.
Import BackdatedTerms.
Import EmployerTaxTerms TaxWriterTerms.
Local Open Scope list_scope.



End BackdatedFacts.
